(** * vibe-coding: the project-to-report scripts

    A shallow embedding of the three report generators of the repository,

    - [scripts/generate4LLM/generate4llm_script.py]   (module [Generate4llmScript]),
    - [scripts/generate4LLM/dev-tools/generate4LLM.py] (module [DevTools]),
    - [scripts/llmcodeprep/project-to-gpt.py]         (module [ProjectToGpt]),

    together with the parts of the Python runtime they rely on: string
    methods, [sorted] and [list.sort], exceptions, and the [os] and
    [os.path] calls, the latter over an explicit file-system value.

    A Python [str] is represented by a Rocq [string] holding its UTF-8
    encoding; comparing such strings byte-wise agrees with comparing the
    texts by code point.  The contents of a file are a [list byte].
    Python integers are [Z].  A run sees one file system, which does not
    change while the script runs.

    Lower-casing, [str.lower], follows the Unicode tables of the
    interpreter.  The scripts only compare lower-cased names and look
    them up, so the programs take it as a parameter, the class
    [Py.Casing]: a function of the text of which no more is assumed than
    what it does to ASCII text.  The sample file systems hold ASCII
    names; what is stated of them reads lower-casing as
    [Py.ascii_casing]. *)

From Stdlib Require Import ZArith List Bool Ascii String Lia.
From Stdlib Require Import Permutation Sorted OrdersEx RelationClasses.
From Stdlib Require Strings.Byte.
Import ListNotations.

Local Open Scope list_scope.
Local Open Scope string_scope.

(** * Part I: the programs *)

(** ** Python values, strings, sorting and exceptions *)

Module Py.

(** The line feed, written [\n] in the source. *)
Definition nl : string := String (ascii_of_nat 10) EmptyString.

(** The carriage return. *)
Definition cr : ascii := ascii_of_nat 13.

(** [s.startswith(p)] *)
Definition startswith (s p : string) : bool := String.prefix p s.

(** [s.endswith(suf)]: some suffix of [s] is [suf]. *)
Fixpoint endswith (s suf : string) : bool :=
  (s =? suf)%string ||
  match s with
  | EmptyString => false
  | String _ s' => endswith s' suf
  end.

(** [s[1:]] *)
Definition drop_first (s : string) : string :=
  match s with
  | EmptyString => EmptyString
  | String _ s' => s'
  end.

(** [x in c] for a list or a set of strings. *)
Definition contains (c : list string) (x : string) : bool :=
  existsb (String.eqb x) c.

(** One ASCII letter of [s.lower()]. *)
Definition lower_ascii (c : ascii) : ascii :=
  let n := nat_of_ascii c in
  if (65 <=? n)%nat && (n <=? 90)%nat then ascii_of_nat (n + 32) else c.

(** [s.lower()] for an ASCII text [s]: the letters A to Z are folded. *)
Fixpoint ascii_lower (s : string) : string :=
  match s with
  | EmptyString => EmptyString
  | String c s' => String (lower_ascii c) (ascii_lower s')
  end.

(** [s.isascii()] *)
Fixpoint isascii (s : string) : bool :=
  match s with
  | EmptyString => true
  | String c s' => (nat_of_ascii c <? 128)%nat && isascii s'
  end.

(** [s.lower()].  Which characters have a lower-case form, and which
    form, is decided by the Unicode tables of the interpreter, for every
    cased letter of every script.  The programs below take lower-casing
    as it comes: a function of the text, known to fold the letters A to
    Z of an ASCII text and to leave the rest of such a text alone. *)
Class Casing : Type := {
  lower : string -> string;
  lower_isascii : forall s : string, isascii s = true -> lower s = ascii_lower s
}.

(** Lower-casing that folds the ASCII letters only.  It is [s.lower()]
    on ASCII text. *)
#[global] Instance ascii_casing : Casing :=
  {| lower := ascii_lower; lower_isascii := fun _ _ => eq_refl |}.

(** [s.lstrip('.')] *)
Fixpoint lstrip_dots (s : string) : string :=
  match s with
  | String "."%char s' => lstrip_dots s'
  | _ => s
  end.

(** [s.replace(a, b)] for single characters [a] and [b]. *)
Fixpoint replace_char (a b : ascii) (s : string) : string :=
  match s with
  | EmptyString => EmptyString
  | String c s' => String (if (c =? a)%char then b else c) (replace_char a b s')
  end.

(** [enumerate(l)] *)
Definition enumerate {A : Type} (l : list A) : list (Z * A) :=
  combine (map Z.of_nat (seq 0 (List.length l))) l.

(** [bool] values compare as [False < True]; a pair compares by its
    first component, then by its second. *)
Definition bool_ltb (a b : bool) : bool := negb a && b.

Definition key_leb (k1 k2 : bool * string) : bool :=
  if Bool.eqb (fst k1) (fst k2) then String.leb (snd k1) (snd k2)
  else bool_ltb (fst k1) (fst k2).

(** [sorted(l, key=...)] and [l.sort(key=...)] are stable: elements whose
    keys compare equal keep their order.  There is one stably sorted
    arrangement of a list, computed here by insertion from the right. *)
Section Sorting.
Context {A K : Type} (leb : K -> K -> bool) (key : A -> K).

Fixpoint insert (x : A) (l : list A) : list A :=
  match l with
  | [] => [x]
  | y :: l' => if leb (key x) (key y) then x :: l else y :: insert x l'
  end.

Fixpoint sorted (l : list A) : list A :=
  match l with
  | [] => []
  | x :: l' => insert x (sorted l')
  end.

(** [x] does not sort after [y]. *)
Definition key_le (x y : A) : Prop := leb (key x) (key y) = true.

End Sorting.

(** [sorted(l)] on strings. *)
Definition sorted_str (l : list string) : list string :=
  sorted String.leb (fun s => s) l.

(** The exceptions the scripts meet.  [KeyboardInterrupt] and
    [SystemExit] are not subclasses of [Exception]; [PermissionError] is
    a subclass of [OSError], [UnicodeDecodeError] one of [ValueError]. *)
Inductive exn : Type :=
| PermissionError (msg : string)
| OSError (msg : string)
| UnicodeDecodeError (msg : string)
| ValueError (msg : string)
| KeyboardInterrupt
| SystemExit (code : Z).

Definition is_Exception (e : exn) : bool :=
  match e with
  | KeyboardInterrupt | SystemExit _ => false
  | _ => true
  end.

Definition is_UnicodeDecodeError (e : exn) : bool :=
  match e with
  | UnicodeDecodeError _ => true
  | _ => false
  end.

(** [str(e)] *)
Definition str_of_exn (e : exn) : string :=
  match e with
  | PermissionError m | OSError m | UnicodeDecodeError m | ValueError m => m
  | KeyboardInterrupt => ""
  | SystemExit c => ""
  end.

(** The outcome of evaluating a Python expression or block. *)
Inductive result (A : Type) : Type :=
| Returned (a : A)
| Raised (e : exn).
Arguments Returned {A} a.
Arguments Raised {A} e.

Definition bind {A B : Type} (r : result A) (k : A -> result B) : result B :=
  match r with
  | Returned a => k a
  | Raised e => Raised e
  end.

(** [try: body  except C1 as e: h1  except C2 as e: h2 ...]: when the
    body raises, the first clause whose class the exception belongs to
    runs; with no such clause the exception propagates. *)
Fixpoint dispatch {A : Type}
         (clauses : list ((exn -> bool) * (exn -> result A))) (e : exn) : result A :=
  match clauses with
  | [] => Raised e
  | (catches, handler) :: rest =>
      if catches e then handler e else dispatch rest e
  end.

Definition try_except {A : Type} (body : result A)
           (clauses : list ((exn -> bool) * (exn -> result A))) : result A :=
  match body with
  | Returned a => Returned a
  | Raised e => dispatch clauses e
  end.

(** The exit status of the interpreter after running a script's [main]. *)
Definition exit_status {A : Type} (r : result A) : Z :=
  match r with
  | Returned _ => 0
  | Raised (SystemExit c) => c
  | Raised _ => 1
  end.

End Py.

(** ** [os.path] on POSIX path strings *)

Module OsPath.

Definition sep : ascii := "/"%char.

Fixpoint has_sep (p : string) : bool :=
  match p with
  | EmptyString => false
  | String c r => (c =? sep)%char || has_sep r
  end.

(** [os.path.basename(p)]: what follows the last separator. *)
Fixpoint basename (p : string) : string :=
  match p with
  | EmptyString => EmptyString
  | String c r =>
      if has_sep r then basename r
      else if (c =? sep)%char then r else p
  end.

(** [os.path.join(a, b)] *)
Definition join (a b : string) : string :=
  if Py.startswith b "/" then b
  else if (a =? "")%string || Py.endswith a "/" then a ++ b
  else a ++ "/" ++ b.

(** [p.split('/')] *)
Fixpoint split (p : string) : list string :=
  match p with
  | EmptyString => [EmptyString]
  | String c r =>
      if (c =? sep)%char then EmptyString :: split r
      else match split r with
           | [] => [String c EmptyString]
           | w :: ws => String c w :: ws
           end
  end.

Definition nonempty (s : string) : bool := negb (s =? "")%string.

(** The common prefix of two lists of components. *)
Fixpoint commonprefix (l1 l2 : list string) : list string :=
  match l1, l2 with
  | x :: l1', y :: l2' =>
      if (x =? y)%string then x :: commonprefix l1' l2' else []
  | _, _ => []
  end.

(** [os.path.relpath(path, start)] for absolute, normalised arguments,
    on which [abspath] is the identity.  The components joined at the
    end are non-empty and free of separators, so joining them is
    concatenating them with separators. *)
Definition relpath (path start : string) : string :=
  let start_list := filter nonempty (split start) in
  let path_list := filter nonempty (split path) in
  let i := List.length (commonprefix start_list path_list) in
  let rel_list := (repeat ".." (List.length start_list - i) ++ skipn i path_list)%list in
  match rel_list with
  | [] => "."
  | _ => String.concat "/" rel_list
  end.

(** [parts[:len(start)] == start] *)
Fixpoint parts_start (parts start : list string) : bool :=
  match start, parts with
  | [], _ => true
  | x :: start', y :: parts' => (x =? y)%string && parts_start parts' start'
  | _ :: _, [] => false
  end.

(** The root of a [pathlib] path on POSIX: a separator, or two when the
    path starts with exactly two, or nothing. *)
Definition root_of (p : string) : string :=
  if Py.startswith p "///" then "/"
  else if Py.startswith p "//" then "//"
  else if Py.startswith p "/" then "/"
  else "".

(** The parts of a [pathlib] path after its root: its components, the
    empty ones and the single dots left out. *)
Definition parts (p : string) : list string :=
  filter (fun c => nonempty c && negb (c =? ".")%string) (split p).

(** [path.relative_to(start)] of [pathlib], for two paths given as they
    print: the parts of [path] after those of [start], or a [ValueError]
    when the two paths differ in their roots or the parts of [start] are
    not the first parts of [path].  The message is the one of
    Python 3.11, for paths that [repr] shows as they are. *)
Definition relative_to (path start : string) : Py.result string :=
  let start_parts := parts start in
  let path_parts := parts path in
  if (root_of path =? root_of start)%string && parts_start path_parts start_parts
  then Py.Returned
         match skipn (List.length start_parts) path_parts with
         | [] => "."
         | rel_parts => String.concat "/" rel_parts
         end
  else Py.Raised
         (Py.ValueError
            ("'" ++ path ++ "' is not in the subpath of '"
               ++ match start_parts with
                  | [] => root_of start
                  | _ => start
                  end
               ++ "' OR one path is relative and the other is absolute.")).

(** The suffix of [s] that starts at its last dot. *)
Fixpoint last_dot_suffix (s : string) : option string :=
  match s with
  | EmptyString => None
  | String c r =>
      match last_dot_suffix r with
      | Some x => Some x
      | None => if (c =? ".")%char then Some s else None
      end
  end.

(** [os.path.splitext(p)[1]]: the extension starts at the last dot of
    the base name, the leading dots of the base name set aside. *)
Definition splitext_ext (p : string) : string :=
  match Py.lstrip_dots (basename p) with
  | EmptyString => EmptyString
  | String _ r =>
      match last_dot_suffix r with
      | Some x => x
      | None => EmptyString
      end
  end.

End OsPath.

(** ** The file system and the [os] calls *)

Module Os.

(** What [open(path)] followed by reading the bytes gives. *)
Inductive open_outcome : Type :=
| OpenError (msg : string)
| Opened (data : list Byte.byte).

(** What listing a directory gives. *)
Inductive listing : Type :=
| Listed (names : list string)
| Denied (msg : string).

(** A file system, as the scripts observe it.  [listdir] gives the names
    in the order the file system iterates them. *)
Record filesystem : Type := {
  listdir : string -> listing;
  isdir : string -> bool;
  isfile : string -> bool;
  islink : string -> bool;
  open_r : string -> open_outcome;
  open_w : string -> option string
}.

(** The file system once [with open(path, 'w') as f: f.write(...)] has
    put [data] into the file [name] of [directory]: the file is there,
    listed in its directory (last, when it was not listed before), and
    holds [data]. *)
Definition after_write (fs : filesystem) (directory name : string)
           (data : list Byte.byte) : filesystem :=
  let path := OsPath.join directory name in
  {| listdir p :=
       match listdir fs p with
       | Listed names =>
           if (p =? directory)%string && negb (Py.contains names name)
           then Listed (names ++ [name])
           else Listed names
       | Denied msg => Denied msg
       end;
     isdir := isdir fs;
     isfile p := (p =? path)%string || isfile fs p;
     islink := islink fs;
     open_r p := if (p =? path)%string then Opened data else open_r fs p;
     open_w := open_w fs |}.

(** Appending the results of a loop whose body may not terminate. *)
Fixpoint concat_options {A : Type} (l : list (option (list A))) : option (list A) :=
  match l with
  | [] => Some []
  | None :: _ => None
  | Some x :: l' =>
      match concat_options l' with
      | None => None
      | Some r => Some (x ++ r)%list
      end
  end.

(** [for root, dirs, files in os.walk(top): body], top-down and without
    following links.  The body receives the triple and gives back the
    list [dirs] as it left it, which the walk then descends into, and
    what it produced.  A directory that cannot be listed is skipped. *)
Fixpoint walk {A : Type} (fuel : nat) (fs : filesystem)
         (body : string -> list string -> list string -> list string * list A)
         (top : string) : option (list A) :=
  match fuel with
  | O => None
  | S fuel' =>
      match listdir fs top with
      | Denied _ => Some []
      | Listed names =>
          let dirs := filter (fun n => isdir fs (OsPath.join top n)) names in
          let nondirs := filter (fun n => negb (isdir fs (OsPath.join top n))) names in
          let '(dirs', out) := body top dirs nondirs in
          match concat_options
                  (map (fun dirname =>
                          let new_path := OsPath.join top dirname in
                          if islink fs new_path then Some []
                          else walk fuel' fs body new_path)
                       dirs')
          with
          | None => None
          | Some rest => Some (out ++ rest)%list
          end
      end
  end.

End Os.

(** ** Reading text files: codecs and newline translation *)

Module Codec.

Definition in_range (lo hi : N) (b : Byte.byte) : bool :=
  (lo <=? Byte.to_N b)%N && (Byte.to_N b <=? hi)%N.

(** A continuation byte, [10xxxxxx]. *)
Definition cont (b : Byte.byte) : bool := in_range 128 191 b.

(** The second byte of a three-byte sequence: no overlong form after
    [E0], no surrogate after [ED]. *)
Definition second_of_3 (b0 b1 : Byte.byte) : bool :=
  if in_range 224 224 b0 then in_range 160 191 b1
  else if in_range 237 237 b0 then in_range 128 159 b1
  else cont b1.

(** The second byte of a four-byte sequence: no overlong form after
    [F0], nothing above U+10FFFF after [F4]. *)
Definition second_of_4 (b0 b1 : Byte.byte) : bool :=
  if in_range 240 240 b0 then in_range 144 191 b1
  else if in_range 244 244 b0 then in_range 128 143 b1
  else cont b1.

(** The byte sequences the strict ['utf-8'] codec decodes. *)
Fixpoint utf8_valid (l : list Byte.byte) : bool :=
  match l with
  | [] => true
  | b0 :: r0 =>
      if in_range 0 127 b0 then utf8_valid r0
      else
        match r0 with
        | [] => false
        | b1 :: r1 =>
            if in_range 194 223 b0 then cont b1 && utf8_valid r1
            else
              match r1 with
              | [] => false
              | b2 :: r2 =>
                  if in_range 224 239 b0
                  then second_of_3 b0 b1 && cont b2 && utf8_valid r2
                  else
                    match r2 with
                    | [] => false
                    | b3 :: r3 =>
                        if in_range 240 244 b0
                        then second_of_4 b0 b1 && cont b2 && cont b3 && utf8_valid r3
                        else false
                    end
              end
        end
  end.

(** [data.decode('utf-8')]: the text of valid data is the data. *)
Definition decode_utf8 (data : list Byte.byte) : Py.result string :=
  if utf8_valid data then Py.Returned (string_of_list_byte data)
  else Py.Raised (Py.UnicodeDecodeError "'utf-8' codec can't decode bytes").

(** The UTF-8 encoding of the code point a Latin-1 byte stands for. *)
Definition latin1_char (b : Byte.byte) : string :=
  let n := Byte.to_N b in
  if (n <? 128)%N then String (ascii_of_N n) EmptyString
  else String (ascii_of_N (192 + n / 64))
         (String (ascii_of_N (128 + n mod 64)) EmptyString).

(** [data.decode('latin-1')]: every byte is a code point. *)
Fixpoint latin1_text (data : list Byte.byte) : string :=
  match data with
  | [] => EmptyString
  | b :: r => latin1_char b ++ latin1_text r
  end.

Definition decode_latin1 (data : list Byte.byte) : Py.result string :=
  Py.Returned (latin1_text data).

(** Text mode with the default [newline=None]: [\r\n] and [\r] are read
    as [\n]. *)
Fixpoint universal_newlines (s : string) : string :=
  match s with
  | EmptyString => EmptyString
  | String c r =>
      if (c =? Py.cr)%char then
        Py.nl ++
        match r with
        | EmptyString => EmptyString
        | String c' r' =>
            if (c' =? ascii_of_nat 10)%char then universal_newlines r'
            else universal_newlines r
        end
      else String c (universal_newlines r)
  end.

(** [with open(path, 'r', encoding=...) as f: return f.read()] *)
Definition read_text (o : Os.open_outcome)
           (decode : list Byte.byte -> Py.result string) : Py.result string :=
  match o with
  | Os.OpenError msg => Py.Raised (Py.OSError msg)
  | Os.Opened data =>
      Py.bind (decode data) (fun s => Py.Returned (universal_newlines s))
  end.

End Codec.

(** ** generate4llm_script.py *)

Module Generate4llmScript.

Definition include_files : list string :=
  [ "main.py"; "app.py"; "requirements.txt"; "README.md"; "config.py";
    "utils.py"; "models.py"; "views.py"; "routes.py";
    "*.js"; "*.html"; "*.css"; "*.json"; "*.yml"; "*.yaml";
    "Dockerfile"; "docker-compose.yml"; ".env.example";
    "package.json"; "tsconfig.json"; "*.ts"; "*.tsx"; "*.jsx" ].

Definition exclude_dirs : list string :=
  [ "__pycache__"; ".git"; ".vscode"; ".idea"; "node_modules"; ".next";
    "build"; "dist"; ".pytest_cache"; ".coverage"; "venv"; "env"; ".env";
    ".mypy_cache"; ".DS_Store" ].

Definition exclude_files : list string :=
  [ ".gitignore"; ".env"; "*.pyc"; "*.pyo"; "*.pyd"; ".DS_Store";
    "Thumbs.db"; "*.log"; "package-lock.json"; "package.old.json";
    "stockfish.js" ].

(** The loop of [should_include_file] returns [True] at the first
    pattern that matches and [False] when none does. *)
Definition should_include_file (file_path : string) : bool :=
  let file_name := OsPath.basename file_path in
  existsb
    (fun pattern =>
       if Py.startswith pattern "*"
       then let extension := Py.drop_first pattern in
            Py.endswith file_name extension
       else (file_name =? pattern)%string)
    include_files.

Definition should_exclude_from_tree (name : string) (is_dir : bool) : bool :=
  if is_dir then Py.contains exclude_dirs name
  else Py.contains exclude_files name || Py.startswith name ".".

(** An element of [items]: [(item, is_dir, item_path)]. *)
Definition tree_item : Type := string * bool * string.

(** The first loop of [generate_tree]: the entries that are kept. *)
Definition listed_items (fs : Os.filesystem) (directory : string)
           (names : list string) : list tree_item :=
  flat_map
    (fun item =>
       let item_path := OsPath.join directory item in
       let is_dir := Os.isdir fs item_path in
       if should_exclude_from_tree item is_dir then []
       else [(item, is_dir, item_path)])
    names.

(** [key=lambda x: (not x[1], x[0].lower())] *)
Definition sort_key {casing : Py.Casing} (x : tree_item) : bool * string :=
  (negb (snd (fst x)), Py.lower (fst (fst x))).

(** [generate_tree]; [fuel] bounds the nesting of the recursive calls,
    and [None] is a call that has not returned within it. *)
Fixpoint generate_tree {casing : Py.Casing} (fuel : nat) (fs : Os.filesystem)
         (directory prefix : string) (is_last : bool)
         (max_depth current_depth : Z) : option string :=
  match fuel with
  | O => None
  | S fuel' =>
      if (current_depth >? max_depth)%Z then Some ""
      else
        match Os.listdir fs directory with
        | Os.Denied _ => Some ("" ++ prefix ++ "[Permission Denied]" ++ Py.nl)
        | Os.Listed names =>
            let items := Py.sorted Py.key_leb sort_key (listed_items fs directory names) in
            fold_left
              (fun (acc : option string) (entry : Z * tree_item) =>
                 match acc with
                 | None => None
                 | Some tree_str =>
                     let '(i, (item, is_dir, item_path)) := entry in
                     let is_last_item := (i =? Z.of_nat (List.length items) - 1)%Z in
                     let tree_symbol := if is_last_item then "└── " else "├── " in
                     let next_prefix :=
                       if is_last_item then prefix ++ "    " else prefix ++ "│   " in
                     let tree_str := tree_str ++ (prefix ++ tree_symbol ++ item ++ Py.nl) in
                     if is_dir then
                       match generate_tree fuel' fs item_path next_prefix is_last_item
                                           max_depth (current_depth + 1) with
                       | None => None
                       | Some sub => Some (tree_str ++ sub)
                       end
                     else Some tree_str
                 end)
              (Py.enumerate items) (Some "")
        end
  end.

(** [read_file_content], given what each of its two [open] calls meets. *)
Definition read_file_content_with (first second : Os.open_outcome) : Py.result string :=
  Py.try_except (Codec.read_text first Codec.decode_utf8)
    [ (Py.is_UnicodeDecodeError,
       fun _ =>
         Py.try_except (Codec.read_text second Codec.decode_latin1)
           [ (Py.is_Exception,
              fun e => Py.Returned ("[Error reading file: " ++ Py.str_of_exn e ++ "]")) ]);
      (Py.is_Exception,
       fun e => Py.Returned ("[Error reading file: " ++ Py.str_of_exn e ++ "]")) ].

Definition read_file_content (fs : Os.filesystem) (file_path : string) : Py.result string :=
  read_file_content_with (Os.open_r fs file_path) (Os.open_r fs file_path).

(** The body of the loop over [os.walk(root_dir)]: the pruned [dirs] and
    the paths appended to [files_to_include]. *)
Definition walk_body (root_dir root : string) (dirs files : list string)
  : list string * list string :=
  (filter (fun d => negb (should_exclude_from_tree d true)) dirs,
   flat_map
     (fun file =>
        if should_exclude_from_tree file false then []
        else
          let file_path := OsPath.join root file in
          let relative_path := OsPath.relpath file_path root_dir in
          if should_include_file file_path then [relative_path] else [])
     files).

Definition find_files_to_include (fuel : nat) (fs : Os.filesystem)
           (root_dir : string) : option (list string) :=
  match Os.walk fuel fs (walk_body root_dir) root_dir with
  | None => None
  | Some files_to_include => Some (Py.sorted_str files_to_include)
  end.

Definition language_map : list (string * string) :=
  [ (".py", "python"); (".js", "javascript"); (".ts", "typescript");
    (".tsx", "typescript"); (".jsx", "javascript"); (".html", "html");
    (".css", "css"); (".json", "json"); (".yml", "yaml"); (".yaml", "yaml");
    (".md", "markdown"); (".sh", "bash"); (".sql", "sql"); (".xml", "xml");
    (".dockerfile", "dockerfile") ].

(** [d.get(k, default)] *)
Fixpoint dict_get (d : list (string * string)) (k default : string) : string :=
  match d with
  | [] => default
  | (k', v) :: d' => if (k =? k')%string then v else dict_get d' k default
  end.

(** One turn of the loop over [files_to_include]. *)
Definition file_section {casing : Py.Casing}
         (fs : Os.filesystem) (root_dir file_path : string)
           (markdown_content : string) : Py.result string :=
  let full_path := OsPath.join root_dir file_path in
  let display_path := Py.replace_char "\"%char "/"%char file_path in
  let markdown_content :=
    markdown_content ++ ("## FILE: " ++ display_path ++ Py.nl ++ Py.nl) in
  let file_extension := Py.lower (OsPath.splitext_ext file_path) in
  let language := dict_get language_map file_extension "" in
  Py.bind (read_file_content fs full_path) (fun file_content =>
  let markdown_content := markdown_content ++ ("```" ++ language ++ Py.nl) in
  let markdown_content := markdown_content ++ file_content in
  let markdown_content := markdown_content ++ (Py.nl ++ "```" ++ Py.nl ++ Py.nl) in
  Py.Returned markdown_content).

(** [generate_markdown] with [os.getcwd()] as [root_dir]; the progress
    lines it prints are left out.  It returns the text written to
    [4LLM.md], or raises [SystemExit(1)] when the file cannot be
    written. *)
Definition generate_markdown {casing : Py.Casing} (fuel : nat) (fs : Os.filesystem)
           (root_dir : string) : option (Py.result string) :=
  let output_file := "4LLM.md" in
  let folder_name := OsPath.basename root_dir in
  match generate_tree fuel fs root_dir "" true 10 0 with
  | None => None
  | Some tree =>
      let tree_structure := (folder_name ++ Py.nl) ++ tree in
      match find_files_to_include fuel fs root_dir with
      | None => None
      | Some files_to_include =>
          let markdown_content :=
            ("# Project Structure and Files" ++ Py.nl ++ Py.nl)
              ++ ("My folder structure is as below:" ++ Py.nl ++ Py.nl)
              ++ ("```" ++ Py.nl) ++ tree_structure ++ ("```" ++ Py.nl ++ Py.nl)
              ++ ("## File Contents" ++ Py.nl ++ Py.nl) in
          Some
            (Py.bind
               (fold_left
                  (fun acc file_path =>
                     Py.bind acc (file_section fs root_dir file_path))
                  files_to_include (Py.Returned markdown_content))
               (fun markdown_content =>
                  match Os.open_w fs output_file with
                  | None => Py.Returned markdown_content
                  | Some _ => Py.Raised (Py.SystemExit 1)
                  end))
      end
  end.

(** [main]: an interrupt or an error of [generate_markdown] ends the
    script with [sys.exit(1)]. *)
Definition main {casing : Py.Casing} (fuel : nat) (fs : Os.filesystem) (cwd : string)
  : option (Py.result string) :=
  match generate_markdown fuel fs cwd with
  | None => None
  | Some r =>
      Some (Py.try_except r
              [ ((fun e => match e with Py.KeyboardInterrupt => true | _ => false end),
                 fun _ => Py.Raised (Py.SystemExit 1));
                (Py.is_Exception, fun _ => Py.Raised (Py.SystemExit 1)) ])
  end.

End Generate4llmScript.

(** ** dev-tools/generate4LLM.py *)

Module DevTools.

Definition include_files : list string :=
  [ "main.py"; "app.py"; "requirements.txt"; "README.md"; "config.py";
    "utils.py"; "models.py"; "views.py"; "routes.py";
    "*.js"; "*.html"; "*.css"; "*.json"; "*.yml"; "*.yaml";
    "Dockerfile"; "docker-compose.yml"; ".env.example";
    "package.json"; "tsconfig.json"; "*.ts"; "*.tsx"; "*.jsx" ].

(** The initial value of the global set [exclude_dirs].
    [generate_markdown] adds the script's own directory to it, so the
    functions that read the global take its current value. *)
Definition exclude_dirs : list string :=
  [ "__pycache__"; ".git"; ".vscode"; ".idea"; "node_modules"; ".next";
    "build"; "dist"; ".pytest_cache"; ".coverage"; "venv"; "env"; ".env";
    ".mypy_cache"; ".DS_Store" ].

Definition exclude_files : list string :=
  [ ".gitignore"; ".env"; "*.pyc"; "*.pyo"; "*.pyd"; ".DS_Store";
    "Thumbs.db"; "*.log"; "package-lock.json"; "yarn.lock" ].

Definition should_include_file (file_path : string) : bool :=
  let file_name := OsPath.basename file_path in
  existsb
    (fun pattern =>
       if Py.startswith pattern "*"
       then Py.endswith file_name (Py.drop_first pattern)
       else (file_name =? pattern)%string)
    include_files.

Definition should_exclude (exclude_dirs : list string)
           (path_name : string) (is_dir : bool) : bool :=
  if is_dir then Py.contains exclude_dirs path_name
  else Py.contains exclude_files path_name.

Fixpoint generate_tree {casing : Py.Casing} (exclude_dirs : list string) (fuel : nat)
         (fs : Os.filesystem)
         (directory prefix : string) (max_depth current_depth : Z) : option string :=
  match fuel with
  | O => None
  | S fuel' =>
      if (current_depth >? max_depth)%Z then Some ""
      else
        match Os.listdir fs directory with
        | Os.Denied _ => Some ("" ++ prefix ++ "[Permission Denied]" ++ Py.nl)
        | Os.Listed names =>
            let items :=
              filter
                (fun item =>
                   negb (should_exclude exclude_dirs item
                           (Os.isdir fs (OsPath.join directory item))))
                names in
            let items :=
              Py.sorted Py.key_leb
                (fun x => (negb (Os.isdir fs (OsPath.join directory x)), Py.lower x))
                items in
            fold_left
              (fun (acc : option string) (entry : Z * string) =>
                 match acc with
                 | None => None
                 | Some tree_str =>
                     let '(i, item) := entry in
                     let is_last_item := (i =? Z.of_nat (List.length items) - 1)%Z in
                     let item_path := OsPath.join directory item in
                     let is_dir := Os.isdir fs item_path in
                     let tree_symbol := if is_last_item then "└── " else "├── " in
                     let next_prefix :=
                       prefix ++ (if is_last_item then "    " else "│   ") in
                     let tree_str := tree_str ++ (prefix ++ tree_symbol ++ item ++ Py.nl) in
                     if is_dir then
                       match generate_tree exclude_dirs fuel' fs item_path next_prefix
                                           max_depth (current_depth + 1) with
                       | None => None
                       | Some sub => Some (tree_str ++ sub)
                       end
                     else Some tree_str
                 end)
              (Py.enumerate items) (Some "")
        end
  end.

Definition read_file_content_with (first second : Os.open_outcome) : Py.result string :=
  Py.try_except (Codec.read_text first Codec.decode_utf8)
    [ (Py.is_UnicodeDecodeError,
       fun _ =>
         Py.try_except (Codec.read_text second Codec.decode_latin1)
           [ (Py.is_Exception,
              fun e => Py.Returned ("[Error reading file: " ++ Py.str_of_exn e ++ "]")) ]);
      (Py.is_Exception,
       fun e => Py.Returned ("[Error reading file: " ++ Py.str_of_exn e ++ "]")) ].

Definition read_file_content (fs : Os.filesystem) (file_path : string) : Py.result string :=
  read_file_content_with (Os.open_r fs file_path) (Os.open_r fs file_path).

(** The body of the loop over [os.walk(root_dir, topdown=True)]. *)
Definition walk_body (exclude_dirs : list string) (root_dir root : string)
           (dirs files : list string) : list string * list string :=
  (filter (fun d => negb (should_exclude exclude_dirs d true)) dirs,
   flat_map
     (fun file =>
        if should_exclude exclude_dirs file false then []
        else
          let file_path := OsPath.join root file in
          if should_include_file file_path
          then let relative_path := OsPath.relpath file_path root_dir in
               [relative_path]
          else [])
     files).

Definition find_files_to_process (exclude_dirs : list string) (fuel : nat)
           (fs : Os.filesystem) (root_dir : string) : option (list string) :=
  match Os.walk fuel fs (walk_body exclude_dirs root_dir) root_dir with
  | None => None
  | Some files_to_process => Some (Py.sorted_str files_to_process)
  end.

(** One turn of the loop over [files_to_process]. *)
Definition file_section (fs : Os.filesystem) (root_dir relative_path : string)
           (markdown_content : string) : Py.result string :=
  let full_path := OsPath.join root_dir relative_path in
  let display_path := relative_path in
  let markdown_content :=
    markdown_content ++ ("### `FILE: " ++ display_path ++ "`" ++ Py.nl ++ Py.nl) in
  let language := Py.lstrip_dots (OsPath.splitext_ext display_path) in
  Py.bind (read_file_content fs full_path) (fun file_content =>
  let markdown_content := markdown_content ++ ("```" ++ language ++ Py.nl) in
  let markdown_content := markdown_content ++ file_content in
  let markdown_content := markdown_content ++ (Py.nl ++ "```" ++ Py.nl ++ Py.nl) in
  Py.Returned markdown_content).

(** [generate_markdown], for the script at
    [root_dir/dev_tools_name/generate4LLM.py]; the progress lines it
    prints are left out.  It returns the text written to the report, or
    raises [SystemExit(1)] when the report cannot be written. *)
Definition generate_markdown {casing : Py.Casing} (fuel : nat) (fs : Os.filesystem)
           (root_dir dev_tools_name : string) : option (Py.result string) :=
  let exclude_dirs := dev_tools_name :: exclude_dirs in
  let output_file_path := OsPath.join root_dir "dev-tools/4LLM.md" in
  let project_name := OsPath.basename root_dir in
  match generate_tree exclude_dirs fuel fs root_dir "" 10 0 with
  | None => None
  | Some tree =>
      let tree_structure := (project_name ++ Py.nl) ++ tree in
      match find_files_to_process exclude_dirs fuel fs root_dir with
      | None => None
      | Some files_to_process =>
          let markdown_content :=
            ("# Project: " ++ project_name ++ Py.nl ++ Py.nl)
              ++ ("## Project Structure" ++ Py.nl ++ Py.nl)
              ++ ("```" ++ Py.nl) ++ tree_structure ++ ("```" ++ Py.nl ++ Py.nl)
              ++ ("--- " ++ Py.nl ++ Py.nl)
              ++ ("## File Contents" ++ Py.nl ++ Py.nl) in
          Some
            (Py.bind
               (fold_left
                  (fun acc relative_path =>
                     Py.bind acc (file_section fs root_dir relative_path))
                  files_to_process (Py.Returned markdown_content))
               (fun markdown_content =>
                  match Os.open_w fs output_file_path with
                  | None => Py.Returned markdown_content
                  | Some _ => Py.Raised (Py.SystemExit 1)
                  end))
      end
  end.

Definition main {casing : Py.Casing} (fuel : nat) (fs : Os.filesystem)
           (root_dir dev_tools_name : string)
  : option (Py.result string) :=
  match generate_markdown fuel fs root_dir dev_tools_name with
  | None => None
  | Some r =>
      Some (Py.try_except r
              [ ((fun e => match e with Py.KeyboardInterrupt => true | _ => false end),
                 fun _ => Py.Raised (Py.SystemExit 1));
                (Py.is_Exception, fun _ => Py.Raised (Py.SystemExit 1)) ])
  end.

End DevTools.

(** ** llmcodeprep/project-to-gpt.py *)

Module ProjectToGpt.

Definition IGNORED_DIRS : list string :=
  [ "node_modules"; ".git"; "dist"; "build"; "coverage"; "__pycache__";
    ".pytest_cache"; "venv"; "env" ].

Definition IGNORED_FILES : list string :=
  [ "package-lock.json"; "project_documentation.md" ].

Definition IGNORED_FILE_EXTENSIONS : list string :=
  [ ".png"; ".jpg"; ".jpeg"; ".gif"; ".svg"; ".ico";
    ".ttf"; ".woff"; ".woff2"; ".eot";
    ".mp4"; ".webm"; ".ogg";
    ".pdf"; ".doc"; ".docx";
    ".zip"; ".tar"; ".gz";
    ".pyc"; ".pyo"; ".pyd";
    ".lock" ].

Definition LANGUAGE_MAP : list (string * string) :=
  [ (".py", "python"); (".js", "javascript"); (".jsx", "jsx");
    (".ts", "typescript"); (".tsx", "tsx"); (".java", "java"); (".cpp", "cpp");
    (".c", "c"); (".html", "html"); (".css", "css"); (".scss", "scss");
    (".md", "markdown"); (".json", "json"); (".yaml", "yaml"); (".yml", "yaml");
    (".sh", "bash"); (".sql", "sql"); (".rs", "rust"); (".go", "go");
    (".rb", "ruby"); (".php", "php") ].

(** [path.name] *)
Definition name (path : string) : string := OsPath.basename path.

(** [path.suffix]: the name from its last dot on, unless that dot is the
    first or the last character of the name. *)
Definition suffix (path : string) : string :=
  match OsPath.last_dot_suffix (name path) with
  | None => ""
  | Some x =>
      if (x =? name path)%string || (x =? ".")%string then "" else x
  end.

Definition should_process_path {casing : Py.Casing} (path : string) : bool :=
  negb (Py.startswith (name path) ".")
  && negb (Py.contains IGNORED_DIRS (name path))
  && negb (Py.contains IGNORED_FILE_EXTENSIONS (Py.lower (suffix path)))
  && negb (Py.contains IGNORED_FILES (name path)).

Definition get_language_from_path {casing : Py.Casing} (file_path : string) : string :=
  Generate4llmScript.dict_get LANGUAGE_MAP (Py.lower (suffix file_path)) "".

(** What a run has produced so far: the text written to the output file
    and the lines printed. *)
Record output : Type := {
  written : string;
  printed : list string
}.

Definition write (o : output) (s : string) : output :=
  {| written := written o ++ s; printed := printed o |}.

Definition print (o : output) (line : string) : output :=
  {| written := written o; printed := (printed o ++ [line])%list |}.

(** [process_file].  The first statement of its [try] block may raise
    already: [relative_to] does for a file that is not below
    [root_path]. *)
Definition process_file {casing : Py.Casing} (fs : Os.filesystem) (file_path : string)
           (o : output) (root_path : string) : Py.result output :=
  Py.try_except
    (Py.bind (OsPath.relative_to file_path root_path) (fun relative_path =>
     let language := get_language_from_path file_path in
     Py.bind (Codec.read_text (Os.open_r fs file_path) Codec.decode_utf8)
       (fun content =>
          let o := write o (Py.nl ++ "file path: " ++ relative_path ++ Py.nl ++ Py.nl) in
          let o := write o ("```" ++ language ++ Py.nl ++ content ++ Py.nl ++ "```") in
          Py.Returned o)))
    [ (Py.is_UnicodeDecodeError,
       fun _ => Py.Returned
                  (print o ("Skipping binary or non-readable file: " ++ file_path)));
      (Py.is_Exception,
       fun e => Py.Returned
                  (print o ("Error processing file " ++ file_path ++ ": "
                              ++ Py.str_of_exn e))) ].

(** [process_directory].  The entries of one directory differ in their
    last component only, so sorting the paths is sorting the names.
    [fuel] bounds the nesting of the recursive calls. *)
Fixpoint process_directory {casing : Py.Casing}
         (fuel : nat) (fs : Os.filesystem) (dir_path : string)
         (o : output) (root_path : string) : option (Py.result output) :=
  match fuel with
  | O => None
  | S fuel' =>
      match Os.listdir fs dir_path with
      | Os.Denied msg =>
          Some (Py.Returned
                  (print o ("Error processing directory " ++ dir_path ++ ": " ++ msg)))
      | Os.Listed names =>
          fold_left
            (fun (acc : option (Py.result output)) (entry : string) =>
               match acc with
               | Some (Py.Returned o) =>
                   if negb (should_process_path entry) then Some (Py.Returned o)
                   else if Os.isdir fs entry
                        then process_directory fuel' fs entry o root_path
                        else if Os.isfile fs entry
                             then Some (process_file fs entry o root_path)
                             else Some (Py.Returned o)
               | other => other
               end)
            (map (OsPath.join dir_path) (Py.sorted_str names))
            (Some (Py.Returned o))
      end
  end.

(** [generate_documentation]; [now] is the formatted value of
    [datetime.datetime.now()]. *)
Definition generate_documentation {casing : Py.Casing} (fuel : nat) (fs : Os.filesystem)
           (now : string)
           (project_path output_file_path : string) (o : output)
  : option (Py.result output) :=
  match Os.open_w fs output_file_path with
  | Some msg => Some (Py.Raised (Py.OSError msg))
  | None =>
      let o := write o ("# Project Documentation" ++ Py.nl ++ Py.nl
                          ++ "Generated on: " ++ now ++ Py.nl ++ Py.nl) in
      match process_directory fuel fs project_path o project_path with
      | None => None
      | Some r =>
          Some (Py.bind r (fun o =>
                  Py.Returned
                    (print o ("Documentation generated successfully at "
                                ++ output_file_path))))
      end
  end.

(** [main], given the two resolved path arguments. *)
Definition main {casing : Py.Casing} (fuel : nat) (fs : Os.filesystem) (now : string)
           (project_path output_file_path : string) : option (Py.result output) :=
  let o := {| written := ""; printed := [] |} in
  if negb (Os.isdir fs project_path) then
    Some (Py.Returned
            (print o ("Error: The provided project path '" ++ project_path
                        ++ "' is not a valid directory.")))
  else
    let o := print o ("Starting documentation generation for: " ++ project_path) in
    generate_documentation fuel fs now project_path output_file_path o.

End ProjectToGpt.

(** ** The path filter as the specification words it *)

Module PathFilterSpec.

(** An exclusion entry matches a name when it is that name, or when it
    is a wildcard [*.ext] and the name ends with [.ext]. *)
Definition entry_matches (name entry : string) : bool :=
  (name =? entry)%string ||
  (Py.startswith entry "*." && Py.endswith name (Py.drop_first entry)).

Definition isExcludedFile (strict : bool) (exclude_files : list string)
           (name : string) : bool :=
  existsb (entry_matches name) exclude_files ||
  (strict && Py.startswith name ".").

End PathFilterSpec.

(** ** Sample file systems *)

Module Sample.

Fixpoint lookup {V : Type} (k : string) (l : list (string * V)) : option V :=
  match l with
  | [] => None
  | (k', v) :: l' => if (k =? k')%string then Some v else lookup k l'
  end.

(** The file system with the given directories (path and listing, in
    iteration order), unreadable directories and files (path and bytes). *)
Definition mkfs (dirs : list (string * list string)) (locked : list string)
           (files : list (string * list Byte.byte)) : Os.filesystem :=
  {| Os.listdir p :=
       match lookup p dirs with
       | Some names => Os.Listed names
       | None => Os.Denied ("[Errno 13] Permission denied: '" ++ p ++ "'")
       end;
     Os.isdir p := Py.contains (map fst dirs) p || Py.contains locked p;
     Os.isfile p := Py.contains (map fst files) p;
     Os.islink _ := false;
     Os.open_r p :=
       match lookup p files with
       | Some data => Os.Opened data
       | None => Os.OpenError ("[Errno 2] No such file or directory: '" ++ p ++ "'")
       end;
     Os.open_w _ := None |}.

(** No name occurs twice in [l]. *)
Fixpoint distinctb (l : list string) : bool :=
  match l with
  | [] => true
  | x :: l' => negb (Py.contains l' x) && distinctb l'
  end.

(** The bytes of an ASCII text. *)
Definition bytes (s : string) : list Byte.byte := list_byte_of_string s.

(** A small project: sources, a lock file, a dependency directory, a
    hidden file and a directory that cannot be listed. *)
Definition project : Os.filesystem :=
  mkfs
    [ ("/p", ["src"; "package-lock.json"; "app.py"; "node_modules"; "Zed.js";
              ".env.example"; "secret"; "debug.log"]);
      ("/p/src", ["index.js"; "lib"; "README.md"]);
      ("/p/src/lib", ["util.ts"]);
      ("/p/node_modules", ["left-pad.js"]) ]
    [ "/p/secret" ]
    [ ("/p/package-lock.json", bytes "{}");
      ("/p/app.py", bytes "print(1)");
      ("/p/Zed.js", bytes "z");
      ("/p/.env.example", bytes "K=V");
      ("/p/debug.log", bytes "log");
      ("/p/src/index.js", bytes "i");
      ("/p/src/README.md", bytes "# r");
      ("/p/src/lib/util.ts", bytes "u");
      ("/p/node_modules/left-pad.js", bytes "l") ].

(** A directory with two files whose names differ in case only, in
    the two orders a file system may iterate them. *)
Definition mixed_case : Os.filesystem :=
  mkfs [ ("/q", ["README"; "readme"]) ] []
       [ ("/q/README", bytes "upper"); ("/q/readme", bytes "lower") ].

Definition mixed_case_reordered : Os.filesystem :=
  mkfs [ ("/q", ["readme"; "README"]) ] []
       [ ("/q/README", bytes "upper"); ("/q/readme", bytes "lower") ].

(** The small project, its directories iterated in the opposite order. *)
Definition project_reordered : Os.filesystem :=
  mkfs
    [ ("/p", ["debug.log"; "secret"; ".env.example"; "Zed.js"; "node_modules";
              "app.py"; "package-lock.json"; "src"]);
      ("/p/src", ["README.md"; "lib"; "index.js"]);
      ("/p/src/lib", ["util.ts"]);
      ("/p/node_modules", ["left-pad.js"]) ]
    [ "/p/secret" ]
    [ ("/p/package-lock.json", bytes "{}");
      ("/p/app.py", bytes "print(1)");
      ("/p/Zed.js", bytes "z");
      ("/p/.env.example", bytes "K=V");
      ("/p/debug.log", bytes "log");
      ("/p/src/index.js", bytes "i");
      ("/p/src/README.md", bytes "# r");
      ("/p/src/lib/util.ts", bytes "u");
      ("/p/node_modules/left-pad.js", bytes "l") ].

(** A project on which generate4llm_script.py has run before. *)
Definition reported : Os.filesystem :=
  mkfs [ ("/r", ["app.py"; "4LLM.md"; "dev-tools"]);
         ("/r/dev-tools", ["generate4LLM.py"; "4LLM.md"]) ]
       []
       [ ("/r/app.py", bytes "print(1)");
         ("/r/4LLM.md", bytes "the report of an earlier run");
         ("/r/dev-tools/generate4LLM.py", bytes "pass");
         ("/r/dev-tools/4LLM.md", bytes "the report of an earlier run") ].

(** A directory with a file that is not UTF-8 text and, listed beside
    it, a file that cannot be opened. *)
Definition binary : Os.filesystem :=
  mkfs [ ("/b", ["blob.txt"; "gone.txt"]) ] []
       [ ("/b/blob.txt", [Byte.xff; Byte.xfe; Byte.x00]) ].

(** Lower-casing that folds, besides the ASCII letters, the capital
    letters of Latin-1, from U+00C0 to U+00DE without the multiplication
    sign, as [str.lower] does: in UTF-8 they are the byte [c3] and a byte
    from [80] to [9e], which moves up by 32. *)
Fixpoint latin1_lower (s : string) : string :=
  match s with
  | EmptyString => EmptyString
  | String c r =>
      if (nat_of_ascii c =? 195)%nat then
        match r with
        | EmptyString => String c EmptyString
        | String d r' =>
            let n := nat_of_ascii d in
            if (128 <=? n)%nat && (n <=? 158)%nat && negb (n =? 151)%nat
            then String c (String (ascii_of_nat (n + 32)) (latin1_lower r'))
            else String c (latin1_lower r)
        end
      else String (Py.lower_ascii c) (latin1_lower r)
  end.

Definition latin1_casing : Py.Casing :=
  {| Py.lower s := if Py.isascii s then Py.ascii_lower s else latin1_lower s;
     Py.lower_isascii s H :=
       @eq_ind_r bool true
                 (fun b : bool =>
                    (if b then Py.ascii_lower s else latin1_lower s) = Py.ascii_lower s)
                 eq_refl (Py.isascii s) H |}.

(** A directory with two files whose names stand one way by their bytes
    and the other way once lower-cased. *)
Definition accented : Os.filesystem :=
  mkfs [ ("/a", ["Éz"; "éa"]) ] []
       [ ("/a/Éz", bytes "upper"); ("/a/éa", bytes "lower") ].

(** A directory that holds a link to itself. *)
Definition link_cycle : Os.filesystem :=
  {| Os.listdir _ := Os.Listed ["again"];
     Os.isdir _ := true;
     Os.isfile _ := false;
     Os.islink _ := true;
     Os.open_r p := Os.OpenError ("[Errno 21] Is a directory: '" ++ p ++ "'");
     Os.open_w _ := None |}.

(** The small project on a medium that cannot be written. *)
Definition read_only : Os.filesystem :=
  {| Os.listdir := Os.listdir project;
     Os.isdir := Os.isdir project;
     Os.isfile := Os.isfile project;
     Os.islink := Os.islink project;
     Os.open_r := Os.open_r project;
     Os.open_w p := Some ("[Errno 30] Read-only file system: '" ++ p ++ "'") |}.

End Sample.

(** * Part II: the renderer and the collector in closed form *)

(** ** The tree renderer *)

(** Both [generate_tree] functions are the renderer below, for their own
    exclusion test: it lists a directory, keeps and sorts the entries,
    and writes one line per entry, each followed by the rendering of the
    entry when it is a directory. *)

Module Tree.

(** A kept entry: [(name, is_dir, path)]. *)
Definition item : Type := string * bool * string.

Definition item_name (x : item) : string := fst (fst x).
Definition item_is_dir (x : item) : bool := snd (fst x).
Definition item_path (x : item) : string := snd x.

Definition glyph (is_last : bool) : string :=
  if is_last then "└── " else "├── ".

Definition indent (is_last : bool) : string :=
  if is_last then "    " else "│   ".

(** The line written for an entry. *)
Definition line (prefix : string) (is_last : bool) (name : string) : string :=
  prefix ++ glyph is_last ++ name ++ Py.nl.

(** [x] may stand before [y]: a directory before a file, and within
    directories and within files the lower-cased names in order, as
    [str] values compare. *)
Definition in_order {casing : Py.Casing} (x y : item) : Prop :=
  (item_is_dir x = true /\ item_is_dir y = false) \/
  (item_is_dir x = item_is_dir y /\
   String.leb (Py.lower (item_name x)) (Py.lower (item_name y)) = true).

(** Writing after what has been written. *)
Definition with_prefix (acc : string) (r : option string) : option string :=
  match r with
  | None => None
  | Some s => Some (acc ++ s)
  end.

Section Renderer.
Context {casing : Py.Casing}.
Variable excluded : string -> bool -> bool.
Variable fs : Os.filesystem.

Definition entry (directory name : string) : item :=
  (name, Os.isdir fs (OsPath.join directory name), OsPath.join directory name).

(** The entries of a listing that are not excluded. *)
Definition kept (directory : string) (names : list string) : list item :=
  map (entry directory)
      (filter (fun name =>
                 negb (excluded name (Os.isdir fs (OsPath.join directory name))))
              names).

(** The entries in the order they are written. *)
Definition level (directory : string) (names : list string) : list item :=
  Py.sorted Py.key_leb Generate4llmScript.sort_key (kept directory names).

(** The lines for the entries [items], the first of which is entry
    number [i] of [n]; [rec] renders a subdirectory. *)
Fixpoint lines (rec : string -> string -> option string) (prefix : string)
         (n i : Z) (items : list item) : option string :=
  match items with
  | [] => Some ""
  | x :: rest =>
      let is_last_item := (i =? n - 1)%Z in
      match (if item_is_dir x
             then rec (item_path x) (prefix ++ indent is_last_item)
             else Some "") with
      | None => None
      | Some sub =>
          match lines rec prefix n (i + 1) rest with
          | None => None
          | Some below =>
              Some (line prefix is_last_item (item_name x) ++ sub ++ below)
          end
      end
  end.

Fixpoint render (fuel : nat) (directory prefix : string)
         (max_depth current_depth : Z) : option string :=
  match fuel with
  | O => None
  | S fuel' =>
      if (current_depth >? max_depth)%Z then Some ""
      else
        match Os.listdir fs directory with
        | Os.Denied _ => Some (prefix ++ "[Permission Denied]" ++ Py.nl)
        | Os.Listed names =>
            let items := level directory names in
            lines (fun path next_prefix =>
                     render fuel' path next_prefix max_depth (current_depth + 1))
                  prefix (Z.of_nat (List.length items)) 0 items
        end
  end.

(** What rendering one listed directory amounts to: the entries written
    are the kept ones, rearranged so that they stand in order, hence
    with only files after a file, and the text is their lines, the
    rendering of each subdirectory (by [render_sub], under the extended
    prefix) right below its line. *)
Definition level_rendered (render_sub : string -> string -> option string)
           (directory prefix : string) (names : list string)
           (result : option string) : Prop :=
  let items := level directory names in
  Permutation (kept directory names) items /\
  StronglySorted in_order items /\
  (forall before x after,
      items = (before ++ x :: after)%list ->
      item_is_dir x = false ->
      Forall (fun y => item_is_dir y = false) after) /\
  result = lines render_sub prefix (Z.of_nat (List.length items)) 0 items.

End Renderer.

End Tree.

(** ** The file collector *)

(** Both collectors are the walk below, for their own exclusion and
    inclusion tests. *)

Module Collector.

(** A name a directory can hold: not empty, and free of separators. *)
Definition good_name (n : string) : bool :=
  OsPath.nonempty n && negb (OsPath.has_sep n).

(** The components, each after a separator. *)
Fixpoint slashes (comps : list string) : string :=
  match comps with
  | [] => ""
  | c :: rest => "/" ++ c ++ slashes rest
  end.

(** The absolute, normalised path with the given components. *)
Definition abs (comps : list string) : string :=
  match comps with
  | [] => "/"
  | _ => slashes comps
  end.

(** Free of separators. *)
Definition sepfree (s : string) : Prop := OsPath.has_sep s = false.

(** The listings of a file system hold good names. *)
Definition good_listings (fs : Os.filesystem) : Prop :=
  forall path names,
    Os.listdir fs path = Os.Listed names ->
    Forall (fun n => good_name n = true) names.

(** No listing of a file system holds a name twice. *)
Definition distinct_listings (fs : Os.filesystem) : Prop :=
  forall path names, Os.listdir fs path = Os.Listed names -> NoDup names.

Section Body.
Variable excluded : string -> bool -> bool.
Variable included : string -> bool.
Variable root_dir : string.

(** What a collector does with one file of the directory [root]. *)
Definition visit (root file : string) : list string :=
  if excluded file false then []
  else if included (OsPath.join root file)
       then [OsPath.relpath (OsPath.join root file) root_dir]
       else [].

Definition body (root : string) (dirs files : list string)
  : list string * list string :=
  (filter (fun d => negb (excluded d true)) dirs, flat_map (visit root) files).

Definition collect (fuel : nat) (fs : Os.filesystem) : option (list string) :=
  match Os.walk fuel fs body root_dir with
  | None => None
  | Some found => Some (Py.sorted_str found)
  end.

(** The components [m] of a path below the directory [root ++ below]
    that a collector may return: good names, the directories on the way
    not excluded, the file neither excluded nor left out. *)
Definition admissible (root below m : list string) : Prop :=
  m <> [] /\
  Forall (fun n => good_name n = true) m /\
  Forall (fun d => excluded d true = false) (removelast m) /\
  excluded (last m "") false = false /\
  included (abs (root ++ below ++ m)) = true.

(** The files of the directory [root ++ below] that are taken. *)
Definition chosen (root below : list string) (f : string) : bool :=
  negb (excluded f false) && included (abs (root ++ below ++ [f])).

(** The components [m] pass through one of the directories [ds]. *)
Definition below_dir (root : list string) (ds : list string)
           (below m : list string) : Prop :=
  exists d m', m = d :: m' /\ In d ds /\ excluded d true = false /\
               admissible root (below ++ [d]) m'.

End Body.

(** The components of a relative path that name directories. *)
Definition ancestors (relative_path : string) : list string :=
  removelast (OsPath.split relative_path).

End Collector.

(** ** Directory contents up to iteration order *)

Module Order.

(** Two listings of the same entries. *)
Definition same_listing (a b : Os.listing) : Prop :=
  match a, b with
  | Os.Listed n1, Os.Listed n2 => Permutation n1 n2
  | Os.Denied m1, Os.Denied m2 => m1 = m2
  | _, _ => False
  end.

(** Two views of the same directory contents: they differ at most in
    the order in which directories are iterated. *)
Definition same_up_to_order (fs1 fs2 : Os.filesystem) : Prop :=
  (forall p, same_listing (Os.listdir fs1 p) (Os.listdir fs2 p)) /\
  (forall p, Os.isdir fs1 p = Os.isdir fs2 p) /\
  (forall p, Os.isfile fs1 p = Os.isfile fs2 p) /\
  (forall p, Os.islink fs1 p = Os.islink fs2 p) /\
  (forall p, Os.open_r fs1 p = Os.open_r fs2 p) /\
  (forall p, Os.open_w fs1 p = Os.open_w fs2 p).

(** No directory holds two entries of the same kind whose names are
    equal once lower-cased. *)
Definition unambiguous {casing : Py.Casing} (fs : Os.filesystem) : Prop :=
  forall path names n1 n2,
    Os.listdir fs path = Os.Listed names ->
    In n1 names -> In n2 names ->
    Os.isdir fs (OsPath.join path n1) = Os.isdir fs (OsPath.join path n2) ->
    Py.lower n1 = Py.lower n2 ->
    n1 = n2.

(** Two loops that both return, with the same elements, or that both
    do not. *)
Definition same_elements {A : Type} (a b : option (list A)) : Prop :=
  match a, b with
  | Some l1, Some l2 => Permutation l1 l2
  | None, None => True
  | _, _ => False
  end.

End Order.

(** ** The timestamp of project-to-gpt.py *)

Module Stamp.

(** What a run has produced, after what had been produced before. *)
Definition extend (o d : ProjectToGpt.output) : ProjectToGpt.output :=
  {| ProjectToGpt.written := ProjectToGpt.written o ++ ProjectToGpt.written d;
     ProjectToGpt.printed := (ProjectToGpt.printed o ++ ProjectToGpt.printed d)%list |}.

Definition nothing : ProjectToGpt.output :=
  {| ProjectToGpt.written := ""; ProjectToGpt.printed := [] |}.

Definition map_result {A B : Type} (f : A -> B) (r : Py.result A) : Py.result B :=
  match r with
  | Py.Returned a => Py.Returned (f a)
  | Py.Raised e => Py.Raised e
  end.

(** The heading of the report, with its timestamp line. *)
Definition heading (now : string) : string :=
  "# Project Documentation" ++ Py.nl ++ Py.nl
    ++ "Generated on: " ++ now ++ Py.nl ++ Py.nl.

(** The report of a run at time [now] whose traversal produced [d]. *)
Definition stamped (o : ProjectToGpt.output) (now output_file_path : string)
           (d : ProjectToGpt.output) : ProjectToGpt.output :=
  ProjectToGpt.print
    (extend (ProjectToGpt.write o (heading now)) d)
    ("Documentation generated successfully at " ++ output_file_path).

End Stamp.

(** ** The reports, piece by piece *)

Module Report.

(** The text [read_file_content] gives for what its two [open] calls
    meet. *)
Definition content (first second : Os.open_outcome) : string :=
  match first with
  | Os.OpenError msg => "[Error reading file: " ++ msg ++ "]"
  | Os.Opened data =>
      if Codec.utf8_valid data
      then Codec.universal_newlines (string_of_list_byte data)
      else match second with
           | Os.OpenError msg => "[Error reading file: " ++ msg ++ "]"
           | Os.Opened data' => Codec.universal_newlines (Codec.latin1_text data')
           end
  end.

(** The text of the file at [path]. *)
Definition content_at (fs : Os.filesystem) (path : string) : string :=
  content (Os.open_r fs path) (Os.open_r fs path).

(** A fenced block. *)
Definition fenced (language text : string) : string :=
  ("```" ++ language ++ Py.nl) ++ text ++ (Py.nl ++ "```" ++ Py.nl ++ Py.nl).

(** The section of one file in the report of generate4llm_script.py. *)
Definition section {casing : Py.Casing} (fs : Os.filesystem) (root_dir file_path : string)
  : string :=
  ("## FILE: " ++ Py.replace_char "\"%char "/"%char file_path ++ Py.nl ++ Py.nl)
    ++ fenced (Generate4llmScript.dict_get Generate4llmScript.language_map
                 (Py.lower (OsPath.splitext_ext file_path)) "")
              (content_at fs (OsPath.join root_dir file_path)).

(** What precedes the sections in the report of generate4llm_script.py. *)
Definition preamble (root_dir tree : string) : string :=
  ("# Project Structure and Files" ++ Py.nl ++ Py.nl)
    ++ ("My folder structure is as below:" ++ Py.nl ++ Py.nl)
    ++ ("```" ++ Py.nl) ++ ((OsPath.basename root_dir ++ Py.nl) ++ tree)
    ++ ("```" ++ Py.nl ++ Py.nl)
    ++ ("## File Contents" ++ Py.nl ++ Py.nl).

(** The section of one file in the report of dev-tools/generate4LLM.py. *)
Definition dev_section (fs : Os.filesystem) (root_dir relative_path : string) : string :=
  ("### `FILE: " ++ relative_path ++ "`" ++ Py.nl ++ Py.nl)
    ++ fenced (Py.lstrip_dots (OsPath.splitext_ext relative_path))
              (content_at fs (OsPath.join root_dir relative_path)).

(** What precedes the sections in the report of dev-tools/generate4LLM.py. *)
Definition dev_preamble (root_dir tree : string) : string :=
  ("# Project: " ++ OsPath.basename root_dir ++ Py.nl ++ Py.nl)
    ++ ("## Project Structure" ++ Py.nl ++ Py.nl)
    ++ ("```" ++ Py.nl) ++ ((OsPath.basename root_dir ++ Py.nl) ++ tree)
    ++ ("```" ++ Py.nl ++ Py.nl)
    ++ ("--- " ++ Py.nl ++ Py.nl)
    ++ ("## File Contents" ++ Py.nl ++ Py.nl).

(** The sections, one after the other. *)
Fixpoint join_all (sections : list string) : string :=
  match sections with
  | [] => ""
  | s :: rest => s ++ join_all rest
  end.

End Report.

(** ** The directories a walk enters *)

Module Reach.

Section Entering.
Variable excluded : string -> bool -> bool.
Variable fs : Os.filesystem.

(** The walk descends from a directory into the entry [d] of it. *)
Definition descends (top d : string) : bool :=
  Os.isdir fs (OsPath.join top d)
  && negb (Os.islink fs (OsPath.join top d))
  && negb (excluded d true).

(** The directories the walk enters, by their components below the
    directory with components [root]. *)
Inductive entered (root : list string) : list string -> Prop :=
| entered_root : entered root []
| entered_sub (below : list string) (d : string) (names : list string) :
    entered root below ->
    Os.listdir fs (Collector.abs (root ++ below)) = Os.Listed names ->
    In d names ->
    descends (Collector.abs (root ++ below)) d = true ->
    entered root (below ++ [d]).

(** The directories the walk enters from [top] nest at most [h] deep. *)
Fixpoint nests_within (h : nat) (top : string) : bool :=
  match Os.listdir fs top with
  | Os.Denied _ => true
  | Os.Listed names =>
      forallb
        (fun d =>
           if descends top d
           then match h with
                | O => false
                | S h' => nests_within h' (OsPath.join top d)
                end
           else true)
        names
  end.

End Entering.

End Reach.

(** ** The lines of a rendering *)

Module Lines.

(** The lines [chunks] of a rendering, each after the indentation
    [prefix] and closed by a line feed. *)
Definition indented (prefix : string) (chunks : list string) : string :=
  Report.join_all (map (fun c => prefix ++ c ++ Py.nl) chunks).

(** The text holds a carriage return. *)
Fixpoint has_cr (s : string) : bool :=
  match s with
  | EmptyString => false
  | String c r => (c =? Py.cr)%char || has_cr r
  end.

(** The text holds a line feed. *)
Fixpoint has_nl (s : string) : bool :=
  match s with
  | EmptyString => false
  | String c r => (c =? ascii_of_nat 10)%char || has_nl r
  end.

(** The lines of a text: what stands before each of its line feeds, and
    what stands after the last one when that is not empty. *)
Fixpoint lines_of (s : string) : list string :=
  match s with
  | EmptyString => []
  | String c r =>
      if (c =? ascii_of_nat 10)%char then EmptyString :: lines_of r
      else match lines_of r with
           | [] => [String c EmptyString]
           | l :: ls => String c l :: ls
           end
  end.

(** No name in a listing holds a line feed. *)
Definition plain_names (fs : Os.filesystem) : Prop :=
  forall path names,
    Os.listdir fs path = Os.Listed names ->
    Forall (fun n => has_nl n = false) names.

End Lines.

(** ** Names that are text *)

Module Encoding.

(** [s.encode('utf-8')] succeeds: the text holds no byte of a name that
    [os.listdir] could not decode. *)
Definition encodable (s : string) : bool :=
  Codec.utf8_valid (list_byte_of_string s).

(** Every name in a listing is text. *)
Definition text_names (fs : Os.filesystem) : Prop :=
  forall path names,
    Os.listdir fs path = Os.Listed names ->
    Forall (fun n => encodable n = true) names.

End Encoding.

(** ** What project-to-gpt.py looks at *)

Module Visible.

(** The file system without the entries that project-to-gpt.py ignores. *)
Definition shown {casing : Py.Casing} (fs : Os.filesystem) : Os.filesystem :=
  {| Os.listdir p :=
       match Os.listdir fs p with
       | Os.Listed names =>
           Os.Listed
             (filter (fun n => ProjectToGpt.should_process_path (OsPath.join p n)) names)
       | Os.Denied msg => Os.Denied msg
       end;
     Os.isdir := Os.isdir fs;
     Os.isfile := Os.isfile fs;
     Os.islink := Os.islink fs;
     Os.open_r := Os.open_r fs;
     Os.open_w := Os.open_w fs |}.

End Visible.

(** * Part III: properties *)

(** ** Strings and sorting *)

Lemma append_assoc (a b c : string) : (a ++ b) ++ c = a ++ (b ++ c).
Proof. induction a as [| ch a IH]; simpl; [reflexivity | now rewrite IH]. Qed.

Lemma append_nil_r (a : string) : a ++ "" = a.
Proof. induction a as [| ch a IH]; simpl; [reflexivity | now rewrite IH]. Qed.

Lemma string_compare_as_OT (a b : string) :
  String.compare a b = String_as_OT.compare a b.
Proof.
  revert b. induction a as [| x a IH]; intros [| y b]; simpl; try reflexivity.
Qed.

Lemma string_leb_iff (a b : string) :
  String.leb a b = true <-> a = b \/ String_as_OT.lt a b.
Proof.
  unfold String.leb. rewrite string_compare_as_OT.
  destruct (String_as_OT.compare_spec a b) as [E | L | G]; split; intro H;
    try reflexivity; try discriminate; auto.
  destruct H as [E | L].
  - subst. exfalso. exact (StrictOrder_Irreflexive _ G).
  - exfalso. apply (StrictOrder_Irreflexive a).
    exact (StrictOrder_Transitive _ _ _ L G).
Qed.

Lemma string_leb_refl (a : string) : String.leb a a = true.
Proof. apply string_leb_iff. now left. Qed.

Lemma string_leb_trans (a b c : string) :
  String.leb a b = true -> String.leb b c = true -> String.leb a c = true.
Proof.
  rewrite !string_leb_iff. intros [-> | L1] [-> | L2]; auto.
  right. exact (StrictOrder_Transitive _ _ _ L1 L2).
Qed.

Section SortFacts.
Context {A K : Type} (leb : K -> K -> bool) (key : A -> K).
Hypothesis leb_total : forall a b, leb a b = true \/ leb b a = true.
Hypothesis leb_trans : forall a b c, leb a b = true -> leb b c = true -> leb a c = true.

Lemma insert_perm (x : A) (l : list A) : Permutation (x :: l) (Py.insert leb key x l).
Proof.
  induction l as [| y l IH]; simpl; [reflexivity |].
  destruct (leb (key x) (key y)); [reflexivity |].
  rewrite perm_swap. now constructor.
Qed.

Lemma sorted_perm (l : list A) : Permutation l (Py.sorted leb key l).
Proof.
  induction l as [| x l IH]; simpl; [constructor |].
  rewrite <- insert_perm. now constructor.
Qed.

Lemma insert_sorted (x : A) (l : list A) :
  StronglySorted (Py.key_le leb key) l -> StronglySorted (Py.key_le leb key) (Py.insert leb key x l).
Proof.
  induction 1 as [| y l Hl IH Hy]; simpl.
  - repeat constructor.
  - destruct (leb (key x) (key y)) eqn:E.
    + constructor; [now constructor |].
      constructor; [exact E |].
      eapply Forall_impl; [| exact Hy].
      intros z Hz. exact (leb_trans _ _ _ E Hz).
    + constructor; [exact IH |].
      assert (Hyx : (Py.key_le leb key) y x).
      { destruct (leb_total (key x) (key y)) as [H | H]; [congruence | exact H]. }
      eapply Permutation_Forall; [apply insert_perm |].
      constructor; assumption.
Qed.

Lemma sorted_sorted (l : list A) : StronglySorted (Py.key_le leb key) (Py.sorted leb key l).
Proof.
  induction l as [| x l IH]; simpl; [constructor | now apply insert_sorted].
Qed.

End SortFacts.

(** Two sorted arrangements of the same elements agree when the order
    is antisymmetric on them. *)
Lemma sorted_unique {A : Type} (R : A -> A -> Prop) (l1 l2 : list A) :
  (forall x y, In x l1 -> In y l1 -> R x y -> R y x -> x = y) ->
  StronglySorted R l1 -> StronglySorted R l2 -> Permutation l1 l2 -> l1 = l2.
Proof.
  revert l2. induction l1 as [| x l1 IH]; intros l2 Hanti S1 S2 P.
  - apply Permutation_nil in P. now subst.
  - destruct l2 as [| y l2].
    { symmetry in P. apply Permutation_nil in P. discriminate. }
    inversion S1 as [| ? ? S1' F1]; subst.
    inversion S2 as [| ? ? S2' F2]; subst.
    assert (x = y) as ->.
    { assert (Hy : In y (x :: l1)).
      { eapply Permutation_in; [symmetry; exact P | now left]. }
      assert (Hx : In x (y :: l2)).
      { eapply Permutation_in; [exact P | now left]. }
      destruct Hy as [-> | Hy]; [reflexivity |].
      destruct Hx as [-> | Hx]; [reflexivity |].
      apply Hanti; [now left | now right | |].
      - rewrite Forall_forall in F1. now apply F1.
      - rewrite Forall_forall in F2. now apply F2. }
    f_equal. apply IH; try assumption.
    + intros a b Ha Hb. apply Hanti; now right.
    + eapply Permutation_cons_inv; exact P.
Qed.

Lemma insert_map {A B K : Type} (leb : K -> K -> bool) (key : B -> K)
      (f : A -> B) (x : A) (l : list A) :
  map f (Py.insert leb (fun a => key (f a)) x l) = Py.insert leb key (f x) (map f l).
Proof.
  induction l as [| y l IH]; simpl; [reflexivity |].
  destruct (leb (key (f x)) (key (f y))); simpl; [reflexivity | now rewrite IH].
Qed.

Lemma sorted_map {A B K : Type} (leb : K -> K -> bool) (key : B -> K)
      (f : A -> B) (l : list A) :
  map f (Py.sorted leb (fun a => key (f a)) l) = Py.sorted leb key (map f l).
Proof.
  induction l as [| x l IH]; simpl; [reflexivity |].
  now rewrite insert_map, IH.
Qed.

Lemma key_leb_total (a b : bool * string) :
  Py.key_leb a b = true \/ Py.key_leb b a = true.
Proof.
  destruct a as [[] s], b as [[] t]; unfold Py.key_leb; simpl;
    auto using String.leb_total.
Qed.

Lemma key_leb_trans (a b c : bool * string) :
  Py.key_leb a b = true -> Py.key_leb b c = true -> Py.key_leb a c = true.
Proof.
  destruct a as [[] s], b as [[] t], c as [[] u]; unfold Py.key_leb; simpl;
    try discriminate; auto; apply string_leb_trans.
Qed.

Lemma key_leb_antisym (a b : bool * string) :
  Py.key_leb a b = true -> Py.key_leb b a = true -> a = b.
Proof.
  destruct a as [[] s], b as [[] t]; unfold Py.key_leb; simpl;
    try discriminate; intros H1 H2; f_equal; now apply String.leb_antisym.
Qed.

Lemma fold_left_ext {A B : Type} (f g : A -> B -> A) (l : list B) (a : A) :
  (forall a x, f a x = g a x) -> fold_left f l a = fold_left g l a.
Proof.
  intro H. revert a. induction l as [| x l IH]; intro a; simpl; [reflexivity |].
  now rewrite H, IH.
Qed.

Lemma fold_left_stuck {A B : Type} (f : option A -> B -> option A) (l : list B) :
  (forall x, f None x = None) -> fold_left f l None = None.
Proof.
  intro H. induction l as [| x l IH]; simpl; [reflexivity | now rewrite H].
Qed.

Lemma with_prefix_nil (r : option string) : Tree.with_prefix "" r = r.
Proof. now destruct r. Qed.

Lemma strict_fold_lines (rec : string -> string -> option string)
      (prefix : string) (n : Z) (items : list Tree.item) (k : nat) (acc : string) :
  fold_left
    (fun (acc : option string) (entry : Z * Generate4llmScript.tree_item) =>
       match acc with
       | None => None
       | Some tree_str =>
           let '(i, (item, is_dir, item_path)) := entry in
           let is_last_item := (i =? n - 1)%Z in
           let tree_symbol := if is_last_item then "└── " else "├── " in
           let next_prefix :=
             if is_last_item then prefix ++ "    " else prefix ++ "│   " in
           let tree_str := tree_str ++ (prefix ++ tree_symbol ++ item ++ Py.nl) in
           if is_dir then
             match rec item_path next_prefix with
             | None => None
             | Some sub => Some (tree_str ++ sub)
             end
           else Some tree_str
       end)
    (combine (map Z.of_nat (seq k (List.length items))) items) (Some acc)
  = Tree.with_prefix acc (Tree.lines rec prefix n (Z.of_nat k) items).
Proof.
  revert k acc. induction items as [| [[item is_dir] item_path] rest IH];
    intros k acc; simpl.
  - now rewrite append_nil_r.
  - unfold Tree.item_is_dir, Tree.item_path, Tree.item_name; simpl.
    replace (Z.of_nat k + 1)%Z with (Z.of_nat (S k)) by lia.
    assert (Hp : (if (Z.of_nat k =? n - 1)%Z then prefix ++ "    " else prefix ++ "│   ")
                 = prefix ++ Tree.indent (Z.of_nat k =? n - 1)%Z).
    { now destruct (Z.of_nat k =? n - 1)%Z. }
    assert (Hg : (if (Z.of_nat k =? n - 1)%Z then "└── " else "├── ")
                 = Tree.glyph (Z.of_nat k =? n - 1)%Z).
    { now destruct (Z.of_nat k =? n - 1)%Z. }
    rewrite Hp, Hg. clear Hp Hg.
    destruct is_dir.
    + destruct (rec item_path (prefix ++ Tree.indent (Z.of_nat k =? n - 1)%Z)) as [sub |].
      * rewrite IH. unfold Tree.with_prefix, Tree.line.
        destruct (Tree.lines rec prefix n (Z.of_nat (S k)) rest); [| reflexivity].
        now rewrite !append_assoc.
      * apply fold_left_stuck. reflexivity.
    + rewrite IH. unfold Tree.with_prefix, Tree.line.
      destruct (Tree.lines rec prefix n (Z.of_nat (S k)) rest); [| reflexivity].
      now rewrite !append_assoc.
Qed.

Lemma listed_items_kept (fs : Os.filesystem) (directory : string) (names : list string) :
  Generate4llmScript.listed_items fs directory names =
  Tree.kept Generate4llmScript.should_exclude_from_tree fs directory names.
Proof.
  unfold Generate4llmScript.listed_items, Tree.kept.
  induction names as [| name names IH]; simpl; [reflexivity |].
  destruct (Generate4llmScript.should_exclude_from_tree name
              (Os.isdir fs (OsPath.join directory name))); simpl;
    now rewrite IH.
Qed.

Lemma generate_tree_render {casing : Py.Casing} (fuel : nat) (fs : Os.filesystem)
      (directory prefix : string) (is_last : bool) (max_depth current_depth : Z) :
  Generate4llmScript.generate_tree fuel fs directory prefix is_last max_depth current_depth
  = Tree.render Generate4llmScript.should_exclude_from_tree fs fuel directory prefix
                max_depth current_depth.
Proof.
  revert directory prefix is_last current_depth.
  induction fuel as [| fuel IH]; intros directory prefix is_last current_depth;
    [reflexivity |].
  simpl. destruct (current_depth >? max_depth)%Z; [reflexivity |].
  destruct (Os.listdir fs directory) as [names | msg]; [| reflexivity].
  rewrite listed_items_kept. fold (Tree.level Generate4llmScript.should_exclude_from_tree fs directory names).
  unfold Py.enumerate.
  erewrite fold_left_ext.
  - rewrite strict_fold_lines. apply with_prefix_nil.
  - intros [acc |] [i [[item is_dir] item_path]]; [| reflexivity].
    simpl. destruct is_dir; [| reflexivity]. now rewrite IH.
Qed.

Lemma dev_fold_lines (fs : Os.filesystem) (directory : string)
      (rec : string -> string -> option string)
      (prefix : string) (n : Z) (items : list string) (k : nat) (acc : string) :
  fold_left
    (fun (acc : option string) (entry : Z * string) =>
       match acc with
       | None => None
       | Some tree_str =>
           let '(i, item) := entry in
           let is_last_item := (i =? n - 1)%Z in
           let item_path := OsPath.join directory item in
           let is_dir := Os.isdir fs item_path in
           let tree_symbol := if is_last_item then "└── " else "├── " in
           let next_prefix := prefix ++ (if is_last_item then "    " else "│   ") in
           let tree_str := tree_str ++ (prefix ++ tree_symbol ++ item ++ Py.nl) in
           if is_dir then
             match rec item_path next_prefix with
             | None => None
             | Some sub => Some (tree_str ++ sub)
             end
           else Some tree_str
       end)
    (combine (map Z.of_nat (seq k (List.length items))) items) (Some acc)
  = Tree.with_prefix acc
      (Tree.lines rec prefix n (Z.of_nat k) (map (Tree.entry fs directory) items)).
Proof.
  revert k acc. induction items as [| item rest IH]; intros k acc; simpl.
  - now rewrite append_nil_r.
  - unfold Tree.item_is_dir, Tree.item_path, Tree.item_name; simpl.
    replace (Z.of_nat k + 1)%Z with (Z.of_nat (S k)) by lia.
    fold (Tree.indent (Z.of_nat k =? n - 1)%Z).
    fold (Tree.glyph (Z.of_nat k =? n - 1)%Z).
    destruct (Os.isdir fs (OsPath.join directory item)).
    + destruct (rec (OsPath.join directory item)
                    (prefix ++ Tree.indent (Z.of_nat k =? n - 1)%Z)) as [sub |].
      * rewrite IH. unfold Tree.with_prefix, Tree.line.
        destruct (Tree.lines rec prefix n (Z.of_nat (S k)) _); [| reflexivity].
        now rewrite !append_assoc.
      * apply fold_left_stuck. reflexivity.
    + rewrite IH. unfold Tree.with_prefix, Tree.line.
      destruct (Tree.lines rec prefix n (Z.of_nat (S k)) _); [| reflexivity].
      now rewrite !append_assoc.
Qed.

Lemma dev_generate_tree_render {casing : Py.Casing}
      (dirs : list string) (fuel : nat) (fs : Os.filesystem)
      (directory prefix : string) (max_depth current_depth : Z) :
  DevTools.generate_tree dirs fuel fs directory prefix max_depth current_depth
  = Tree.render (DevTools.should_exclude dirs) fs fuel directory prefix
                max_depth current_depth.
Proof.
  revert directory prefix current_depth.
  induction fuel as [| fuel IH]; intros directory prefix current_depth;
    [reflexivity |].
  simpl. destruct (current_depth >? max_depth)%Z; [reflexivity |].
  destruct (Os.listdir fs directory) as [names | msg]; [| reflexivity].
  unfold Tree.level, Tree.kept.
  rewrite <- (sorted_map Py.key_leb Generate4llmScript.sort_key (Tree.entry fs directory)).
  rewrite length_map.
  unfold Py.enumerate.
  erewrite fold_left_ext.
  - rewrite dev_fold_lines. apply with_prefix_nil.
  - intros [acc |] [i item]; [| reflexivity].
    simpl. destruct (Os.isdir fs (OsPath.join directory item)); [| reflexivity].
    now rewrite IH.
Qed.

Section RenderFacts.
Context {casing : Py.Casing}.
Variable excluded : string -> bool -> bool.
Variable fs : Os.filesystem.

Lemma lines_total (rec : string -> string -> option string)
      (prefix : string) (n i : Z) (items : list Tree.item) :
  (forall path next_prefix, exists s, rec path next_prefix = Some s) ->
  exists s, Tree.lines rec prefix n i items = Some s.
Proof.
  intro Hrec. revert i. induction items as [| x rest IH]; intro i; simpl.
  - now exists "".
  - destruct (IH (i + 1)%Z) as [below ->].
    destruct (Tree.item_is_dir x).
    + destruct (Hrec (Tree.item_path x) (prefix ++ Tree.indent (i =? n - 1)%Z))
        as [sub ->].
      eexists; reflexivity.
    + eexists; reflexivity.
Qed.

Lemma lines_mono (rec1 rec2 : string -> string -> option string)
      (prefix : string) (n i : Z) (items : list Tree.item) (out : string) :
  (forall path next_prefix s, rec1 path next_prefix = Some s ->
                              rec2 path next_prefix = Some s) ->
  Tree.lines rec1 prefix n i items = Some out ->
  Tree.lines rec2 prefix n i items = Some out.
Proof.
  intro Hrec. revert i out. induction items as [| x rest IH]; intros i out; simpl.
  - easy.
  - destruct (Tree.item_is_dir x).
    + destruct (rec1 (Tree.item_path x) _) as [sub |] eqn:E1; [| discriminate].
      rewrite (Hrec _ _ _ E1).
      destruct (Tree.lines rec1 prefix n (i + 1) rest) as [below |] eqn:E2;
        [| discriminate].
      now rewrite (IH _ _ E2).
    + destruct (Tree.lines rec1 prefix n (i + 1) rest) as [below |] eqn:E2;
        [| discriminate].
      now rewrite (IH _ _ E2).
Qed.

Lemma render_step (fuel : nat) (directory prefix : string)
      (max_depth current_depth : Z) (out : string) :
  Tree.render excluded fs fuel directory prefix max_depth current_depth = Some out ->
  Tree.render excluded fs (S fuel) directory prefix max_depth current_depth = Some out.
Proof.
  revert directory prefix current_depth out.
  induction fuel as [| fuel IH]; intros directory prefix current_depth out;
    [discriminate |].
  intro H. cbn [Tree.render] in H |- *.
  destruct (current_depth >? max_depth)%Z; [exact H |].
  destruct (Os.listdir fs directory) as [names | msg]; [| exact H].
  eapply lines_mono; [| exact H].
  intros path next_prefix s Hs. apply IH. exact Hs.
Qed.

Lemma render_mono (fuel fuel' : nat) (directory prefix : string)
      (max_depth current_depth : Z) (out : string) :
  (fuel <= fuel')%nat ->
  Tree.render excluded fs fuel directory prefix max_depth current_depth = Some out ->
  Tree.render excluded fs fuel' directory prefix max_depth current_depth = Some out.
Proof.
  induction 1 as [| fuel' _ IH]; [easy |].
  intro H. apply render_step. now apply IH.
Qed.

Lemma render_total (fuel : nat) (directory prefix : string)
      (max_depth current_depth : Z) :
  (Z.to_nat (max_depth + 1 - current_depth) < fuel)%nat ->
  exists out,
    Tree.render excluded fs fuel directory prefix max_depth current_depth = Some out.
Proof.
  revert directory prefix current_depth.
  induction fuel as [| fuel IH]; intros directory prefix current_depth Hfuel;
    [lia |].
  cbn [Tree.render].
  destruct (current_depth >? max_depth)%Z eqn:Hd; [now exists "" |].
  destruct (Os.listdir fs directory) as [names | msg]; [| eexists; reflexivity].
  apply lines_total. intros path next_prefix. apply IH.
  rewrite Z.gtb_ltb in Hd. apply Z.ltb_ge in Hd. lia.
Qed.

Lemma render_beyond (fuel : nat) (directory prefix : string)
      (max_depth current_depth : Z) :
  (max_depth < current_depth)%Z ->
  Tree.render excluded fs (S fuel) directory prefix max_depth current_depth = Some "".
Proof.
  intro H. cbn [Tree.render].
  destruct (current_depth >? max_depth)%Z eqn:Hd; [reflexivity |].
  rewrite Z.gtb_ltb in Hd. apply Z.ltb_ge in Hd. lia.
Qed.

(** Every call returns, within a nesting of [max_depth + 2 - current_depth]
    calls, and what it returns does not depend on the bound. *)
Lemma render_returns (directory prefix : string) (max_depth current_depth : Z) :
  exists out,
    (forall fuel, (Z.to_nat (max_depth + 1 - current_depth) < fuel)%nat ->
                  Tree.render excluded fs fuel directory prefix max_depth current_depth
                  = Some out) /\
    ((max_depth < current_depth)%Z -> out = "").
Proof.
  destruct (render_total (S (Z.to_nat (max_depth + 1 - current_depth)))
                         directory prefix max_depth current_depth) as [out Hout];
    [lia |].
  exists out. split.
  - intros fuel Hfuel. eapply render_mono; [| exact Hout]. lia.
  - intro Hdeep. rewrite render_beyond in Hout by exact Hdeep. congruence.
Qed.

End RenderFacts.


(** ** Path filter *)

Lemma contains_In (c : list string) (x : string) :
  Py.contains c x = true <-> In x c.
Proof.
  unfold Py.contains. rewrite existsb_exists. split.
  - intros (y & Hy & E). apply String.eqb_eq in E. now subst.
  - intro H. exists x. split; [assumption | apply String.eqb_refl].
Qed.

Lemma should_exclude_file_iff (dirs : list string) (name : string) :
  DevTools.should_exclude dirs name false = true <->
  In name DevTools.exclude_files.
Proof. unfold DevTools.should_exclude. apply contains_In. Qed.

Lemma should_exclude_from_tree_file_iff (name : string) :
  Generate4llmScript.should_exclude_from_tree name false = true <->
  In name Generate4llmScript.exclude_files \/ Py.startswith name "." = true.
Proof.
  unfold Generate4llmScript.should_exclude_from_tree.
  rewrite orb_true_iff, contains_In. reflexivity.
Qed.

(** C1.  The wildcard entries of the file-exclusion sets are members
    like any other: membership is by equality, so ['debug.log'] is not
    excluded by ['*.log'] in either script, although ['*.log'] is an
    entry of both sets and the filter of the specification excludes the
    name; the include filter of the same scripts does match a name such
    as ['data.json'] against ['*.json'] by suffix. *)
Theorem C1_wildcard_exclusion_entries_are_literal :
  In "*.log" DevTools.exclude_files /\
  In "*.log" Generate4llmScript.exclude_files /\
  DevTools.should_exclude DevTools.exclude_dirs "debug.log" false = false /\
  Generate4llmScript.should_exclude_from_tree "debug.log" false = false /\
  PathFilterSpec.isExcludedFile false DevTools.exclude_files "debug.log" = true /\
  PathFilterSpec.isExcludedFile true Generate4llmScript.exclude_files "debug.log" = true /\
  DevTools.should_include_file "data.json" = true /\
  Generate4llmScript.should_include_file "data.json" = true.
Proof. cbn. intuition. Qed.

(** ** Content reader *)

Lemma read_file_content_with_same (first second : Os.open_outcome) :
  DevTools.read_file_content_with first second =
  Generate4llmScript.read_file_content_with first second.
Proof. reflexivity. Qed.

(** What [process_file] of project-to-gpt.py comes to, case by case. *)
Lemma process_file_form {casing : Py.Casing}
      (fs : Os.filesystem) (file_path root_path : string)
      (o : ProjectToGpt.output) :
  ProjectToGpt.process_file fs file_path o root_path =
  Py.Returned
    match OsPath.relative_to file_path root_path with
    | Py.Raised e =>
        ProjectToGpt.print o ("Error processing file " ++ file_path ++ ": "
                                ++ Py.str_of_exn e)
    | Py.Returned relative_path =>
        match Os.open_r fs file_path with
        | Os.OpenError msg =>
            ProjectToGpt.print o ("Error processing file " ++ file_path ++ ": " ++ msg)
        | Os.Opened data =>
            if Codec.utf8_valid data
            then ProjectToGpt.write
                   (ProjectToGpt.write o
                      (Py.nl ++ "file path: " ++ relative_path ++ Py.nl ++ Py.nl))
                   ("```" ++ ProjectToGpt.get_language_from_path file_path ++ Py.nl
                      ++ Codec.universal_newlines (string_of_list_byte data)
                      ++ Py.nl ++ "```")
            else ProjectToGpt.print o
                   ("Skipping binary or non-readable file: " ++ file_path)
        end
    end.
Proof.
  unfold ProjectToGpt.process_file, OsPath.relative_to.
  destruct ((_ =? _)%string && OsPath.parts_start _ _); [| reflexivity].
  unfold Codec.read_text, Codec.decode_utf8. cbn [Py.bind].
  destruct (Os.open_r fs file_path) as [msg | data]; [reflexivity |].
  destruct (Codec.utf8_valid data); reflexivity.
Qed.



(** ** Exit status of project-to-gpt.py *)




(** ** Termination of the tree renderer *)

(** C8.  Every call of [generate_tree] returns, on any file system (one
    whose directories nest without end included): a nesting of
    [max_depth + 2 - current_depth] calls is enough, and more changes
    nothing.  A call at a depth beyond [max_depth] returns the empty
    string.  This holds for the renderer of either script. *)
Theorem C8_generate_tree_returns_and_stops_beyond_max_depth {casing : Py.Casing} :
  (forall (fs : Os.filesystem) (directory prefix : string) (is_last : bool)
          (max_depth current_depth : Z),
      exists out : string,
        (forall fuel : nat,
            (Z.to_nat (max_depth + 1 - current_depth) < fuel)%nat ->
            Generate4llmScript.generate_tree fuel fs directory prefix is_last
                                             max_depth current_depth = Some out) /\
        ((max_depth < current_depth)%Z -> out = "")) /\
  (forall (dirs : list string) (fs : Os.filesystem) (directory prefix : string)
          (max_depth current_depth : Z),
      exists out : string,
        (forall fuel : nat,
            (Z.to_nat (max_depth + 1 - current_depth) < fuel)%nat ->
            DevTools.generate_tree dirs fuel fs directory prefix
                                   max_depth current_depth = Some out) /\
        ((max_depth < current_depth)%Z -> out = "")).
Proof.
  split.
  - intros fs directory prefix is_last max_depth current_depth.
    destruct (render_returns Generate4llmScript.should_exclude_from_tree fs
                             directory prefix max_depth current_depth)
      as (out & Hout & Hdeep).
    exists out. split; [| exact Hdeep].
    intros fuel Hfuel. rewrite generate_tree_render. now apply Hout.
  - intros dirs fs directory prefix max_depth current_depth.
    destruct (render_returns (DevTools.should_exclude dirs) fs
                             directory prefix max_depth current_depth)
      as (out & Hout & Hdeep).
    exists out. split; [| exact Hdeep].
    intros fuel Hfuel. rewrite dev_generate_tree_render. now apply Hout.
Qed.

(** On a directory that holds a link to itself the renderer follows the
    link down to [max_depth] and stops; the collector does not follow
    it. *)
Example generate_tree_on_link_cycle :
  Generate4llmScript.generate_tree 3 Sample.link_cycle "/e" "" true 1 0
  = Some ("└── again" ++ Py.nl ++ "    └── again" ++ Py.nl) /\
  Generate4llmScript.find_files_to_include 1 Sample.link_cycle "/e" = Some [].
Proof. split; reflexivity. Qed.

(** ** Order and shape of the rendered tree *)

(** The order of the tree is that of the lower-cased names: with a
    lower-casing that folds ['É'], as that of the interpreter does,
    ['éa'] is written before ['Éz'].  A lower-casing that knew the ASCII
    letters only, which is not [str.lower] on these names, would leave
    them in the order of their bytes. *)
Example generate_tree_follows_the_casing :
  @Generate4llmScript.generate_tree Sample.latin1_casing
     2 Sample.accented "/a" "" true 10 0
  = Some ("├── éa" ++ Py.nl ++ "└── Éz" ++ Py.nl) /\
  @DevTools.generate_tree Sample.latin1_casing DevTools.exclude_dirs
     2 Sample.accented "/a" "" 10 0
  = Some ("├── éa" ++ Py.nl ++ "└── Éz" ++ Py.nl) /\
  @Generate4llmScript.generate_tree Py.ascii_casing
     2 Sample.accented "/a" "" true 10 0
  = Some ("├── Éz" ++ Py.nl ++ "└── éa" ++ Py.nl).
Proof. repeat split; reflexivity. Qed.

Lemma lines_ext (rec1 rec2 : string -> string -> option string)
      (prefix : string) (n i : Z) (items : list Tree.item) :
  (forall path next_prefix, rec1 path next_prefix = rec2 path next_prefix) ->
  Tree.lines rec1 prefix n i items = Tree.lines rec2 prefix n i items.
Proof.
  intro H. revert i. induction items as [| x rest IH]; intro i; simpl;
    [reflexivity |].
  now rewrite H, IH.
Qed.

Lemma key_leb_in_order {casing : Py.Casing} (x y : Tree.item) :
  Py.key_leb (Generate4llmScript.sort_key x) (Generate4llmScript.sort_key y) = true
  <-> Tree.in_order x y.
Proof.
  destruct x as [[nx dx] px], y as [[ny dy] py].
  unfold Tree.in_order, Py.key_leb, Generate4llmScript.sort_key,
    Tree.item_is_dir, Tree.item_name; simpl.
  destruct dx, dy; simpl; split; intro H; auto;
    try discriminate;
    try (destruct H as [[H1 H2] | [H1 H2]]; congruence).
Qed.

Lemma level_in_order {casing : Py.Casing}
      (excluded : string -> bool -> bool) (fs : Os.filesystem)
      (directory : string) (names : list string) :
  StronglySorted Tree.in_order (Tree.level excluded fs directory names).
Proof.
  unfold Tree.level.
  pose proof (sorted_sorted Py.key_leb Generate4llmScript.sort_key
                key_leb_total key_leb_trans
                (Tree.kept excluded fs directory names)) as H.
  induction H as [| x l Hl IH Hx]; constructor; [assumption |].
  eapply Forall_impl; [| exact Hx].
  intros y Hy. apply key_leb_in_order. exact Hy.
Qed.

Lemma in_order_files_last {casing : Py.Casing}
      (items before after : list Tree.item) (x : Tree.item) :
  StronglySorted Tree.in_order items ->
  items = (before ++ x :: after)%list ->
  Tree.item_is_dir x = false ->
  Forall (fun y => Tree.item_is_dir y = false) after.
Proof.
  intros Hs -> Hx.
  induction before as [| b before IH]; simpl in Hs.
  - inversion Hs as [| ? ? _ Hall]; subst.
    eapply Forall_impl; [| exact Hall].
    intros y [[Hd _] | [Hd _]]; congruence.
  - inversion Hs; subst. now apply IH.
Qed.

Lemma render_level_rendered {casing : Py.Casing}
      (excluded : string -> bool -> bool) (fs : Os.filesystem)
      (fuel : nat) (directory prefix : string) (max_depth current_depth : Z)
      (names : list string) :
  (current_depth <= max_depth)%Z ->
  Os.listdir fs directory = Os.Listed names ->
  Tree.level_rendered excluded fs
    (fun path next_prefix =>
       Tree.render excluded fs fuel path next_prefix max_depth (current_depth + 1))
    directory prefix names
    (Tree.render excluded fs (S fuel) directory prefix max_depth current_depth).
Proof.
  intros Hdepth Hlist. unfold Tree.level_rendered.
  split; [apply sorted_perm |].
  split; [apply level_in_order |].
  split.
  - intros before x after. apply in_order_files_last, level_in_order.
  - cbn [Tree.render]. rewrite Hlist.
    destruct (current_depth >? max_depth)%Z eqn:Hd; [| reflexivity].
    rewrite Z.gtb_ltb in Hd. apply Z.ltb_lt in Hd. lia.
Qed.

(** C7.  Rendering a directory that can be listed, at a depth within
    [max_depth], writes the entries that are not excluded, directories
    before files and each group by lower-cased name, whatever letters
    the lower-casing of the interpreter folds; the line of an entry is
    the prefix, then ['└── '] for the last entry and ['├── '] for any
    other, then the name, and the rendering of a subdirectory follows its
    line under the prefix extended by four columns.  This holds for the
    renderer of either script; the [is_last] argument of the first has no
    effect on the result. *)
Theorem C7_tree_level_order_and_lines {casing : Py.Casing}
        (fuel : nat) (fs : Os.filesystem) (dirs : list string)
        (directory prefix : string) (is_last : bool)
        (max_depth current_depth : Z) (names : list string) :
  (current_depth <= max_depth)%Z ->
  Os.listdir fs directory = Os.Listed names ->
  Tree.level_rendered Generate4llmScript.should_exclude_from_tree fs
    (fun path next_prefix =>
       Generate4llmScript.generate_tree fuel fs path next_prefix true
                                        max_depth (current_depth + 1))
    directory prefix names
    (Generate4llmScript.generate_tree (S fuel) fs directory prefix is_last
                                      max_depth current_depth) /\
  Tree.kept Generate4llmScript.should_exclude_from_tree fs directory names
  = Generate4llmScript.listed_items fs directory names /\
  Tree.level_rendered (DevTools.should_exclude dirs) fs
    (fun path next_prefix =>
       DevTools.generate_tree dirs fuel fs path next_prefix
                              max_depth (current_depth + 1))
    directory prefix names
    (DevTools.generate_tree dirs (S fuel) fs directory prefix
                            max_depth current_depth).
Proof.
  intros Hdepth Hlist.
  pose proof (render_level_rendered Generate4llmScript.should_exclude_from_tree
                fs fuel directory prefix max_depth current_depth names
                Hdepth Hlist) as (P1 & S1 & F1 & E1).
  pose proof (render_level_rendered (DevTools.should_exclude dirs)
                fs fuel directory prefix max_depth current_depth names
                Hdepth Hlist) as (P2 & S2 & F2 & E2).
  split; [| split].
  - unfold Tree.level_rendered. repeat split; try assumption.
    rewrite generate_tree_render, E1.
    apply lines_ext. intros path next_prefix.
    symmetry. apply generate_tree_render.
  - symmetry. apply listed_items_kept.
  - unfold Tree.level_rendered. repeat split; try assumption.
    rewrite dev_generate_tree_render, E2.
    apply lines_ext. intros path next_prefix.
    symmetry. apply dev_generate_tree_render.
Qed.

(** C7 at the root of the sample project. *)
Lemma C7_tree_level_witness :
  (0 <= 10)%Z /\
  Os.listdir Sample.project "/p"
  = Os.Listed ["src"; "package-lock.json"; "app.py"; "node_modules"; "Zed.js";
               ".env.example"; "secret"; "debug.log"] /\
  (Tree.level_rendered Generate4llmScript.should_exclude_from_tree Sample.project
     (fun path next_prefix =>
        Generate4llmScript.generate_tree 3 Sample.project path next_prefix true 10 (0 + 1))
     "/p" ""
     ["src"; "package-lock.json"; "app.py"; "node_modules"; "Zed.js";
      ".env.example"; "secret"; "debug.log"]
     (Generate4llmScript.generate_tree 4 Sample.project "/p" "" true 10 0) /\
   Tree.kept Generate4llmScript.should_exclude_from_tree Sample.project "/p"
     ["src"; "package-lock.json"; "app.py"; "node_modules"; "Zed.js";
      ".env.example"; "secret"; "debug.log"]
   = Generate4llmScript.listed_items Sample.project "/p"
       ["src"; "package-lock.json"; "app.py"; "node_modules"; "Zed.js";
        ".env.example"; "secret"; "debug.log"] /\
   Tree.level_rendered (DevTools.should_exclude DevTools.exclude_dirs) Sample.project
     (fun path next_prefix =>
        DevTools.generate_tree DevTools.exclude_dirs 3 Sample.project path next_prefix
                               10 (0 + 1))
     "/p" ""
     ["src"; "package-lock.json"; "app.py"; "node_modules"; "Zed.js";
      ".env.example"; "secret"; "debug.log"]
     (DevTools.generate_tree DevTools.exclude_dirs 4 Sample.project "/p" "" 10 0)).
Proof.
  split; [lia |].
  split; [reflexivity |].
  apply (C7_tree_level_order_and_lines
           3 Sample.project DevTools.exclude_dirs "/p" "" true 10 0
           ["src"; "package-lock.json"; "app.py"; "node_modules"; "Zed.js";
            ".env.example"; "secret"; "debug.log"]).
  - lia.
  - reflexivity.
Defined.

(** ** The file collector *)

Lemma find_files_to_include_collect (fuel : nat) (fs : Os.filesystem) (root_dir : string) :
  Generate4llmScript.find_files_to_include fuel fs root_dir
  = Collector.collect Generate4llmScript.should_exclude_from_tree
      Generate4llmScript.should_include_file root_dir fuel fs.
Proof. reflexivity. Qed.

Lemma find_files_to_process_collect (dirs : list string) (fuel : nat)
      (fs : Os.filesystem) (root_dir : string) :
  DevTools.find_files_to_process dirs fuel fs root_dir
  = Collector.collect (DevTools.should_exclude dirs)
      DevTools.should_include_file root_dir fuel fs.
Proof. reflexivity. Qed.

(** ** Paths and their components *)

Lemma good_name_spec (n : string) :
  Collector.good_name n = true <-> n <> "" /\ OsPath.has_sep n = false.
Proof.
  unfold Collector.good_name, OsPath.nonempty.
  rewrite andb_true_iff, !negb_true_iff, String.eqb_neq. reflexivity.
Qed.

Lemma has_sep_app (a b : string) :
  OsPath.has_sep (a ++ b) = OsPath.has_sep a || OsPath.has_sep b.
Proof.
  induction a as [| c a IH]; simpl; [reflexivity |].
  now rewrite IH, orb_assoc.
Qed.

Lemma split_not_nil (p : string) : OsPath.split p <> [].
Proof.
  destruct p as [| c r]; simpl; [discriminate |].
  destruct (c =? OsPath.sep)%char; [discriminate |].
  destruct (OsPath.split r); discriminate.
Qed.

Lemma split_sepfree (s : string) : OsPath.has_sep s = false -> OsPath.split s = [s].
Proof.
  induction s as [| c s IH]; simpl; [reflexivity |].
  intro H. apply orb_false_iff in H as [Hc Hs].
  rewrite Hc, (IH Hs). reflexivity.
Qed.

Lemma split_app_sep (a b : string) :
  OsPath.split (a ++ String OsPath.sep b) = (OsPath.split a ++ OsPath.split b)%list.
Proof.
  induction a as [| c a IH]; simpl.
  - reflexivity.
  - destruct (c =? OsPath.sep)%char; rewrite IH; [reflexivity |].
    destruct (OsPath.split a) as [| w ws] eqn:E; [| reflexivity].
    now apply split_not_nil in E.
Qed.

Lemma split_concat (c : string) (l : list string) :
  Forall Collector.sepfree (c :: l) ->
  OsPath.split (String.concat "/" (c :: l)) = c :: l.
Proof.
  revert c. induction l as [| d l IH]; intros c H.
  - simpl. apply split_sepfree. now inversion H.
  - inversion H as [| ? ? Hc Hl]; subst.
    change (String.concat "/" (c :: d :: l))
      with (c ++ String OsPath.sep (String.concat "/" (d :: l))).
    rewrite split_app_sep, (split_sepfree c Hc), (IH d Hl). reflexivity.
Qed.

Lemma split_slashes (c : string) (l : list string) :
  Forall Collector.sepfree (c :: l) ->
  OsPath.split (c ++ Collector.slashes l) = c :: l.
Proof.
  revert c. induction l as [| d l IH]; intros c H.
  - simpl. rewrite append_nil_r. apply split_sepfree. now inversion H.
  - inversion H as [| ? ? Hc Hl]; subst.
    change (Collector.slashes (d :: l))
      with (String OsPath.sep (d ++ Collector.slashes l)).
    rewrite split_app_sep, (split_sepfree c Hc), (IH d Hl). reflexivity.
Qed.

Lemma good_sepfree (l : list string) :
  Forall (fun n => Collector.good_name n = true) l -> Forall Collector.sepfree l.
Proof.
  apply Forall_impl. intros n H. now apply good_name_spec in H.
Qed.

Lemma filter_nonempty_good (l : list string) :
  Forall (fun n => Collector.good_name n = true) l ->
  filter OsPath.nonempty l = l.
Proof.
  induction 1 as [| n l Hn _ IH]; simpl; [reflexivity |].
  unfold Collector.good_name in Hn. apply andb_true_iff in Hn as [Hn _].
  now rewrite Hn, IH.
Qed.

(** The components of an absolute path. *)
Lemma components_abs (l : list string) :
  Forall (fun n => Collector.good_name n = true) l ->
  filter OsPath.nonempty (OsPath.split (Collector.abs l)) = l.
Proof.
  intro H. destruct l as [| c l]; [reflexivity |].
  unfold Collector.abs.
  change (Collector.slashes (c :: l)) with ("" ++ Collector.slashes (c :: l)).
  rewrite split_slashes.
  - change (filter OsPath.nonempty ("" :: c :: l))
      with (filter OsPath.nonempty (c :: l)).
    now apply filter_nonempty_good.
  - constructor; [reflexivity | now apply good_sepfree].
Qed.

Lemma slashes_app (l m : list string) :
  Collector.slashes (l ++ m) = Collector.slashes l ++ Collector.slashes m.
Proof.
  induction l as [| c l IH]; simpl; [reflexivity |].
  now rewrite IH, append_assoc.
Qed.

Lemma endswith_sep_app (a b : string) :
  b <> "" -> Py.endswith (a ++ b) "/" = Py.endswith b "/".
Proof.
  intro Hb. induction a as [| c a IH]; [reflexivity |].
  change (Py.endswith (String c a ++ b) "/")
    with ((String c (a ++ b) =? "/")%string || Py.endswith (a ++ b) "/").
  rewrite IH.
  destruct (String.eqb_spec (String c (a ++ b)) "/") as [E | _]; [| reflexivity].
  injection E as _ E. destruct a; simpl in E; [contradiction | discriminate].
Qed.

Lemma endswith_sep_sepfree (b : string) :
  OsPath.has_sep b = false -> Py.endswith b "/" = false.
Proof.
  induction b as [| c b IH]; [reflexivity |].
  intro H. simpl in H. apply orb_false_iff in H as [Hc Hb].
  change (Py.endswith (String c b) "/")
    with ((String c b =? "/")%string || Py.endswith b "/").
  rewrite (IH Hb), orb_false_r.
  apply String.eqb_neq. intro E. injection E as -> _. discriminate.
Qed.

Lemma startswith_sep_good (d : string) :
  Collector.good_name d = true -> Py.startswith d "/" = false.
Proof.
  intro H. apply good_name_spec in H as [Hne Hsep].
  destruct d as [| c d]; [contradiction |].
  simpl in Hsep. apply orb_false_iff in Hsep as [Hc _].
  unfold Py.startswith.
  change (String.prefix "/" (String c d))
    with (if ascii_dec "/"%char c then String.prefix "" d else false).
  destruct (ascii_dec "/"%char c) as [E | _]; [| reflexivity].
  subst c. discriminate.
Qed.

Lemma slashes_not_empty (c : string) (l : list string) :
  Collector.slashes (c :: l) <> "".
Proof. discriminate. Qed.

Lemma endswith_sep_slashes (l : list string) (d : string) :
  Collector.good_name d = true ->
  Py.endswith (Collector.slashes (l ++ [d])) "/" = false.
Proof.
  intro H. apply good_name_spec in H as [Hne Hsep].
  rewrite slashes_app. simpl. rewrite append_nil_r.
  rewrite endswith_sep_app by discriminate.
  change (Py.endswith (String "/" d) "/")
    with ((String "/" d =? "/")%string || Py.endswith d "/").
  rewrite (endswith_sep_sepfree d Hsep), orb_false_r.
  apply String.eqb_neq. intro E. injection E as E. contradiction.
Qed.

Lemma endswith_sep_slashes_cons (c : string) (l : list string) :
  Forall (fun n => Collector.good_name n = true) (c :: l) ->
  Py.endswith (Collector.slashes (c :: l)) "/" = false.
Proof.
  intro H.
  destruct (@exists_last _ (c :: l)) as (l' & e & El); [discriminate |].
  rewrite El in H |- *. apply endswith_sep_slashes.
  apply Forall_app in H as [_ H]. now inversion H.
Qed.

(** Joining a directory with the name of one of its entries. *)
Lemma join_abs (l : list string) (d : string) :
  Forall (fun n => Collector.good_name n = true) l ->
  Collector.good_name d = true ->
  OsPath.join (Collector.abs l) d = Collector.abs (l ++ [d]).
Proof.
  intros Hl Hd. unfold OsPath.join. rewrite (startswith_sep_good d Hd).
  destruct l as [| c l].
  - cbn. now rewrite append_nil_r.
  - change (Collector.abs (c :: l)) with (Collector.slashes (c :: l)).
    change (Collector.abs ((c :: l) ++ [d]))
      with (Collector.slashes ((c :: l) ++ [d])).
    rewrite (endswith_sep_slashes_cons c l Hl).
    destruct (String.eqb_spec (Collector.slashes (c :: l)) "") as [F | _];
      [discriminate |].
    rewrite slashes_app. cbn [orb Collector.slashes].
    now rewrite append_nil_r.
Qed.

Lemma commonprefix_app (l m : list string) : OsPath.commonprefix l (l ++ m) = l.
Proof.
  induction l as [| x l IH]; simpl; [now destruct m |].
  now rewrite String.eqb_refl, IH.
Qed.

Lemma skipn_length_app {A : Type} (l m : list A) : skipn (List.length l) (l ++ m) = m.
Proof. induction l; simpl; auto. Qed.

(** The path from a directory to something below it. *)
Lemma relpath_abs (l m : list string) :
  Forall (fun n => Collector.good_name n = true) l ->
  Forall (fun n => Collector.good_name n = true) m ->
  m <> [] ->
  OsPath.relpath (Collector.abs (l ++ m)) (Collector.abs l) = String.concat "/" m.
Proof.
  intros Hl Hm Hne. unfold OsPath.relpath.
  rewrite (components_abs l Hl).
  rewrite (components_abs (l ++ m)) by (apply Forall_app; split; assumption).
  rewrite commonprefix_app, Nat.sub_diag, skipn_length_app. simpl.
  destruct m; [contradiction | reflexivity].
Qed.

Lemma basename_sepfree (f : string) : OsPath.has_sep f = false -> OsPath.basename f = f.
Proof.
  destruct f as [| c f]; [reflexivity |]. simpl.
  intro H. apply orb_false_iff in H as [Hc Hf]. now rewrite Hf, Hc.
Qed.

Lemma basename_app_sep (a f : string) :
  OsPath.has_sep f = false -> OsPath.basename (a ++ String OsPath.sep f) = f.
Proof.
  intro Hf. induction a as [| c a IH].
  - simpl. now rewrite Hf.
  - change (OsPath.basename (String c a ++ String OsPath.sep f))
      with (if OsPath.has_sep (a ++ String OsPath.sep f)
            then OsPath.basename (a ++ String OsPath.sep f)
            else if (c =? OsPath.sep)%char then a ++ String OsPath.sep f
                 else String c (a ++ String OsPath.sep f)).
    rewrite has_sep_app. simpl. rewrite orb_true_r. exact IH.
Qed.

Lemma concat_snoc (c : string) (m : list string) (f : string) :
  exists a, String.concat "/" ((c :: m) ++ [f]) = a ++ String OsPath.sep f.
Proof.
  revert c. induction m as [| c' m IH]; intro c.
  - exists c. reflexivity.
  - destruct (IH c') as [a Ha].
    exists (c ++ String OsPath.sep a).
    change (String.concat "/" ((c :: c' :: m) ++ [f]))
      with (c ++ String OsPath.sep (String.concat "/" ((c' :: m) ++ [f]))).
    rewrite Ha. rewrite append_assoc. reflexivity.
Qed.

Lemma basename_concat (m : list string) (f : string) :
  OsPath.has_sep f = false ->
  OsPath.basename (String.concat "/" (m ++ [f])) = f.
Proof.
  intro Hf. destruct m as [| c m].
  - simpl. now apply basename_sepfree.
  - destruct (concat_snoc c m f) as [a ->]. now apply basename_app_sep.
Qed.

Lemma basename_abs (l : list string) (f : string) :
  OsPath.has_sep f = false ->
  OsPath.basename (Collector.abs (l ++ [f])) = f.
Proof.
  intro Hf.
  assert (E : Collector.abs (l ++ [f]) = Collector.slashes l ++ String OsPath.sep f).
  { destruct l as [| c l]; [cbn; now rewrite append_nil_r |].
    change (Collector.abs ((c :: l) ++ [f]))
      with (Collector.slashes ((c :: l) ++ [f])).
    rewrite slashes_app. cbn [Collector.slashes]. now rewrite append_nil_r. }
  rewrite E. now apply basename_app_sep.
Qed.

(** Relative paths with the same components are the same, and only they. *)
Lemma concat_sep_inj (m1 m2 : list string) :
  m1 <> [] -> m2 <> [] ->
  Forall Collector.sepfree m1 -> Forall Collector.sepfree m2 ->
  String.concat "/" m1 = String.concat "/" m2 -> m1 = m2.
Proof.
  intros N1 N2 F1 F2 E.
  destruct m1 as [| c1 m1]; [contradiction |].
  destruct m2 as [| c2 m2]; [contradiction |].
  rewrite <- (split_concat c1 m1 F1), <- (split_concat c2 m2 F2).
  now rewrite E.
Qed.

(** ** The shape of what the walk finds *)

Lemma concat_options_cons {A : Type} (x : option (list A)) (l : list (option (list A)))
      (r : list A) :
  Os.concat_options (x :: l) = Some r ->
  exists a b, x = Some a /\ Os.concat_options l = Some b /\ r = (a ++ b)%list.
Proof.
  simpl. destruct x as [a |]; [| discriminate].
  destruct (Os.concat_options l) as [b |]; [| discriminate].
  intro H. injection H as <-. now exists a, b.
Qed.

Lemma NoDup_map_inj {A B : Type} (f : A -> B) (l : list A) :
  (forall x y, In x l -> In y l -> f x = f y -> x = y) ->
  NoDup l -> NoDup (map f l).
Proof.
  intros Hinj Hnd. induction Hnd as [| x l Hx _ IH]; simpl; constructor.
  - intro Hin. apply in_map_iff in Hin as (y & E & Hy).
    apply Hinj in E; [subst; contradiction | now right | now left].
  - apply IH. intros a b Ha Hb. apply Hinj; now right.
Qed.

Section WalkShape.
Variable excluded : string -> bool -> bool.
Variable included : string -> bool.
Variable fs : Os.filesystem.
Variable root : list string.
Hypothesis root_good : Forall (fun n => Collector.good_name n = true) root.
Hypothesis listings_good : Collector.good_listings fs.

Let root_dir : string := Collector.abs root.
Let rel (below m : list string) : string := String.concat "/" (below ++ m).
Let chosen := Collector.chosen excluded included root.
Let below_dir := Collector.below_dir excluded included root.

Lemma visit_files (below files : list string) :
  Forall (fun n => Collector.good_name n = true) below ->
  Forall (fun n => Collector.good_name n = true) files ->
  flat_map (Collector.visit excluded included root_dir
                            (Collector.abs (root ++ below))) files
  = map (rel below) (map (fun f => [f]) (filter (chosen below) files)).
Proof.
  intros Hb Hf. induction Hf as [| f files Hgood _ IH]; [reflexivity |].
  cbn [flat_map filter]. rewrite IH. unfold Collector.visit, chosen, Collector.chosen.
  rewrite join_abs by (try apply Forall_app; auto).
  rewrite <- app_assoc.
  destruct (excluded f false); [reflexivity |].
  destruct (included (Collector.abs (root ++ below ++ [f]))); [| reflexivity].
  cbn [negb andb map app]. f_equal.
  unfold root_dir, rel. apply relpath_abs; auto.
  - apply Forall_app; auto.
  - now destruct below.
Qed.

Lemma rel_snoc (below : list string) (d : string) (m : list string) :
  rel (below ++ [d]) m = rel below (d :: m).
Proof. unfold rel. now rewrite <- app_assoc. Qed.

Lemma subdirs_shape (fuel : nat) (below : list string) :
  (forall below' found',
      Forall (fun n => Collector.good_name n = true) below' ->
      Os.walk fuel fs (Collector.body excluded included root_dir)
              (Collector.abs (root ++ below')) = Some found' ->
      exists rels,
        found' = map (rel below') rels /\
        Forall (Collector.admissible excluded included root below') rels /\
        (Collector.distinct_listings fs -> NoDup rels)) ->
  Forall (fun n => Collector.good_name n = true) below ->
  forall (ds : list string) (rest : list string),
    Forall (fun n => Collector.good_name n = true) ds ->
    Forall (fun d => excluded d true = false) ds ->
    Os.concat_options
      (map (fun dirname =>
              let new_path := OsPath.join (Collector.abs (root ++ below)) dirname in
              if Os.islink fs new_path then Some []
              else Os.walk fuel fs (Collector.body excluded included root_dir) new_path)
           ds) = Some rest ->
    exists sub,
      rest = map (rel below) sub /\
      Forall (below_dir ds below) sub /\
      (Collector.distinct_listings fs -> NoDup ds -> NoDup sub).
Proof.
  intros IH Hbelow ds. induction ds as [| d ds IHds]; intros rest Hgood Hkept Hc.
  - injection Hc as <-. exists []. repeat split; constructor.
  - cbn [map] in Hc. apply concat_options_cons in Hc as (a & b & Ha & Hb & ->).
    inversion Hgood as [| ? ? Hd Hgood']; subst.
    inversion Hkept as [| ? ? Hk Hkept']; subst.
    destruct (IHds b Hgood' Hkept' Hb) as (sub & -> & Hsub & Hnd).
    assert (Hbd : Forall (fun n => Collector.good_name n = true) (below ++ [d])).
    { apply Forall_app; auto. }
    assert (Hhere : exists rels,
               a = map (rel (below ++ [d])) rels /\
               Forall (Collector.admissible excluded included root (below ++ [d])) rels /\
               (Collector.distinct_listings fs -> NoDup rels)).
    { cbv zeta in Ha.
      rewrite join_abs in Ha by (try apply Forall_app; auto).
      rewrite <- app_assoc in Ha.
      destruct (Os.islink fs (Collector.abs (root ++ below ++ [d]))).
      - injection Ha as <-. exists []. repeat split; constructor.
      - apply (IH (below ++ [d])%list) in Ha; [exact Ha | exact Hbd]. }
    destruct Hhere as (rels & -> & Hrels & Hnd').
    exists (map (cons d) rels ++ sub)%list. split; [| split].
    + rewrite map_app, map_map. f_equal.
      apply map_ext. intro m. apply rel_snoc.
    + apply Forall_app. split.
      * rewrite Forall_forall in Hrels |- *. intros m Hm.
        apply in_map_iff in Hm as (m' & <- & Hm').
        exists d, m'.
        split; [reflexivity | split; [now left | split; [exact Hk | now apply Hrels]]].
      * eapply Forall_impl; [| exact Hsub].
        intros m (d' & m' & -> & Hin & Hk' & Hadm).
        exists d', m'.
        split; [reflexivity | split; [now right | split; assumption]].
    + intros Hdist Hds. inversion Hds as [| ? ? Hnotin Hds']; subst.
      apply NoDup_app.
      * apply NoDup_map_inj; [| now apply Hnd'].
        intros x y _ _ E. now injection E.
      * now apply Hnd.
      * intros m Hm1 Hm2.
        apply in_map_iff in Hm1 as (m' & <- & _).
        rewrite Forall_forall in Hsub.
        destruct (Hsub _ Hm2) as (d' & m'' & E & Hin & _).
        injection E as -> _. contradiction.
Qed.

Lemma admissible_file (below : list string) (f : string) :
  Collector.good_name f = true ->
  chosen below f = true ->
  Collector.admissible excluded included root below [f].
Proof.
  intros Hf Hc. unfold chosen, Collector.chosen in Hc. apply andb_true_iff in Hc as [He Hi].
  apply negb_true_iff in He.
  repeat split; try assumption; try discriminate; repeat constructor; assumption.
Qed.

Lemma admissible_below (below : list string) (d : string) (m : list string) :
  Collector.good_name d = true ->
  excluded d true = false ->
  Collector.admissible excluded included root (below ++ [d]) m ->
  Collector.admissible excluded included root below (d :: m).
Proof.
  intros Hd Hk (Hne & Hgood & Hdirs & Hfile & Hinc).
  destruct m as [| c m]; [contradiction |].
  split; [discriminate |].
  split; [now constructor |].
  split; [| split].
  - change (removelast (d :: c :: m)) with (d :: removelast (c :: m)).
    now constructor.
  - exact Hfile.
  - rewrite <- app_assoc in Hinc. exact Hinc.
Qed.

Lemma walk_shape (fuel : nat) (below found : list string) :
  Forall (fun n => Collector.good_name n = true) below ->
  Os.walk fuel fs (Collector.body excluded included root_dir)
          (Collector.abs (root ++ below)) = Some found ->
  exists rels,
    found = map (rel below) rels /\
    Forall (Collector.admissible excluded included root below) rels /\
    (Collector.distinct_listings fs -> NoDup rels).
Proof.
  revert below found.
  induction fuel as [| fuel IH]; intros below found Hbelow H; [discriminate |].
  cbn [Os.walk] in H.
  destruct (Os.listdir fs (Collector.abs (root ++ below))) as [names | msg] eqn:L.
  2: { injection H as <-. exists []. repeat split; constructor. }
  pose proof (listings_good _ _ L) as Hnames.
  set (top := Collector.abs (root ++ below)) in *.
  set (dirs := filter (fun n => Os.isdir fs (OsPath.join top n)) names) in *.
  set (nondirs := filter (fun n => negb (Os.isdir fs (OsPath.join top n))) names) in *.
  remember (Collector.body excluded included root_dir top dirs nondirs) as r eqn:Er.
  unfold Collector.body in Er. subst r. cbv beta iota in H.
  set (ds := filter (fun d => negb (excluded d true)) dirs) in *.
  destruct (Os.concat_options _) as [rest |] eqn:C; [| discriminate].
  injection H as <-.
  assert (Hds_good : Forall (fun n => Collector.good_name n = true) ds).
  { eapply incl_Forall; [| exact Hnames].
    intros x Hx. unfold ds, dirs in Hx.
    apply filter_In in Hx as [Hx _]. apply filter_In in Hx as [Hx _]. exact Hx. }
  assert (Hds_kept : Forall (fun d => excluded d true = false) ds).
  { apply Forall_forall. intros x Hx. unfold ds in Hx.
    apply filter_In in Hx as [_ Hx]. now apply negb_true_iff in Hx. }
  assert (Hnd_good : Forall (fun n => Collector.good_name n = true) nondirs).
  { eapply incl_Forall; [| exact Hnames]. apply incl_filter. }
  destruct (subdirs_shape fuel below IH Hbelow ds rest Hds_good Hds_kept C)
    as (sub & -> & Hsub & Hnd).
  unfold top. rewrite (visit_files below nondirs Hbelow Hnd_good).
  exists (map (fun f => [f]) (filter (chosen below) nondirs) ++ sub)%list.
  split; [now rewrite map_app |].
  split.
  - apply Forall_app. split.
    + apply Forall_forall. intros m Hm.
      apply in_map_iff in Hm as (f & <- & Hf).
      apply filter_In in Hf as [Hf Hc].
      apply admissible_file; [| exact Hc].
      rewrite Forall_forall in Hnd_good. now apply Hnd_good.
    + eapply Forall_impl; [| exact Hsub].
      intros m (d & m' & -> & Hin & Hk & Hadm).
      apply admissible_below; try assumption.
      rewrite Forall_forall in Hds_good. now apply Hds_good.
  - intro Hdist. pose proof (Hdist _ _ L) as Hnames_nd.
    apply NoDup_app.
    + apply NoDup_map_inj.
      * intros x y _ _ E. now injection E.
      * unfold nondirs. now repeat apply NoDup_filter.
    + apply Hnd; [exact Hdist |].
      unfold ds, dirs. now repeat apply NoDup_filter.
    + intros m Hm1 Hm2.
      apply in_map_iff in Hm1 as (f & <- & _).
      rewrite Forall_forall in Hsub.
      destruct (Hsub _ Hm2) as (d & m' & E & _ & _ & (Hne & _)).
      injection E as _ <-. contradiction.
Qed.

End WalkShape.

Lemma sorted_str_In (l : list string) (p : string) :
  In p (Py.sorted_str l) <-> In p l.
Proof.
  unfold Py.sorted_str. split; intro H.
  - eapply Permutation_in;
      [symmetry; apply (sorted_perm String.leb (fun s => s)) | exact H].
  - eapply Permutation_in; [apply (sorted_perm String.leb (fun s => s)) | exact H].
Qed.

Lemma string_sorted (l : list string) :
  StronglySorted (fun a b => String.leb a b = true) (Py.sorted_str l).
Proof.
  exact (sorted_sorted String.leb (fun s => s) String.leb_total string_leb_trans l).
Qed.

Section CollectShape.
Variable excluded : string -> bool -> bool.
Variable included : string -> bool.
Variable fs : Os.filesystem.
Variable root : list string.
Hypothesis root_good : Forall (fun n => Collector.good_name n = true) root.
Hypothesis listings_good : Collector.good_listings fs.

Lemma collect_shape (fuel : nat) (result : list string) :
  Collector.collect excluded included (Collector.abs root) fuel fs = Some result ->
  exists rels,
    Permutation (map (String.concat "/") rels) result /\
    Forall (Collector.admissible excluded included root []) rels /\
    (Collector.distinct_listings fs -> NoDup rels).
Proof.
  unfold Collector.collect.
  destruct (Os.walk fuel fs _ (Collector.abs root)) as [found |] eqn:W;
    [| discriminate].
  intro H. injection H as <-.
  rewrite <- (app_nil_r root) in W at 2.
  apply (walk_shape excluded included fs root root_good listings_good) in W;
    [| constructor].
  destruct W as (rels & -> & Hadm & Hnd).
  exists rels. split; [| split; assumption].
  apply sorted_perm.
Qed.

Lemma admissible_split (m : list string) :
  Collector.admissible excluded included root [] m ->
  OsPath.split (String.concat "/" m) = m.
Proof.
  intros (Hne & Hgood & _). destruct m as [| c m]; [contradiction |].
  apply split_concat. now apply good_sepfree.
Qed.

Lemma admissible_basename (m : list string) :
  Collector.admissible excluded included root [] m ->
  OsPath.basename (String.concat "/" m) = last m "".
Proof.
  intros (Hne & Hgood & _).
  rewrite (app_removelast_last "" Hne) at 1.
  apply basename_concat.
  assert (Hin : In (last m "") m).
  { rewrite (app_removelast_last "" Hne) at 2. apply in_or_app. right. now left. }
  rewrite Forall_forall in Hgood. apply Hgood in Hin.
  now apply good_name_spec in Hin.
Qed.

(** The directories on a returned path are not excluded, and its last
    component passed the file exclusion test. *)
Lemma collect_path (fuel : nat) (result : list string) (p : string) :
  Collector.collect excluded included (Collector.abs root) fuel fs = Some result ->
  In p result ->
  Forall (fun d => excluded d true = false) (Collector.ancestors p) /\
  excluded (OsPath.basename p) false = false.
Proof.
  intros H Hp. destruct (collect_shape fuel result H) as (rels & Hperm & Hadm & _).
  apply (Permutation_in _ (Permutation_sym Hperm)) in Hp.
  apply in_map_iff in Hp as (m & <- & Hm).
  rewrite Forall_forall in Hadm. specialize (Hadm m Hm).
  unfold Collector.ancestors.
  rewrite (admissible_split m Hadm), (admissible_basename m Hadm).
  destruct Hadm as (_ & _ & Hdirs & Hfile & _). now split.
Qed.

Lemma collect_sorted_nodup (fuel : nat) (result : list string) :
  Collector.distinct_listings fs ->
  Collector.collect excluded included (Collector.abs root) fuel fs = Some result ->
  StronglySorted (fun a b => String.leb a b = true) result /\ NoDup result.
Proof.
  intros Hdist H. split.
  - unfold Collector.collect in H.
    destruct (Os.walk fuel fs _ (Collector.abs root)); [| discriminate].
    injection H as <-. apply string_sorted.
  - destruct (collect_shape fuel result H) as (rels & Hperm & Hadm & Hnd).
    eapply Permutation_NoDup; [exact Hperm |].
    apply NoDup_map_inj; [| now apply Hnd].
    intros x y Hx Hy E. rewrite Forall_forall in Hadm.
    rewrite <- (admissible_split x (Hadm x Hx)), <- (admissible_split y (Hadm y Hy)).
    now rewrite E.
Qed.

End CollectShape.

(** ** The sample file system is well formed *)

Lemma mkfs_listing (dirs : list (string * list string)) (locked : list string)
      (files : list (string * list Byte.byte)) (path : string) (names : list string) :
  Os.listdir (Sample.mkfs dirs locked files) path = Os.Listed names ->
  In names (map snd dirs).
Proof.
  simpl. induction dirs as [| [k v] dirs IH]; simpl; [discriminate |].
  destruct (path =? k)%string.
  - intro H. injection H as <-. now left.
  - intro H. right. now apply IH.
Qed.

Lemma mkfs_good_listings (dirs : list (string * list string)) (locked : list string)
      (files : list (string * list Byte.byte)) :
  forallb (forallb Collector.good_name) (map snd dirs) = true ->
  Collector.good_listings (Sample.mkfs dirs locked files).
Proof.
  intros H path names L. apply mkfs_listing in L.
  rewrite forallb_forall in H. apply H in L.
  apply Forall_forall. now apply forallb_forall.
Qed.

Lemma distinctb_NoDup (l : list string) : Sample.distinctb l = true -> NoDup l.
Proof.
  induction l as [| x l IH]; simpl; [constructor |].
  intro H. apply andb_true_iff in H as [Hx Hl]. constructor; [| now apply IH].
  apply negb_true_iff in Hx. intro Hin. apply contains_In in Hin. congruence.
Qed.

Lemma mkfs_distinct_listings (dirs : list (string * list string)) (locked : list string)
      (files : list (string * list Byte.byte)) :
  forallb Sample.distinctb (map snd dirs) = true ->
  Collector.distinct_listings (Sample.mkfs dirs locked files).
Proof.
  intros H path names L. apply mkfs_listing in L.
  rewrite forallb_forall in H. apply distinctb_NoDup. now apply H.
Qed.

Lemma project_good_listings : Collector.good_listings Sample.project.
Proof. apply mkfs_good_listings. reflexivity. Qed.

Lemma project_distinct_listings : Collector.distinct_listings Sample.project.
Proof. apply mkfs_distinct_listings. reflexivity. Qed.

(** ** The claims on the file collector *)

Section CollectChecked.
Variable excluded : string -> bool -> bool.
Variable included : string -> bool.
Variable fs : Os.filesystem.
Variable root : list string.
Hypothesis root_good : Forall (fun n => Collector.good_name n = true) root.
Hypothesis listings_good : Collector.good_listings fs.

(** A returned path is the path, relative to the root, of a file that
    passed the inclusion test, and its base name is the name of that
    file. *)
Lemma collect_included (fuel : nat) (result : list string) (p : string) :
  Collector.collect excluded included (Collector.abs root) fuel fs = Some result ->
  In p result ->
  exists full,
    OsPath.basename full = OsPath.basename p /\ included full = true.
Proof.
  intros H Hp.
  destruct (collect_shape excluded included fs root root_good listings_good
              fuel result H) as (rels & Hperm & Hadm & _).
  apply (Permutation_in _ (Permutation_sym Hperm)) in Hp.
  apply in_map_iff in Hp as (m & <- & Hm).
  rewrite Forall_forall in Hadm. specialize (Hadm m Hm).
  rewrite (admissible_basename excluded included root m Hadm).
  destruct Hadm as (Hne & Hgood & _ & _ & Hinc).
  exists (Collector.abs (root ++ [] ++ m)). split; [| exact Hinc].
  simpl. rewrite (app_removelast_last "" Hne) at 1.
  rewrite app_assoc. apply basename_abs.
  assert (Hin : In (last m "") m).
  { rewrite (app_removelast_last "" Hne) at 2. apply in_or_app. right. now left. }
  rewrite Forall_forall in Hgood. apply Hgood in Hin.
  now apply good_name_spec in Hin.
Qed.

(** The file [file] of a directory below the root is not returned when
    its name is excluded. *)
Lemma collect_leaves_out (fuel : nat) (result below : list string) (file : string) :
  Collector.collect excluded included (Collector.abs root) fuel fs = Some result ->
  Forall (fun n => Collector.good_name n = true) below ->
  Collector.good_name file = true ->
  excluded file false = true ->
  ~ In (OsPath.relpath (OsPath.join (Collector.abs (root ++ below)) file)
                       (Collector.abs root))
       result.
Proof.
  intros H Hbelow Hfile Hex Hin.
  rewrite join_abs in Hin; [| now apply Forall_app | exact Hfile].
  rewrite <- app_assoc in Hin.
  rewrite relpath_abs in Hin;
    [| exact root_good
     | apply Forall_app; split; [exact Hbelow | now constructor]
     | now destruct below].
  destruct (collect_path excluded included fs root root_good listings_good
              fuel result _ H Hin) as [_ Hf].
  rewrite basename_concat in Hf by now apply good_name_spec in Hfile.
  congruence.
Qed.

End CollectChecked.

(** In the body of a walk the files whose names are excluded count for
    nothing, whatever the inclusion test says of them. *)
Lemma body_skips_excluded (excluded : string -> bool -> bool)
      (included : string -> bool) (root_dir root : string)
      (dirs files : list string) :
  snd (Collector.body excluded included root_dir root dirs files)
  = snd (Collector.body excluded included root_dir root dirs
           (filter (fun file => negb (excluded file false)) files)).
Proof.
  unfold Collector.body. cbn [snd].
  induction files as [| file files IH]; [reflexivity |].
  cbn [flat_map filter]. unfold Collector.visit at 1.
  destruct (excluded file false) eqn:E; cbn [negb].
  - exact IH.
  - cbn [flat_map]. unfold Collector.visit at 2. rewrite E. now rewrite IH.
Qed.

(** C2.  The loop over the files of a directory tests exclusion first:
    it appends what it would append were the excluded files not there.
    So, on a file system whose names are not empty and hold no
    separator, and from an absolute root, every path a collector returns
    names a file that passed the exclusion test and the inclusion test,
    and the file [file] of a directory below the root is not among the
    returned paths when its name is excluded, whatever the include list
    says of it.  ['package-lock.json'] matches the include pattern
    ['*.json'] and is excluded by either script. *)
Theorem C2_excluded_files_are_never_collected
        (fuel : nat) (fs : Os.filesystem) (root dirs : list string) :
  Forall (fun n => Collector.good_name n = true) root ->
  Collector.good_listings fs ->
  (forall result : list string,
      Generate4llmScript.find_files_to_include fuel fs (Collector.abs root)
      = Some result ->
      (forall p, In p result ->
                 Generate4llmScript.should_exclude_from_tree (OsPath.basename p) false
                 = false /\
                 Generate4llmScript.should_include_file p = true) /\
      (forall (below : list string) (file : string),
          Forall (fun n => Collector.good_name n = true) below ->
          Collector.good_name file = true ->
          Generate4llmScript.should_exclude_from_tree file false = true ->
          ~ In (OsPath.relpath (OsPath.join (Collector.abs (root ++ below)) file)
                               (Collector.abs root))
               result)) /\
  (forall result : list string,
      DevTools.find_files_to_process dirs fuel fs (Collector.abs root) = Some result ->
      (forall p, In p result ->
                 DevTools.should_exclude dirs (OsPath.basename p) false = false /\
                 DevTools.should_include_file p = true) /\
      (forall (below : list string) (file : string),
          Forall (fun n => Collector.good_name n = true) below ->
          Collector.good_name file = true ->
          DevTools.should_exclude dirs file false = true ->
          ~ In (OsPath.relpath (OsPath.join (Collector.abs (root ++ below)) file)
                               (Collector.abs root))
               result)) /\
  (forall (root_dir top : string) (subdirs files : list string),
      snd (Generate4llmScript.walk_body root_dir top subdirs files)
      = snd (Generate4llmScript.walk_body
               root_dir top subdirs
               (filter (fun file =>
                          negb (Generate4llmScript.should_exclude_from_tree file false))
                       files))) /\
  (forall (root_dir top : string) (subdirs files : list string),
      snd (DevTools.walk_body dirs root_dir top subdirs files)
      = snd (DevTools.walk_body
               dirs root_dir top subdirs
               (filter (fun file => negb (DevTools.should_exclude dirs file false))
                       files))) /\
  Generate4llmScript.should_include_file "package-lock.json" = true /\
  Generate4llmScript.should_exclude_from_tree "package-lock.json" false = true /\
  DevTools.should_include_file "package-lock.json" = true /\
  DevTools.should_exclude dirs "package-lock.json" false = true.
Proof.
  intros Hroot Hgood. split; [| split; [| split; [| split]]];
    [| | intros root_dir top subdirs files;
         exact (body_skips_excluded Generate4llmScript.should_exclude_from_tree
                  Generate4llmScript.should_include_file root_dir top subdirs files)
       | intros root_dir top subdirs files;
         exact (body_skips_excluded (DevTools.should_exclude dirs)
                  DevTools.should_include_file root_dir top subdirs files)
       |].
  - intros result H. split.
    + intros p Hp. split.
      * apply (collect_path Generate4llmScript.should_exclude_from_tree
                 Generate4llmScript.should_include_file fs root Hroot Hgood
                 fuel result p H Hp).
      * destruct (collect_included Generate4llmScript.should_exclude_from_tree
                    Generate4llmScript.should_include_file fs root Hroot Hgood
                    fuel result p H Hp) as (full & Hb & Hi).
        unfold Generate4llmScript.should_include_file in Hi |- *.
        now rewrite <- Hb.
    + intros below file.
      apply (collect_leaves_out Generate4llmScript.should_exclude_from_tree
               Generate4llmScript.should_include_file fs root Hroot Hgood
               fuel result below file H).
  - intros result H. split.
    + intros p Hp. split.
      * apply (collect_path (DevTools.should_exclude dirs)
                 DevTools.should_include_file fs root Hroot Hgood
                 fuel result p H Hp).
      * destruct (collect_included (DevTools.should_exclude dirs)
                    DevTools.should_include_file fs root Hroot Hgood
                    fuel result p H Hp) as (full & Hb & Hi).
        unfold DevTools.should_include_file in Hi |- *.
        now rewrite <- Hb.
    + intros below file.
      apply (collect_leaves_out (DevTools.should_exclude dirs)
               DevTools.should_include_file fs root Hroot Hgood
               fuel result below file H).
  - repeat split; reflexivity.
Qed.

(** C2 on the sample project, whose root holds ['package-lock.json']. *)
Lemma C2_excluded_files_witness :
  Forall (fun n => Collector.good_name n = true) ["p"] /\
  Collector.good_listings Sample.project /\
  Os.listdir Sample.project "/p"
  = Os.Listed ["src"; "package-lock.json"; "app.py"; "node_modules"; "Zed.js";
               ".env.example"; "secret"; "debug.log"] /\
  Generate4llmScript.find_files_to_include 4 Sample.project (Collector.abs ["p"])
  = Some ["Zed.js"; "app.py"; "src/README.md"; "src/index.js"; "src/lib/util.ts"] /\
  DevTools.find_files_to_process DevTools.exclude_dirs 4 Sample.project
                                 (Collector.abs ["p"])
  = Some [".env.example"; "Zed.js"; "app.py"; "src/README.md"; "src/index.js";
          "src/lib/util.ts"] /\
  ((forall p,
       In p ["Zed.js"; "app.py"; "src/README.md"; "src/index.js"; "src/lib/util.ts"] ->
       Generate4llmScript.should_exclude_from_tree (OsPath.basename p) false = false /\
       Generate4llmScript.should_include_file p = true) /\
   (forall (below : list string) (file : string),
       Forall (fun n => Collector.good_name n = true) below ->
       Collector.good_name file = true ->
       Generate4llmScript.should_exclude_from_tree file false = true ->
       ~ In (OsPath.relpath (OsPath.join (Collector.abs (["p"] ++ below)) file)
                            (Collector.abs ["p"]))
            ["Zed.js"; "app.py"; "src/README.md"; "src/index.js"; "src/lib/util.ts"])) /\
  ((forall p,
       In p [".env.example"; "Zed.js"; "app.py"; "src/README.md"; "src/index.js";
             "src/lib/util.ts"] ->
       DevTools.should_exclude DevTools.exclude_dirs (OsPath.basename p) false = false /\
       DevTools.should_include_file p = true) /\
   (forall (below : list string) (file : string),
       Forall (fun n => Collector.good_name n = true) below ->
       Collector.good_name file = true ->
       DevTools.should_exclude DevTools.exclude_dirs file false = true ->
       ~ In (OsPath.relpath (OsPath.join (Collector.abs (["p"] ++ below)) file)
                            (Collector.abs ["p"]))
            [".env.example"; "Zed.js"; "app.py"; "src/README.md"; "src/index.js";
             "src/lib/util.ts"])).
Proof.
  split; [repeat constructor |].
  split; [exact project_good_listings |].
  split; [reflexivity |].
  split; [reflexivity |].
  split; [reflexivity |].
  destruct (C2_excluded_files_are_never_collected
              4 Sample.project ["p"] DevTools.exclude_dirs) as (S & D & _ & _ & _).
  - repeat constructor.
  - exact project_good_listings.
  - split.
    + exact (S _ eq_refl).
    + exact (D _ eq_refl).
Defined.

(** C5.  On a file system whose names are not empty and hold no
    separator, and from an absolute root, no directory component of a
    path that a collector returns is in the directory-exclusion set (for
    the second script, the set as it is when the collector runs): the
    walk descends only into the directories its body has kept. *)
Theorem C5_no_excluded_directory_on_a_collected_path
        (fuel : nat) (fs : Os.filesystem) (root dirs : list string)
        (result : list string) (p : string) :
  Forall (fun n => Collector.good_name n = true) root ->
  Collector.good_listings fs ->
  In p result ->
  (Generate4llmScript.find_files_to_include fuel fs (Collector.abs root) = Some result ->
   forall d, In d (Collector.ancestors p) -> ~ In d Generate4llmScript.exclude_dirs) /\
  (DevTools.find_files_to_process dirs fuel fs (Collector.abs root) = Some result ->
   forall d, In d (Collector.ancestors p) -> ~ In d dirs).
Proof.
  intros Hroot Hgood Hp. split; intros H d Hd Hin.
  - destruct (collect_path Generate4llmScript.should_exclude_from_tree
                Generate4llmScript.should_include_file fs root Hroot Hgood
                fuel result p H Hp) as [Hanc _].
    rewrite Forall_forall in Hanc. specialize (Hanc d Hd).
    apply contains_In in Hin.
    unfold Generate4llmScript.should_exclude_from_tree in Hanc. congruence.
  - destruct (collect_path (DevTools.should_exclude dirs)
                DevTools.should_include_file fs root Hroot Hgood
                fuel result p H Hp) as [Hanc _].
    rewrite Forall_forall in Hanc. specialize (Hanc d Hd).
    apply contains_In in Hin.
    unfold DevTools.should_exclude in Hanc. congruence.
Qed.

(** C5 for ['src/lib/util.ts'] of the sample project, whose
    ['node_modules'] holds a file that matches ['*.js']. *)
Lemma C5_no_excluded_directory_witness :
  Forall (fun n => Collector.good_name n = true) ["p"] /\
  Collector.good_listings Sample.project /\
  In "src/lib/util.ts"
     ["Zed.js"; "app.py"; "src/README.md"; "src/index.js"; "src/lib/util.ts"] /\
  Generate4llmScript.find_files_to_include 4 Sample.project (Collector.abs ["p"])
  = Some ["Zed.js"; "app.py"; "src/README.md"; "src/index.js"; "src/lib/util.ts"] /\
  Collector.ancestors "src/lib/util.ts" = ["src"; "lib"] /\
  ((Generate4llmScript.find_files_to_include 4 Sample.project (Collector.abs ["p"])
    = Some ["Zed.js"; "app.py"; "src/README.md"; "src/index.js"; "src/lib/util.ts"] ->
    forall d, In d (Collector.ancestors "src/lib/util.ts") ->
              ~ In d Generate4llmScript.exclude_dirs) /\
   (DevTools.find_files_to_process DevTools.exclude_dirs 4 Sample.project
                                   (Collector.abs ["p"])
    = Some ["Zed.js"; "app.py"; "src/README.md"; "src/index.js"; "src/lib/util.ts"] ->
    forall d, In d (Collector.ancestors "src/lib/util.ts") ->
              ~ In d DevTools.exclude_dirs)).
Proof.
  split; [repeat constructor |].
  split; [exact project_good_listings |].
  split; [simpl; auto 6 |].
  split; [reflexivity |].
  split; [reflexivity |].
  apply (C5_no_excluded_directory_on_a_collected_path
           4 Sample.project ["p"] DevTools.exclude_dirs
           ["Zed.js"; "app.py"; "src/README.md"; "src/index.js"; "src/lib/util.ts"]
           "src/lib/util.ts").
  - repeat constructor.
  - exact project_good_listings.
  - simpl. auto 6.
Defined.

(** C6.  On a file system whose names are not empty, hold no separator
    and are not repeated within a directory, what a collector returns is
    in ascending lexicographic order and holds no path twice. *)
Theorem C6_collected_paths_sorted_without_duplicates
        (fuel : nat) (fs : Os.filesystem) (root dirs : list string)
        (result : list string) :
  Forall (fun n => Collector.good_name n = true) root ->
  Collector.good_listings fs ->
  Collector.distinct_listings fs ->
  (Generate4llmScript.find_files_to_include fuel fs (Collector.abs root) = Some result ->
   StronglySorted (fun a b => String.leb a b = true) result /\ NoDup result) /\
  (DevTools.find_files_to_process dirs fuel fs (Collector.abs root) = Some result ->
   StronglySorted (fun a b => String.leb a b = true) result /\ NoDup result).
Proof.
  intros Hroot Hgood Hdist. split; intro H.
  - exact (collect_sorted_nodup Generate4llmScript.should_exclude_from_tree
             Generate4llmScript.should_include_file fs root Hroot Hgood
             fuel result Hdist H).
  - exact (collect_sorted_nodup (DevTools.should_exclude dirs)
             DevTools.should_include_file fs root Hroot Hgood
             fuel result Hdist H).
Qed.

(** C6 on the sample project. *)
Lemma C6_collected_paths_witness :
  Forall (fun n => Collector.good_name n = true) ["p"] /\
  Collector.good_listings Sample.project /\
  Collector.distinct_listings Sample.project /\
  Generate4llmScript.find_files_to_include 4 Sample.project (Collector.abs ["p"])
  = Some ["Zed.js"; "app.py"; "src/README.md"; "src/index.js"; "src/lib/util.ts"] /\
  ((Generate4llmScript.find_files_to_include 4 Sample.project (Collector.abs ["p"])
    = Some ["Zed.js"; "app.py"; "src/README.md"; "src/index.js"; "src/lib/util.ts"] ->
    StronglySorted (fun a b => String.leb a b = true)
      ["Zed.js"; "app.py"; "src/README.md"; "src/index.js"; "src/lib/util.ts"] /\
    NoDup ["Zed.js"; "app.py"; "src/README.md"; "src/index.js"; "src/lib/util.ts"]) /\
   (DevTools.find_files_to_process DevTools.exclude_dirs 4 Sample.project
                                   (Collector.abs ["p"])
    = Some ["Zed.js"; "app.py"; "src/README.md"; "src/index.js"; "src/lib/util.ts"] ->
    StronglySorted (fun a b => String.leb a b = true)
      ["Zed.js"; "app.py"; "src/README.md"; "src/index.js"; "src/lib/util.ts"] /\
    NoDup ["Zed.js"; "app.py"; "src/README.md"; "src/index.js"; "src/lib/util.ts"])).
Proof.
  split; [repeat constructor |].
  split; [exact project_good_listings |].
  split; [exact project_distinct_listings |].
  split; [reflexivity |].
  apply (C6_collected_paths_sorted_without_duplicates
           4 Sample.project ["p"] DevTools.exclude_dirs
           ["Zed.js"; "app.py"; "src/README.md"; "src/index.js"; "src/lib/util.ts"]).
  - repeat constructor.
  - exact project_good_listings.
  - exact project_distinct_listings.
Defined.

(** C10.  In generate4llm_script.py, whose file exclusion test holds
    for every name that starts with a dot, no returned path has a base
    name that starts with a dot; in particular none is ['.env.example'],
    though that name is an entry of [include_files] and passes the
    inclusion test. *)
Theorem C10_env_example_is_never_collected
        (fuel : nat) (fs : Os.filesystem) (root : list string)
        (result : list string) (p : string) :
  Forall (fun n => Collector.good_name n = true) root ->
  Collector.good_listings fs ->
  Generate4llmScript.find_files_to_include fuel fs (Collector.abs root) = Some result ->
  In p result ->
  Py.startswith (OsPath.basename p) "." = false /\
  (OsPath.basename p =? ".env.example")%string = false /\
  In ".env.example" Generate4llmScript.include_files /\
  Generate4llmScript.should_include_file ".env.example" = true /\
  Generate4llmScript.should_exclude_from_tree ".env.example" false = true.
Proof.
  intros Hroot Hgood H Hp.
  destruct (collect_path Generate4llmScript.should_exclude_from_tree
              Generate4llmScript.should_include_file fs root Hroot Hgood
              fuel result p H Hp) as [_ Hfile].
  unfold Generate4llmScript.should_exclude_from_tree in Hfile.
  apply orb_false_iff in Hfile as [_ Hdot].
  split; [exact Hdot |].
  split.
  - apply String.eqb_neq. intro E. rewrite E in Hdot. discriminate.
  - split; [simpl; auto 20 |]. split; reflexivity.
Qed.

(** C10 on the sample project, whose root holds ['.env.example']. *)
Lemma C10_env_example_witness :
  Forall (fun n => Collector.good_name n = true) ["p"] /\
  Collector.good_listings Sample.project /\
  Os.listdir Sample.project "/p"
  = Os.Listed ["src"; "package-lock.json"; "app.py"; "node_modules"; "Zed.js";
               ".env.example"; "secret"; "debug.log"] /\
  Generate4llmScript.find_files_to_include 4 Sample.project (Collector.abs ["p"])
  = Some ["Zed.js"; "app.py"; "src/README.md"; "src/index.js"; "src/lib/util.ts"] /\
  In "app.py" ["Zed.js"; "app.py"; "src/README.md"; "src/index.js"; "src/lib/util.ts"] /\
  (Py.startswith (OsPath.basename "app.py") "." = false /\
   (OsPath.basename "app.py" =? ".env.example")%string = false /\
   In ".env.example" Generate4llmScript.include_files /\
   Generate4llmScript.should_include_file ".env.example" = true /\
   Generate4llmScript.should_exclude_from_tree ".env.example" false = true).
Proof.
  split; [repeat constructor |].
  split; [exact project_good_listings |].
  split; [reflexivity |].
  split; [reflexivity |].
  split; [simpl; auto |].
  apply (C10_env_example_is_never_collected
           4 Sample.project ["p"]
           ["Zed.js"; "app.py"; "src/README.md"; "src/index.js"; "src/lib/util.ts"]
           "app.py").
  - repeat constructor.
  - exact project_good_listings.
  - reflexivity.
  - simpl. auto.
Defined.

(** ** Independence of the iteration order *)

Lemma filter_Permutation {A : Type} (f : A -> bool) (l l' : list A) :
  Permutation l l' -> Permutation (filter f l) (filter f l').
Proof.
  induction 1 as [| x l l' _ IH | x y l | l l' l'' _ IH1 _ IH2]; simpl.
  - constructor.
  - destruct (f x); [now constructor | assumption].
  - destruct (f x), (f y); try reflexivity. apply perm_swap.
  - etransitivity; eassumption.
Qed.

Lemma same_elements_refl {A : Type} (a : option (list A)) : Order.same_elements a a.
Proof. destruct a; simpl; auto. Qed.

Lemma same_elements_trans {A : Type} (a b c : option (list A)) :
  Order.same_elements a b -> Order.same_elements b c -> Order.same_elements a c.
Proof.
  destruct a, b, c; simpl; try contradiction; auto.
  intros. etransitivity; eassumption.
Qed.

Lemma concat_options_pointwise {A B : Type} (g1 g2 : B -> option (list A))
      (l : list B) :
  (forall d, Order.same_elements (g1 d) (g2 d)) ->
  Order.same_elements (Os.concat_options (map g1 l)) (Os.concat_options (map g2 l)).
Proof.
  intro H. induction l as [| d l IH]; simpl; [constructor |].
  specialize (H d).
  destruct (g1 d) as [a1 |], (g2 d) as [a2 |]; try contradiction; [| exact I].
  destruct (Os.concat_options (map g1 l)) as [r1 |],
           (Os.concat_options (map g2 l)) as [r2 |]; try contradiction; [| exact I].
  simpl in *. now apply Permutation_app.
Qed.

Lemma concat_options_perm {A B : Type} (g : B -> option (list A)) (l l' : list B) :
  Permutation l l' ->
  Order.same_elements (Os.concat_options (map g l)) (Os.concat_options (map g l')).
Proof.
  induction 1 as [| x l l' _ IH | x y l | l l' l'' _ IH1 _ IH2].
  - simpl. constructor.
  - simpl. destruct (g x) as [a |]; [| exact I].
    destruct (Os.concat_options (map g l)) as [r1 |],
             (Os.concat_options (map g l')) as [r2 |]; try contradiction; [| exact I].
    simpl in *. now apply Permutation_app_head.
  - simpl.
    destruct (g x) as [a |], (g y) as [b |],
             (Os.concat_options (map g l)) as [r |]; simpl; try exact I.
    rewrite !app_assoc. apply Permutation_app_tail, Permutation_app_comm.
  - eapply same_elements_trans; eassumption.
Qed.

Lemma sorted_str_perm (l l' : list string) :
  Permutation l l' -> Py.sorted_str l = Py.sorted_str l'.
Proof.
  intro P. unfold Py.sorted_str.
  apply (sorted_unique (Py.key_le String.leb (fun s => s))).
  - intros x y _ _. apply String.leb_antisym.
  - apply sorted_sorted; [apply String.leb_total | apply string_leb_trans].
  - apply sorted_sorted; [apply String.leb_total | apply string_leb_trans].
  - rewrite <- !(sorted_perm String.leb (fun s => s)). exact P.
Qed.

Section SameOrder.
Context {casing : Py.Casing}.
Variable fs1 fs2 : Os.filesystem.
Hypothesis same : Order.same_up_to_order fs1 fs2.

Lemma same_isdir (p : string) : Os.isdir fs1 p = Os.isdir fs2 p.
Proof. apply same. Qed.

Lemma same_open_r (p : string) : Os.open_r fs1 p = Os.open_r fs2 p.
Proof. apply same. Qed.

Lemma same_listed (p : string) (names : list string) :
  Os.listdir fs1 p = Os.Listed names ->
  exists names', Os.listdir fs2 p = Os.Listed names' /\ Permutation names names'.
Proof.
  intro L. destruct same as [Hl _]. specialize (Hl p). rewrite L in Hl.
  destruct (Os.listdir fs2 p) as [names' | msg]; [| contradiction].
  now exists names'.
Qed.

Lemma same_denied (p : string) (msg : string) :
  Os.listdir fs1 p = Os.Denied msg -> Os.listdir fs2 p = Os.Denied msg.
Proof.
  intro L. destruct same as [Hl _]. specialize (Hl p). rewrite L in Hl.
  destruct (Os.listdir fs2 p) as [names' | msg']; [contradiction |].
  simpl in Hl. now subst.
Qed.

Variable excluded : string -> bool -> bool.

Lemma kept_same (directory : string) (names names' : list string) :
  Permutation names names' ->
  Permutation (Tree.kept excluded fs1 directory names)
              (Tree.kept excluded fs2 directory names').
Proof.
  intro P. unfold Tree.kept.
  rewrite (map_ext (Tree.entry fs1 directory) (Tree.entry fs2 directory))
    by (intro n; unfold Tree.entry; now rewrite same_isdir).
  apply Permutation_map.
  rewrite (filter_ext _ (fun name =>
             negb (excluded name (Os.isdir fs2 (OsPath.join directory name)))))
    by (intro n; now rewrite same_isdir).
  now apply filter_Permutation.
Qed.

Lemma level_same (directory : string) (names names' : list string) :
  Order.unambiguous fs1 ->
  Os.listdir fs1 directory = Os.Listed names ->
  Permutation names names' ->
  Tree.level excluded fs1 directory names = Tree.level excluded fs2 directory names'.
Proof.
  intros Hun L P. unfold Tree.level.
  apply (sorted_unique (Py.key_le Py.key_leb Generate4llmScript.sort_key)).
  - intros x y Hx Hy Hxy Hyx.
    pose proof (key_leb_antisym _ _ Hxy Hyx) as E.
    apply (Permutation_in _ (Permutation_sym
             (sorted_perm Py.key_leb Generate4llmScript.sort_key _))) in Hx, Hy.
    unfold Tree.kept in Hx, Hy.
    apply in_map_iff in Hx as (n1 & <- & H1), Hy as (n2 & <- & H2).
    apply filter_In in H1 as [H1 _], H2 as [H2 _].
    unfold Generate4llmScript.sort_key, Tree.entry in E. simpl in E.
    injection E as Ed El.
    assert (n1 = n2) as ->; [| reflexivity].
    apply (Hun directory names); auto.
    now destruct (Os.isdir fs1 (OsPath.join directory n1)),
                 (Os.isdir fs1 (OsPath.join directory n2)).
  - apply sorted_sorted; [apply key_leb_total | apply key_leb_trans].
  - apply sorted_sorted; [apply key_leb_total | apply key_leb_trans].
  - rewrite <- !sorted_perm. now apply kept_same.
Qed.

Lemma render_same (fuel : nat) (directory prefix : string)
      (max_depth current_depth : Z) :
  Order.unambiguous fs1 ->
  Tree.render excluded fs1 fuel directory prefix max_depth current_depth
  = Tree.render excluded fs2 fuel directory prefix max_depth current_depth.
Proof.
  intro Hun. revert directory prefix current_depth.
  induction fuel as [| fuel IH]; intros directory prefix current_depth;
    [reflexivity |].
  cbn [Tree.render].
  destruct (current_depth >? max_depth)%Z; [reflexivity |].
  destruct (Os.listdir fs1 directory) as [names | msg] eqn:L.
  - destruct (same_listed _ _ L) as (names' & -> & P).
    rewrite (level_same directory names names' Hun L P).
    apply lines_ext. intros path next_prefix. apply IH.
  - now rewrite (same_denied _ _ L).
Qed.

Variable included : string -> bool.
Variable root_dir : string.

Lemma walk_same (fuel : nat) (top : string) :
  Order.same_elements
    (Os.walk fuel fs1 (Collector.body excluded included root_dir) top)
    (Os.walk fuel fs2 (Collector.body excluded included root_dir) top).
Proof.
  revert top. induction fuel as [| fuel IH]; intro top; [exact I |].
  cbn [Os.walk].
  destruct (Os.listdir fs1 top) as [names | msg] eqn:L.
  2: { rewrite (same_denied _ _ L). apply same_elements_refl. }
  destruct (same_listed _ _ L) as (names' & -> & P).
  rewrite (filter_ext (fun n => Os.isdir fs1 (OsPath.join top n))
                      (fun n => Os.isdir fs2 (OsPath.join top n)))
    by (intro n; apply same_isdir).
  rewrite (filter_ext (fun n => negb (Os.isdir fs1 (OsPath.join top n)))
                      (fun n => negb (Os.isdir fs2 (OsPath.join top n))))
    by (intro n; now rewrite same_isdir).
  set (isd := fun n => Os.isdir fs2 (OsPath.join top n)).
  set (nond := fun n => negb (Os.isdir fs2 (OsPath.join top n))).
  remember (Collector.body excluded included root_dir top (filter isd names)
                           (filter nond names)) as r1 eqn:E1.
  remember (Collector.body excluded included root_dir top (filter isd names')
                           (filter nond names')) as r2 eqn:E2.
  unfold Collector.body in E1, E2. subst r1 r2. cbv beta iota.
  set (keep := fun d => negb (excluded d true)).
  match goal with
  | |- Order.same_elements
         (match Os.concat_options (map ?a _) with _ => _ end)
         (match Os.concat_options (map ?b _) with _ => _ end) =>
      set (g1 := a); set (g2 := b)
  end.
  assert (Hsub : Order.same_elements
                   (Os.concat_options (map g1 (filter keep (filter isd names))))
                   (Os.concat_options (map g2 (filter keep (filter isd names'))))).
  { apply (same_elements_trans
             _ (Os.concat_options (map g2 (filter keep (filter isd names))))).
    - apply (concat_options_pointwise g1 g2). intro d. unfold g1, g2. cbv beta zeta.
      destruct same as (_ & _ & _ & Hlink & _). rewrite Hlink.
      destruct (Os.islink fs2 (OsPath.join top d)); [apply same_elements_refl | apply IH].
    - apply concat_options_perm. now do 2 apply filter_Permutation. }
  destruct (Os.concat_options (map g1 _)) as [rest1 |],
           (Os.concat_options (map g2 _)) as [rest2 |]; try exact Hsub.
  simpl in Hsub |- *. apply Permutation_app; [| exact Hsub].
  apply Permutation_flat_map. now apply filter_Permutation.
Qed.

Lemma collect_same (fuel : nat) :
  Collector.collect excluded included root_dir fuel fs1
  = Collector.collect excluded included root_dir fuel fs2.
Proof.
  unfold Collector.collect. pose proof (walk_same fuel root_dir) as H.
  destruct (Os.walk fuel fs1 _ root_dir) as [l1 |],
           (Os.walk fuel fs2 _ root_dir) as [l2 |]; try contradiction;
    [| reflexivity].
  f_equal. now apply sorted_str_perm.
Qed.

End SameOrder.

Section SameReports.
Context {casing : Py.Casing}.
Variable fs1 fs2 : Os.filesystem.
Hypothesis same : Order.same_up_to_order fs1 fs2.

Lemma read_file_content_same (p : string) :
  Generate4llmScript.read_file_content fs1 p = Generate4llmScript.read_file_content fs2 p.
Proof.
  unfold Generate4llmScript.read_file_content. now rewrite (same_open_r fs1 fs2 same).
Qed.

Lemma same_open_w (p : string) : Os.open_w fs1 p = Os.open_w fs2 p.
Proof. apply same. Qed.

Lemma generate_markdown_same (fuel : nat) (root_dir : string) :
  Order.unambiguous fs1 ->
  Generate4llmScript.generate_markdown fuel fs1 root_dir
  = Generate4llmScript.generate_markdown fuel fs2 root_dir.
Proof.
  intro Hun. unfold Generate4llmScript.generate_markdown.
  rewrite !generate_tree_render, !find_files_to_include_collect.
  rewrite (render_same fs1 fs2 same _ fuel root_dir "" 10 0 Hun).
  rewrite (collect_same fs1 fs2 same _ _ root_dir fuel).
  destruct (Tree.render _ fs2 fuel root_dir "" 10 0) as [tree |]; [| reflexivity].
  destruct (Collector.collect _ _ root_dir fuel fs2) as [files |]; [| reflexivity].
  rewrite same_open_w. do 2 f_equal.
  apply fold_left_ext. intros acc file_path.
  destruct acc as [content | e]; [| reflexivity].
  unfold Py.bind, Generate4llmScript.file_section.
  now rewrite read_file_content_same.
Qed.

Lemma dev_generate_markdown_same (fuel : nat) (root_dir dev_tools_name : string) :
  Order.unambiguous fs1 ->
  DevTools.generate_markdown fuel fs1 root_dir dev_tools_name
  = DevTools.generate_markdown fuel fs2 root_dir dev_tools_name.
Proof.
  intro Hun. unfold DevTools.generate_markdown.
  rewrite !dev_generate_tree_render, !find_files_to_process_collect.
  rewrite (render_same fs1 fs2 same _ fuel root_dir "" 10 0 Hun).
  rewrite (collect_same fs1 fs2 same _ _ root_dir fuel).
  destruct (Tree.render _ fs2 fuel root_dir "" 10 0) as [tree |]; [| reflexivity].
  destruct (Collector.collect _ _ root_dir fuel fs2) as [files |]; [| reflexivity].
  rewrite same_open_w. do 2 f_equal.
  apply fold_left_ext. intros acc relative_path.
  destruct acc as [content | e]; [| reflexivity].
  unfold Py.bind, DevTools.file_section, DevTools.read_file_content.
  now rewrite (same_open_r fs1 fs2 same).
Qed.

Lemma process_file_same (file_path : string) (o : ProjectToGpt.output)
      (root_path : string) :
  ProjectToGpt.process_file fs1 file_path o root_path
  = ProjectToGpt.process_file fs2 file_path o root_path.
Proof.
  unfold ProjectToGpt.process_file. now rewrite (same_open_r fs1 fs2 same).
Qed.

Lemma process_directory_same (fuel : nat) (dir_path : string)
      (o : ProjectToGpt.output) (root_path : string) :
  ProjectToGpt.process_directory fuel fs1 dir_path o root_path
  = ProjectToGpt.process_directory fuel fs2 dir_path o root_path.
Proof.
  revert dir_path o. induction fuel as [| fuel IH]; intros dir_path o;
    [reflexivity |].
  cbn [ProjectToGpt.process_directory].
  destruct (Os.listdir fs1 dir_path) as [names | msg] eqn:L.
  - destruct (same_listed fs1 fs2 same _ _ L) as (names' & -> & P).
    rewrite (sorted_str_perm names names' P).
    apply fold_left_ext. intros acc entry.
    destruct acc as [[o' | e] |]; try reflexivity.
    destruct same as (_ & Hd & Hf & _). rewrite Hd, Hf, IH, process_file_same.
    reflexivity.
  - now rewrite (same_denied fs1 fs2 same _ _ L).
Qed.

Lemma generate_documentation_same (fuel : nat) (now project_path output_file_path : string)
      (o : ProjectToGpt.output) :
  ProjectToGpt.generate_documentation fuel fs1 now project_path output_file_path o
  = ProjectToGpt.generate_documentation fuel fs2 now project_path output_file_path o.
Proof.
  unfold ProjectToGpt.generate_documentation.
  now rewrite same_open_w, process_directory_same.
Qed.

End SameReports.

Lemma extend_nothing_r (o : ProjectToGpt.output) : Stamp.extend o Stamp.nothing = o.
Proof.
  destruct o as [w p]. unfold Stamp.extend. simpl.
  now rewrite append_nil_r, app_nil_r.
Qed.

Lemma extend_assoc (a b c : ProjectToGpt.output) :
  Stamp.extend (Stamp.extend a b) c = Stamp.extend a (Stamp.extend b c).
Proof.
  unfold Stamp.extend. simpl. now rewrite append_assoc, <- app_assoc.
Qed.

Lemma extend_write (o d : ProjectToGpt.output) (s : string) :
  ProjectToGpt.write (Stamp.extend o d) s = Stamp.extend o (ProjectToGpt.write d s).
Proof.
  unfold ProjectToGpt.write, Stamp.extend. simpl. now rewrite append_assoc.
Qed.

Lemma extend_print (o d : ProjectToGpt.output) (s : string) :
  ProjectToGpt.print (Stamp.extend o d) s = Stamp.extend o (ProjectToGpt.print d s).
Proof.
  unfold ProjectToGpt.print, Stamp.extend. simpl. now rewrite <- app_assoc.
Qed.

Lemma process_file_offset {casing : Py.Casing}
      (fs : Os.filesystem) (file_path root_path : string)
      (o : ProjectToGpt.output) :
  ProjectToGpt.process_file fs file_path o root_path
  = Stamp.map_result (Stamp.extend o)
      (ProjectToGpt.process_file fs file_path Stamp.nothing root_path).
Proof.
  rewrite <- (extend_nothing_r o) at 1.
  rewrite !process_file_form. cbn [Stamp.map_result]. f_equal.
  destruct (OsPath.relative_to file_path root_path) as [relative_path | e].
  - destruct (Os.open_r fs file_path) as [msg | data].
    + now rewrite extend_print.
    + destruct (Codec.utf8_valid data).
      * now rewrite !extend_write.
      * now rewrite extend_print.
  - now rewrite extend_print.
Qed.

Lemma process_directory_offset {casing : Py.Casing} (fs : Os.filesystem) (fuel : nat)
      (dir_path root_path : string) (o : ProjectToGpt.output) :
  ProjectToGpt.process_directory fuel fs dir_path o root_path
  = option_map (Stamp.map_result (Stamp.extend o))
      (ProjectToGpt.process_directory fuel fs dir_path Stamp.nothing root_path).
Proof.
  revert dir_path o. induction fuel as [| fuel IH]; intros dir_path o;
    [reflexivity |].
  cbn [ProjectToGpt.process_directory].
  destruct (Os.listdir fs dir_path) as [names | msg].
  2: { simpl. rewrite <- (extend_nothing_r o) at 1. now rewrite extend_print. }
  generalize (map (OsPath.join dir_path) (Py.sorted_str names)). intro entries.
  match goal with |- fold_left ?f _ _ = _ => set (step := f) end.
  assert (Hstuck : forall (l : list string) (e : Py.exn),
             fold_left step l (Some (Py.Raised e)) = Some (Py.Raised e)).
  { intros l e. induction l as [| x l IHl]; simpl; auto. }
  assert (Hnone : forall l : list string, fold_left step l None = None).
  { intro l. induction l as [| x l IHl]; simpl; auto. }
  assert (Hfold : forall (l : list string) (a d : ProjectToGpt.output),
             fold_left step l (Some (Py.Returned (Stamp.extend a d)))
             = option_map (Stamp.map_result (Stamp.extend a))
                 (fold_left step l (Some (Py.Returned d)))).
  { induction l as [| entry l IHl]; intros a d; [reflexivity |].
    cbn [fold_left]. unfold step at 2 4.
    destruct (negb (ProjectToGpt.should_process_path entry)); [apply IHl |].
    destruct (Os.isdir fs entry).
    - rewrite (IH entry (Stamp.extend a d)), (IH entry d).
      destruct (ProjectToGpt.process_directory fuel fs entry Stamp.nothing root_path)
        as [[d' | e] |]; simpl.
      + rewrite extend_assoc. apply IHl.
      + now rewrite !Hstuck.
      + now rewrite !Hnone.
    - destruct (Os.isfile fs entry); [| apply IHl].
      rewrite (process_file_offset fs entry root_path (Stamp.extend a d)),
              (process_file_offset fs entry root_path d).
      destruct (ProjectToGpt.process_file fs entry Stamp.nothing root_path)
        as [d' | e]; simpl.
      + rewrite extend_assoc. apply IHl.
      + now rewrite !Hstuck. }
  rewrite <- (extend_nothing_r o) at 1. apply Hfold.
Qed.

Lemma generate_documentation_stamped {casing : Py.Casing} (fuel : nat) (fs : Os.filesystem)
      (now project_path output_file_path : string) (o : ProjectToGpt.output) :
  ProjectToGpt.generate_documentation fuel fs now project_path output_file_path o
  = option_map (Stamp.map_result (Stamp.stamped o now output_file_path))
      (match Os.open_w fs output_file_path with
       | Some msg => Some (Py.Raised (Py.OSError msg))
       | None =>
           ProjectToGpt.process_directory fuel fs project_path Stamp.nothing
                                          project_path
       end).
Proof.
  unfold ProjectToGpt.generate_documentation.
  destruct (Os.open_w fs output_file_path) as [msg |]; [reflexivity |].
  rewrite process_directory_offset.
  destruct (ProjectToGpt.process_directory fuel fs project_path Stamp.nothing
                                           project_path) as [[d | e] |];
    reflexivity.
Qed.

Lemma NoDup_map_injective {A B : Type} (f : A -> B) (l : list A) (x y : A) :
  NoDup (map f l) -> In x l -> In y l -> f x = f y -> x = y.
Proof.
  induction l as [| a l IH]; simpl; [contradiction |].
  intros Hnd Hx Hy E. inversion Hnd as [| ? ? Hnot Hnd']; subst.
  destruct Hx as [-> | Hx], Hy as [-> | Hy]; auto.
  - exfalso. apply Hnot. rewrite E. now apply in_map.
  - exfalso. apply Hnot. rewrite <- E. now apply in_map.
Qed.

Lemma mkfs_unambiguous {casing : Py.Casing}
      (dirs : list (string * list string)) (locked : list string)
      (files : list (string * list Byte.byte)) :
  forallb (fun names => Sample.distinctb (map Py.lower names)) (map snd dirs) = true ->
  Order.unambiguous (Sample.mkfs dirs locked files).
Proof.
  intros H path names n1 n2 L H1 H2 _ E. apply mkfs_listing in L.
  rewrite forallb_forall in H. apply H in L. apply distinctb_NoDup in L.
  exact (NoDup_map_injective Py.lower names n1 n2 L H1 H2 E).
Qed.

Lemma project_unambiguous : Order.unambiguous Sample.project.
Proof. apply mkfs_unambiguous. reflexivity. Qed.

Lemma mixed_case_same :
  Order.same_up_to_order Sample.mixed_case Sample.mixed_case_reordered.
Proof.
  repeat split; intro p; try reflexivity.
  cbn. destruct (p =? "/q")%string; cbn; [apply perm_swap | reflexivity].
Qed.

Lemma project_same :
  Order.same_up_to_order Sample.project Sample.project_reordered.
Proof.
  repeat split; intro p; try reflexivity.
  cbn.
  destruct (p =? "/p")%string;
    [exact (Permutation_rev ["src"; "package-lock.json"; "app.py"; "node_modules";
                             "Zed.js"; ".env.example"; "secret"; "debug.log"]) |].
  destruct (p =? "/p/src")%string;
    [exact (Permutation_rev ["index.js"; "lib"; "README.md"]) |].
  destruct (p =? "/p/src/lib")%string; [cbn; reflexivity |].
  destruct (p =? "/p/node_modules")%string; cbn; reflexivity.
Qed.

(** ** The reports of the generate4LLM scripts *)

Lemma read_file_content_with_content (first second : Os.open_outcome) :
  Generate4llmScript.read_file_content_with first second
  = Py.Returned (Report.content first second).
Proof.
  destruct first as [msg | data]; [reflexivity |].
  unfold Generate4llmScript.read_file_content_with, Codec.read_text,
    Codec.decode_utf8, Report.content.
  destruct (Codec.utf8_valid data); [reflexivity |].
  destruct second as [msg' | data']; reflexivity.
Qed.

Lemma file_section_appends {casing : Py.Casing}
      (fs : Os.filesystem) (root_dir file_path acc : string) :
  Generate4llmScript.file_section fs root_dir file_path acc
  = Py.Returned (acc ++ Report.section fs root_dir file_path).
Proof.
  unfold Generate4llmScript.file_section, Generate4llmScript.read_file_content.
  rewrite read_file_content_with_content. unfold Py.bind, Report.section,
    Report.fenced, Report.content_at.
  now rewrite !append_assoc.
Qed.

Lemma dev_file_section_appends (fs : Os.filesystem) (root_dir relative_path acc : string) :
  DevTools.file_section fs root_dir relative_path acc
  = Py.Returned (acc ++ Report.dev_section fs root_dir relative_path).
Proof.
  unfold DevTools.file_section, DevTools.read_file_content.
  change DevTools.read_file_content_with with Generate4llmScript.read_file_content_with.
  rewrite read_file_content_with_content. unfold Py.bind, Report.dev_section,
    Report.fenced, Report.content_at.
  now rewrite !append_assoc.
Qed.

Lemma fold_sections (step : string -> string -> Py.result string)
      (section : string -> string) (files : list string) (acc : string) :
  (forall file acc', step file acc' = Py.Returned (acc' ++ section file)) ->
  fold_left (fun r file => Py.bind r (step file)) files (Py.Returned acc)
  = Py.Returned (acc ++ Report.join_all (map section files)).
Proof.
  intro Hstep. revert acc. induction files as [| f files IH]; intro acc; simpl.
  - now rewrite append_nil_r.
  - rewrite Hstep, IH. now rewrite append_assoc.
Qed.

Lemma generate_markdown_form {casing : Py.Casing}
        (fuel : nat) (fs : Os.filesystem) (root_dir : string)
        (r : Py.result string) :
  Generate4llmScript.generate_markdown fuel fs root_dir = Some r ->
  exists tree files,
    Generate4llmScript.generate_tree fuel fs root_dir "" true 10 0 = Some tree /\
    Generate4llmScript.find_files_to_include fuel fs root_dir = Some files /\
    r = match Os.open_w fs "4LLM.md" with
        | None =>
            Py.Returned
              (Report.preamble root_dir tree
                 ++ Report.join_all (map (Report.section fs root_dir) files))
        | Some _ => Py.Raised (Py.SystemExit 1)
        end.
Proof.
  unfold Generate4llmScript.generate_markdown. intro H.
  destruct (Generate4llmScript.generate_tree fuel fs root_dir "" true 10 0)
    as [tree |]; [| discriminate].
  destruct (Generate4llmScript.find_files_to_include fuel fs root_dir)
    as [files |]; [| discriminate].
  exists tree, files. split; [reflexivity |]. split; [reflexivity |].
  injection H as <-.
  rewrite (fold_sections (Generate4llmScript.file_section fs root_dir)
             (Report.section fs root_dir))
    by (intros; apply file_section_appends).
  reflexivity.
Qed.



Lemma dev_generate_markdown_form {casing : Py.Casing}
      (fuel : nat) (fs : Os.filesystem) (root_dir dev_tools_name : string)
      (r : Py.result string) :
  DevTools.generate_markdown fuel fs root_dir dev_tools_name = Some r ->
  exists tree files,
    DevTools.generate_tree (dev_tools_name :: DevTools.exclude_dirs)
                           fuel fs root_dir "" 10 0 = Some tree /\
    DevTools.find_files_to_process (dev_tools_name :: DevTools.exclude_dirs)
                                   fuel fs root_dir = Some files /\
    r = match Os.open_w fs (OsPath.join root_dir "dev-tools/4LLM.md") with
        | None =>
            Py.Returned
              (Report.dev_preamble root_dir tree
                 ++ Report.join_all (map (Report.dev_section fs root_dir) files))
        | Some _ => Py.Raised (Py.SystemExit 1)
        end.
Proof.
  unfold DevTools.generate_markdown. intro H.
  destruct (DevTools.generate_tree _ fuel fs root_dir "" 10 0)
    as [tree |]; [| discriminate].
  destruct (DevTools.find_files_to_process _ fuel fs root_dir)
    as [files |]; [| discriminate].
  exists tree, files. split; [reflexivity |]. split; [reflexivity |].
  injection H as <-.
  rewrite (fold_sections (DevTools.file_section fs root_dir)
             (Report.dev_section fs root_dir))
    by (intros; apply dev_file_section_appends).
  reflexivity.
Qed.



(** X3.  Either script ends with exit status 1 whenever its report file
    cannot be opened for writing.  When the file can be opened, and the
    names the run meets are text (the text of the report is written as
    UTF-8, which a name that is not valid UTF-8 does not allow), it ends
    with exit status 0: nothing it meets while it lists directories and
    reads files decides the status. *)
Theorem main_exit_status {casing : Py.Casing} :
  (forall (fuel : nat) (fs : Os.filesystem) (cwd : string) (r : Py.result string),
      Generate4llmScript.main fuel fs cwd = Some r ->
      (forall msg, Os.open_w fs "4LLM.md" = Some msg -> Py.exit_status r = 1%Z) /\
      (Encoding.text_names fs ->
       Encoding.encodable cwd = true ->
       Os.open_w fs "4LLM.md" = None ->
       Py.exit_status r = 0%Z)) /\
  (forall (fuel : nat) (fs : Os.filesystem) (root_dir dev_tools_name : string)
          (r : Py.result string),
      DevTools.main fuel fs root_dir dev_tools_name = Some r ->
      (forall msg,
          Os.open_w fs (OsPath.join root_dir "dev-tools/4LLM.md") = Some msg ->
          Py.exit_status r = 1%Z) /\
      (Encoding.text_names fs ->
       Encoding.encodable root_dir = true ->
       Os.open_w fs (OsPath.join root_dir "dev-tools/4LLM.md") = None ->
       Py.exit_status r = 0%Z)).
Proof.
  split.
  - intros fuel fs cwd r. unfold Generate4llmScript.main.
    destruct (Generate4llmScript.generate_markdown fuel fs cwd) as [g |] eqn:G;
      [| discriminate].
    intro H. injection H as <-.
    destruct (generate_markdown_form fuel fs cwd g G) as (tree & files & _ & _ & ->).
    split.
    + intros msg E. now rewrite E.
    + intros _ _ E. now rewrite E.
  - intros fuel fs root_dir dev_tools_name r. unfold DevTools.main.
    destruct (DevTools.generate_markdown fuel fs root_dir dev_tools_name)
      as [g |] eqn:G; [| discriminate].
    intro H. injection H as <-.
    destruct (dev_generate_markdown_form fuel fs root_dir dev_tools_name g G)
      as (tree & files & _ & _ & ->).
    split.
    + intros msg E. now rewrite E.
    + intros _ _ E. now rewrite E.
Qed.

Lemma mkfs_text_names (dirs : list (string * list string)) (locked : list string)
      (files : list (string * list Byte.byte)) :
  forallb (forallb Encoding.encodable) (map snd dirs) = true ->
  Encoding.text_names (Sample.mkfs dirs locked files).
Proof.
  intros H path names L. apply mkfs_listing in L.
  rewrite forallb_forall in H. apply H in L.
  apply Forall_forall. now apply forallb_forall.
Qed.

Lemma project_text_names : Encoding.text_names Sample.project.
Proof. apply mkfs_text_names. reflexivity. Qed.

Lemma main_exit_status_witness :
  (exists r,
      Generate4llmScript.main 4 Sample.read_only "/p" = Some r /\
      Os.open_w Sample.read_only "4LLM.md"
      = Some "[Errno 30] Read-only file system: '4LLM.md'" /\
      Py.exit_status r = 1%Z) /\
  (exists r,
      Generate4llmScript.main 4 Sample.project "/p" = Some r /\
      Encoding.text_names Sample.project /\
      Encoding.encodable "/p" = true /\
      Os.open_w Sample.project "4LLM.md" = None /\
      Py.exit_status r = 0%Z).
Proof.
  split.
  - eexists. split; [reflexivity |]. split; [reflexivity |].
    refine (proj1 (proj1 main_exit_status 4 Sample.read_only "/p" _ _)
                  "[Errno 30] Read-only file system: '4LLM.md'" _);
      reflexivity.
  - eexists. split; [reflexivity |].
    split; [exact project_text_names |]. split; [reflexivity |].
    split; [reflexivity |].
    refine (proj2 (proj1 main_exit_status 4 Sample.project "/p" _ _) _ _ _);
      try reflexivity.
    exact project_text_names.
Defined.

(** ** The traversal of project-to-gpt.py *)

Lemma process_file_returns {casing : Py.Casing}
      (fs : Os.filesystem) (file_path root_path : string)
      (o : ProjectToGpt.output) :
  exists d, ProjectToGpt.process_file fs file_path o root_path
            = Py.Returned (Stamp.extend o d).
Proof.
  rewrite process_file_offset, process_file_form.
  eexists; reflexivity.
Qed.

Lemma process_directory_returns {casing : Py.Casing} (fs : Os.filesystem) (fuel : nat)
      (dir_path root_path : string) (o : ProjectToGpt.output)
      (r : Py.result ProjectToGpt.output) :
  ProjectToGpt.process_directory fuel fs dir_path o root_path = Some r ->
  exists d, r = Py.Returned (Stamp.extend o d).
Proof.
  revert dir_path o r. induction fuel as [| fuel IH]; intros dir_path o r;
    [discriminate |].
  cbn [ProjectToGpt.process_directory].
  destruct (Os.listdir fs dir_path) as [names | msg].
  2: { intro H. injection H as <-.
       exists (ProjectToGpt.print Stamp.nothing
                 ("Error processing directory " ++ dir_path ++ ": " ++ msg)).
       rewrite <- extend_print. now rewrite extend_nothing_r. }
  generalize (map (OsPath.join dir_path) (Py.sorted_str names)). intro entries.
  rewrite <- (extend_nothing_r o) at 1.
  generalize Stamp.nothing. revert r.
  induction entries as [| entry entries IHe]; intros r d0.
  - intro H. injection H as <-. now exists d0.
  - cbn [fold_left].
    destruct (negb (ProjectToGpt.should_process_path entry)); [apply IHe |].
    destruct (Os.isdir fs entry).
    + destruct (ProjectToGpt.process_directory fuel fs entry (Stamp.extend o d0) root_path)
        as [r' |] eqn:E.
      * destruct (IH _ _ _ E) as [d' ->]. rewrite extend_assoc. apply IHe.
      * intro H. exfalso. revert H. clear.
        induction entries; simpl; [discriminate | assumption].
    + destruct (Os.isfile fs entry); [| apply IHe].
      destruct (process_file_returns fs entry root_path (Stamp.extend o d0)) as [d' ->].
      rewrite extend_assoc. apply IHe.
Qed.





(** ** What the collectors reach *)

Lemma concat_options_In {A B : Type} (g : B -> option (list A)) (l : list B)
      (rest : list A) (d : B) :
  Os.concat_options (map g l) = Some rest ->
  In d l ->
  exists a, g d = Some a /\ incl a rest.
Proof.
  revert rest. induction l as [| x l IH]; intros rest H Hd; [contradiction |].
  cbn [map] in H. apply concat_options_cons in H as (a & b & Ha & Hb & ->).
  destruct Hd as [<- | Hd].
  - exists a. split; [exact Ha | now apply incl_appl].
  - destruct (IH b Hb Hd) as (a' & Ha' & Hincl).
    exists a'. split; [exact Ha' | now apply incl_appr].
Qed.

Lemma concat_options_all {A B : Type} (g : B -> option (list A)) (l : list B) :
  (forall d, In d l -> exists a, g d = Some a) ->
  exists rest, Os.concat_options (map g l) = Some rest.
Proof.
  induction l as [| x l IH]; intro H; [now exists [] |].
  destruct (H x (or_introl eq_refl)) as [a Ha].
  destruct IH as [rest Hrest]; [intros d Hd; apply H; now right |].
  exists (a ++ rest)%list. cbn [map Os.concat_options]. now rewrite Ha, Hrest.
Qed.

Lemma concat_options_mono {A B : Type} (g1 g2 : B -> option (list A)) (l : list B)
      (rest : list A) :
  (forall d a, In d l -> g1 d = Some a -> g2 d = Some a) ->
  Os.concat_options (map g1 l) = Some rest ->
  Os.concat_options (map g2 l) = Some rest.
Proof.
  revert rest. induction l as [| x l IH]; intros rest H Hc; [exact Hc |].
  cbn [map] in Hc. apply concat_options_cons in Hc as (a & b & Ha & Hb & ->).
  cbn [map Os.concat_options].
  rewrite (H x a (or_introl eq_refl) Ha).
  rewrite (IH b); [reflexivity | | exact Hb].
  intros d a' Hd. apply H. now right.
Qed.

Section WalkReach.
Variable excluded : string -> bool -> bool.
Variable included : string -> bool.
Variable fs : Os.filesystem.
Variable root_dir : string.

Let body := Collector.body excluded included root_dir.

(** One step of the walk, spelled out. *)
Lemma walk_step (fuel : nat) (top : string) (names : list string) :
  Os.listdir fs top = Os.Listed names ->
  Os.walk (S fuel) fs body top
  = match Os.concat_options
            (map (fun d => if Os.islink fs (OsPath.join top d) then Some []
                           else Os.walk fuel fs body (OsPath.join top d))
                 (filter (fun d => negb (excluded d true))
                         (filter (fun n => Os.isdir fs (OsPath.join top n)) names)))
    with
    | None => None
    | Some rest =>
        Some (flat_map (Collector.visit excluded included root_dir top)
                       (filter (fun n => negb (Os.isdir fs (OsPath.join top n))) names)
                ++ rest)%list
    end.
Proof. intro L. cbn [Os.walk]. rewrite L. reflexivity. Qed.

Lemma walk_denied (fuel : nat) (top msg : string) :
  Os.listdir fs top = Os.Denied msg -> Os.walk (S fuel) fs body top = Some [].
Proof. intro L. cbn [Os.walk]. now rewrite L. Qed.

Lemma walk_step_mono (fuel : nat) (top : string) (found : list string) :
  Os.walk fuel fs body top = Some found ->
  Os.walk (S fuel) fs body top = Some found.
Proof.
  revert top found. induction fuel as [| fuel IH]; intros top found H;
    [discriminate |].
  destruct (Os.listdir fs top) as [names | msg] eqn:L.
  - rewrite (walk_step fuel _ _ L) in H. rewrite (walk_step (S fuel) _ _ L).
    destruct (Os.concat_options _) as [rest |] eqn:C in H; [| discriminate].
    erewrite concat_options_mono; [exact H | | exact C].
    intros d a _. cbv beta.
    destruct (Os.islink fs (OsPath.join top d)); [easy | apply IH].
  - rewrite (walk_denied fuel _ _ L) in H. rewrite (walk_denied (S fuel) _ _ L).
    exact H.
Qed.

Lemma walk_mono (fuel fuel' : nat) (top : string) (found : list string) :
  (fuel <= fuel')%nat ->
  Os.walk fuel fs body top = Some found ->
  Os.walk fuel' fs body top = Some found.
Proof.
  induction 1 as [| fuel' _ IH]; [easy |].
  intro H. apply walk_step_mono. now apply IH.
Qed.

Lemma walk_total (h fuel : nat) (top : string) :
  Reach.nests_within excluded fs h top = true ->
  (h < fuel)%nat ->
  exists found, Os.walk fuel fs body top = Some found.
Proof.
  revert h top. induction fuel as [| fuel IH]; intros h top Hn Hlt; [lia |].
  destruct (Os.listdir fs top) as [names | msg] eqn:L.
  2: { rewrite (walk_denied _ _ _ L). now exists []. }
  rewrite (walk_step _ _ _ L).
  destruct (concat_options_all
              (fun d => if Os.islink fs (OsPath.join top d) then Some []
                        else Os.walk fuel fs body (OsPath.join top d))
              (filter (fun d => negb (excluded d true))
                      (filter (fun n => Os.isdir fs (OsPath.join top n)) names)))
    as [rest ->]; [| eexists; reflexivity].
  intros d Hd. apply filter_In in Hd as [Hd Hk]. apply filter_In in Hd as [Hd Hdir].
  destruct (Os.islink fs (OsPath.join top d)) eqn:Hl; [now exists [] |].
  destruct h as [| h]; cbn [Reach.nests_within] in Hn; rewrite L in Hn;
    rewrite forallb_forall in Hn; specialize (Hn d Hd);
    unfold Reach.descends in Hn; rewrite Hdir, Hl, Hk in Hn; simpl in Hn.
  - discriminate.
  - apply (IH h); [exact Hn | lia].
Qed.

End WalkReach.

Section WalkComplete.
Variable excluded : string -> bool -> bool.
Variable included : string -> bool.
Variable fs : Os.filesystem.
Variable root : list string.
Hypothesis root_good : Forall (fun n => Collector.good_name n = true) root.
Hypothesis listings_good : Collector.good_listings fs.

Let body := Collector.body excluded included (Collector.abs root).

Lemma entered_good (below : list string) :
  Reach.entered excluded fs root below ->
  Forall (fun n => Collector.good_name n = true) below.
Proof.
  induction 1 as [| below d names _ IH L Hd _]; [constructor |].
  apply Forall_app. split; [exact IH |]. constructor; [| constructor].
  pose proof (listings_good _ _ L) as Hn. rewrite Forall_forall in Hn. now apply Hn.
Qed.

Lemma walk_entered (fuel : nat) (found below : list string) :
  Os.walk fuel fs body (Collector.abs root) = Some found ->
  Reach.entered excluded fs root below ->
  exists fuel' found',
    Os.walk fuel' fs body (Collector.abs (root ++ below)) = Some found' /\
    incl found' found.
Proof.
  intros W E. induction E as [| below d names E IH L Hd Hdesc].
  - exists fuel, found. rewrite app_nil_r. split; [exact W | apply incl_refl].
  - destruct IH as (fuel1 & found1 & W1 & Hincl).
    destruct fuel1 as [| fuel1]; [discriminate |].
    unfold body in W1. rewrite (walk_step _ _ _ _ fuel1 _ _ L) in W1.
    destruct (Os.concat_options _) as [rest |] eqn:C in W1; [| discriminate].
    injection W1 as <-.
    unfold Reach.descends in Hdesc.
    apply andb_true_iff in Hdesc as [Hdesc Hkeep].
    apply andb_true_iff in Hdesc as [Hdir Hlink].
    apply negb_true_iff in Hlink.
    destruct (concat_options_In _ _ _ d C) as (a & Ha & Ha_incl).
    { apply filter_In. split; [| exact Hkeep]. apply filter_In. now split. }
    cbv beta in Ha. rewrite Hlink in Ha.
    assert (Hgood_d : Collector.good_name d = true).
    { pose proof (listings_good _ _ L) as Hn. rewrite Forall_forall in Hn.
      now apply Hn. }
    rewrite join_abs in Ha;
      [| apply Forall_app; split; [exact root_good | now apply entered_good]
       | exact Hgood_d].
    rewrite <- app_assoc in Ha.
    exists fuel1, a. split; [exact Ha |].
    intros p Hp. apply Hincl. apply in_or_app. right. now apply Ha_incl.
Qed.

(** A file that passes both tests, in a directory the walk enters, is
    among the paths collected. *)
Lemma collect_complete (fuel : nat) (result below names : list string) (f : string) :
  Collector.collect excluded included (Collector.abs root) fuel fs = Some result ->
  Reach.entered excluded fs root below ->
  Os.listdir fs (Collector.abs (root ++ below)) = Os.Listed names ->
  In f names ->
  Os.isdir fs (OsPath.join (Collector.abs (root ++ below)) f) = false ->
  excluded f false = false ->
  included (OsPath.join (Collector.abs (root ++ below)) f) = true ->
  In (String.concat "/" (below ++ [f])) result.
Proof.
  unfold Collector.collect.
  destruct (Os.walk fuel fs _ (Collector.abs root)) as [found |] eqn:W;
    [| discriminate].
  intros H E L Hf Hdir Hex Hin. injection H as <-.
  apply sorted_str_In.
  destruct (walk_entered fuel found below W E) as (fuel1 & found1 & W1 & Hincl).
  apply Hincl.
  destruct fuel1 as [| fuel1]; [discriminate |].
  unfold body in W1. rewrite (walk_step _ _ _ _ fuel1 _ _ L) in W1.
  destruct (Os.concat_options _) as [rest |]; [| discriminate].
  injection W1 as <-. apply in_or_app. left.
  apply in_flat_map. exists f. split.
  - apply filter_In. split; [exact Hf | now rewrite Hdir].
  - unfold Collector.visit. rewrite Hex, Hin.
    assert (Hgood_below : Forall (fun n => Collector.good_name n = true) below)
      by now apply entered_good.
    assert (Hgood_f : Collector.good_name f = true).
    { pose proof (listings_good _ _ L) as Hn. rewrite Forall_forall in Hn.
      now apply Hn. }
    rewrite join_abs; [| apply Forall_app; now split | exact Hgood_f].
    rewrite <- app_assoc. rewrite relpath_abs; [now left | exact root_good | |].
    + apply Forall_app. split; [exact Hgood_below | now repeat constructor].
    + now destruct below.
Qed.

End WalkComplete.

(** X6.  On a file system with good names, a collector misses no file: one
    that lies in the root or in a directory reached from it through
    directories that are not excluded and are no links, and whose name
    passes the exclusion test and then the inclusion test, is returned,
    under its path relative to the root. *)
Theorem collectors_miss_no_file
        (fuel : nat) (fs : Os.filesystem) (root dirs : list string)
        (result below names : list string) (f : string) :
  Forall (fun n => Collector.good_name n = true) root ->
  Collector.good_listings fs ->
  Os.listdir fs (Collector.abs (root ++ below)) = Os.Listed names ->
  In f names ->
  Os.isdir fs (OsPath.join (Collector.abs (root ++ below)) f) = false ->
  (Generate4llmScript.find_files_to_include fuel fs (Collector.abs root) = Some result ->
   Reach.entered Generate4llmScript.should_exclude_from_tree fs root below ->
   Generate4llmScript.should_exclude_from_tree f false = false ->
   Generate4llmScript.should_include_file
     (OsPath.join (Collector.abs (root ++ below)) f) = true ->
   In (String.concat "/" (below ++ [f])) result) /\
  (DevTools.find_files_to_process dirs fuel fs (Collector.abs root) = Some result ->
   Reach.entered (DevTools.should_exclude dirs) fs root below ->
   DevTools.should_exclude dirs f false = false ->
   DevTools.should_include_file
     (OsPath.join (Collector.abs (root ++ below)) f) = true ->
   In (String.concat "/" (below ++ [f])) result).
Proof.
  intros Hroot Hgood L Hf Hdir. split; intros H E Hex Hin.
  - exact (collect_complete Generate4llmScript.should_exclude_from_tree
             Generate4llmScript.should_include_file fs root Hroot Hgood
             fuel result below names f H E L Hf Hdir Hex Hin).
  - exact (collect_complete (DevTools.should_exclude dirs)
             DevTools.should_include_file fs root Hroot Hgood
             fuel result below names f H E L Hf Hdir Hex Hin).
Qed.

Lemma collect_returns (excluded : string -> bool -> bool) (included : string -> bool)
      (fs : Os.filesystem) (root_dir : string) (h : nat) :
  Reach.nests_within excluded fs h root_dir = true ->
  exists files,
    forall fuel, (h < fuel)%nat ->
                 Collector.collect excluded included root_dir fuel fs = Some files.
Proof.
  intro Hn.
  destruct (walk_total excluded included fs root_dir h (S h) root_dir Hn)
    as [found Hfound]; [lia |].
  exists (Py.sorted_str found). intros fuel Hfuel. unfold Collector.collect.
  rewrite (walk_mono excluded included fs root_dir (S h) fuel root_dir found);
    [reflexivity | lia | exact Hfound].
Qed.

(** X7.  Report generation terminates: when the directories the walk enters
    nest at most [h] deep below the root, either generate4LLM script
    returns, with one and the same result, for every bound on the nesting
    of calls above [h] and above the eleven levels the tree may take. *)
Theorem generate_markdown_returns {casing : Py.Casing}
        (fs : Os.filesystem) (root_dir dev_tools_name : string) (h : nat) :
  (Reach.nests_within Generate4llmScript.should_exclude_from_tree fs h root_dir = true ->
   exists r,
     forall fuel, (Nat.max h 11 < fuel)%nat ->
                  Generate4llmScript.generate_markdown fuel fs root_dir = Some r) /\
  (Reach.nests_within
     (DevTools.should_exclude (dev_tools_name :: DevTools.exclude_dirs)) fs h root_dir
   = true ->
   exists r,
     forall fuel, (Nat.max h 11 < fuel)%nat ->
                  DevTools.generate_markdown fuel fs root_dir dev_tools_name = Some r).
Proof.
  split; intro Hn.
  - destruct (render_returns Generate4llmScript.should_exclude_from_tree fs
                             root_dir "" 10 0) as (tree & Htree & _).
    destruct (collect_returns Generate4llmScript.should_exclude_from_tree
                Generate4llmScript.should_include_file fs root_dir h Hn)
      as (files & Hfiles).
    eexists. intros fuel Hfuel. unfold Generate4llmScript.generate_markdown.
    rewrite generate_tree_render, Htree by (simpl; lia).
    rewrite find_files_to_include_collect, Hfiles by lia.
    reflexivity.
  - destruct (render_returns
                (DevTools.should_exclude (dev_tools_name :: DevTools.exclude_dirs)) fs
                root_dir "" 10 0) as (tree & Htree & _).
    destruct (collect_returns
                (DevTools.should_exclude (dev_tools_name :: DevTools.exclude_dirs))
                DevTools.should_include_file fs root_dir h Hn)
      as (files & Hfiles).
    eexists. intros fuel Hfuel. unfold DevTools.generate_markdown.
    rewrite dev_generate_tree_render, Htree by (simpl; lia).
    rewrite find_files_to_process_collect, Hfiles by lia.
    reflexivity.
Qed.

Lemma generate_markdown_returns_witness :
  Reach.nests_within Generate4llmScript.should_exclude_from_tree Sample.project 2 "/p"
  = true /\
  Reach.nests_within Generate4llmScript.should_exclude_from_tree Sample.link_cycle 0 "/e"
  = true /\
  (exists r,
      forall fuel, (Nat.max 2 11 < fuel)%nat ->
                   Generate4llmScript.generate_markdown fuel Sample.project "/p" = Some r) /\
  (exists r,
      forall fuel, (Nat.max 0 11 < fuel)%nat ->
                   Generate4llmScript.generate_markdown fuel Sample.link_cycle "/e"
                   = Some r).
Proof.
  split; [reflexivity |]. split; [reflexivity |]. split.
  - apply (proj1 (generate_markdown_returns Sample.project "/p" "dev-tools" 2)).
    reflexivity.
  - apply (proj1 (generate_markdown_returns Sample.link_cycle "/e" "dev-tools" 0)).
    reflexivity.
Defined.

Lemma collectors_miss_no_file_witness :
  Forall (fun n => Collector.good_name n = true) ["p"] /\
  Collector.good_listings Sample.project /\
  Reach.entered Generate4llmScript.should_exclude_from_tree Sample.project
                ["p"] ["src"; "lib"] /\
  In "src/lib/util.ts"
     ["Zed.js"; "app.py"; "src/README.md"; "src/index.js"; "src/lib/util.ts"].
Proof.
  assert (E : Reach.entered Generate4llmScript.should_exclude_from_tree Sample.project
                            ["p"] ["src"; "lib"]).
  { apply (Reach.entered_sub _ _ ["p"] ["src"] "lib" ["index.js"; "lib"; "README.md"]).
    - apply (Reach.entered_sub _ _ ["p"] [] "src"
               ["src"; "package-lock.json"; "app.py"; "node_modules"; "Zed.js";
                ".env.example"; "secret"; "debug.log"]).
      + constructor.
      + reflexivity.
      + now left.
      + reflexivity.
    - reflexivity.
    - simpl. auto.
    - reflexivity. }
  split; [repeat constructor |].
  split; [exact project_good_listings |].
  split; [exact E |].
  refine (proj1 (collectors_miss_no_file
                   4 Sample.project ["p"] DevTools.exclude_dirs
                   ["Zed.js"; "app.py"; "src/README.md"; "src/index.js"; "src/lib/util.ts"]
                   ["src"; "lib"] ["util.ts"] "util.ts"
                   _ project_good_listings _ _ _) _ E _ _);
    try reflexivity; [repeat constructor | now left].
Defined.

(** ** The indentation of the tree *)

Lemma join_all_app (l m : list string) :
  Report.join_all (l ++ m) = Report.join_all l ++ Report.join_all m.
Proof.
  induction l as [| x l IH]; simpl; [reflexivity |].
  now rewrite IH, append_assoc.
Qed.

Lemma indented_app (prefix : string) (l m : list string) :
  Lines.indented prefix (l ++ m) = Lines.indented prefix l ++ Lines.indented prefix m.
Proof. unfold Lines.indented. now rewrite map_app, join_all_app. Qed.

Lemma indented_deeper (prefix more : string) (chunks : list string) :
  Lines.indented (prefix ++ more) chunks
  = Lines.indented prefix (map (fun c => more ++ c) chunks).
Proof.
  unfold Lines.indented. rewrite map_map. f_equal. apply map_ext.
  intro c. now rewrite !append_assoc.
Qed.

Lemma has_nl_app (a b : string) :
  Lines.has_nl (a ++ b) = Lines.has_nl a || Lines.has_nl b.
Proof.
  induction a as [| c a IH]; [reflexivity |].
  cbn [append Lines.has_nl]. now rewrite IH, orb_assoc.
Qed.

(** A text that starts with a line and its line feed. *)
Lemma lines_of_line (l rest : string) :
  Lines.has_nl l = false ->
  Lines.lines_of (l ++ Py.nl ++ rest) = l :: Lines.lines_of rest.
Proof.
  induction l as [| c l IH]; intro H.
  - reflexivity.
  - cbn [Lines.has_nl] in H. apply orb_false_iff in H as [Hc Hl].
    cbn [append Lines.lines_of]. rewrite Hc, (IH Hl). reflexivity.
Qed.

Lemma lines_of_indented (prefix : string) (chunks : list string) :
  Lines.has_nl prefix = false ->
  Forall (fun c => Lines.has_nl c = false) chunks ->
  Lines.lines_of (Lines.indented prefix chunks) = map (fun c => prefix ++ c) chunks.
Proof.
  intros Hp Hc. unfold Lines.indented.
  induction Hc as [| c chunks Hc _ IH]; [reflexivity |].
  cbn [map Report.join_all]. rewrite <- IH.
  rewrite <- (append_assoc prefix c Py.nl), append_assoc.
  apply lines_of_line. rewrite has_nl_app, Hp, Hc. reflexivity.
Qed.

Lemma indented_lines (prefix : string) (chunks : list string) :
  Lines.indented prefix chunks
  = Report.join_all (map (fun l => l ++ Py.nl) (map (fun c => prefix ++ c) chunks)).
Proof.
  unfold Lines.indented. rewrite map_map. f_equal. apply map_ext.
  intro c. now rewrite append_assoc.
Qed.

Lemma startswith_app (prefix c : string) : Py.startswith (prefix ++ c) prefix = true.
Proof.
  unfold Py.startswith. induction prefix as [| a prefix IH].
  - now destruct c.
  - change (String a prefix ++ c) with (String a (prefix ++ c)).
    change (String.prefix (String a prefix) (String a (prefix ++ c)))
      with (if ascii_dec a a then String.prefix prefix (prefix ++ c) else false).
    destruct (ascii_dec a a); [exact IH | contradiction].
Qed.

Lemma lines_plain (rec : string -> string -> option string)
      (prefix : string) (n i : Z) (items : list Tree.item) (out : string) :
  (forall path next_prefix s,
      rec path next_prefix = Some s ->
      exists chunks, s = Lines.indented next_prefix chunks /\
                     Forall (fun c => Lines.has_nl c = false) chunks) ->
  Forall (fun x => Lines.has_nl (Tree.item_name x) = false) items ->
  Tree.lines rec prefix n i items = Some out ->
  exists chunks,
    out = Lines.indented prefix chunks /\
    Forall (fun c => Lines.has_nl c = false) chunks /\
    (List.length items <= List.length chunks)%nat.
Proof.
  intros Hrec Hnames. revert i out.
  induction Hnames as [| x rest Hx _ IH]; intros i out; simpl.
  - intro H. injection H as <-. now exists [].
  - destruct (if Tree.item_is_dir x then _ else _) as [sub |] eqn:Hsub;
      [| discriminate].
    destruct (Tree.lines rec prefix n (i + 1) rest) as [below |] eqn:Hb;
      [| discriminate].
    intro H. injection H as <-.
    destruct (IH _ _ Hb) as (cb & -> & Hpb & Hlen).
    assert (Hs : exists cs, sub = Lines.indented prefix cs /\
                            Forall (fun c => Lines.has_nl c = false) cs).
    { destruct (Tree.item_is_dir x).
      - destruct (Hrec _ _ _ Hsub) as (cs & -> & Hcs).
        rewrite indented_deeper. eexists. split; [reflexivity |].
        apply Forall_map. eapply Forall_impl; [| exact Hcs].
        intros c Hc. cbv beta. rewrite has_nl_app, Hc.
        now destruct (i =? n - 1)%Z.
      - injection Hsub as <-. now exists []. }
    destruct Hs as (cs & -> & Hpcs).
    exists ((Tree.glyph (i =? n - 1)%Z ++ Tree.item_name x)%string :: (cs ++ cb)%list).
    split; [| split].
    + rewrite <- indented_app. unfold Tree.line, Lines.indented. simpl.
      now rewrite !append_assoc.
    + constructor.
      * rewrite has_nl_app, Hx. now destruct (i =? n - 1)%Z.
      * apply Forall_app. now split.
    + simpl. rewrite length_app. lia.
Qed.

Lemma level_plain {casing : Py.Casing} (excluded : string -> bool -> bool)
      (fs : Os.filesystem) (directory : string) (names : list string) :
  Forall (fun n => Lines.has_nl n = false) names ->
  Forall (fun x => Lines.has_nl (Tree.item_name x) = false)
         (Tree.level excluded fs directory names).
Proof.
  intro H. apply Forall_forall. intros x Hx.
  unfold Tree.level in Hx.
  apply (Permutation_in _ (Permutation_sym
           (sorted_perm Py.key_leb Generate4llmScript.sort_key _))) in Hx.
  unfold Tree.kept in Hx. apply in_map_iff in Hx as (n & <- & Hn).
  apply filter_In in Hn as [Hn _].
  rewrite Forall_forall in H. exact (H n Hn).
Qed.

Lemma render_plain {casing : Py.Casing} (excluded : string -> bool -> bool)
      (fs : Os.filesystem) (fuel : nat) (directory prefix : string)
      (max_depth current_depth : Z) (out : string) :
  Lines.plain_names fs ->
  Tree.render excluded fs fuel directory prefix max_depth current_depth = Some out ->
  exists chunks,
    out = Lines.indented prefix chunks /\
    Forall (fun c => Lines.has_nl c = false) chunks /\
    forall names,
      (current_depth <= max_depth)%Z ->
      Os.listdir fs directory = Os.Listed names ->
      (List.length (Tree.kept excluded fs directory names) <= List.length chunks)%nat.
Proof.
  intro Hplain. revert directory prefix current_depth out.
  induction fuel as [| fuel IH]; intros directory prefix current_depth out;
    [discriminate |].
  cbn [Tree.render].
  destruct (current_depth >? max_depth)%Z eqn:Hd.
  { intro H. injection H as <-. exists []. split; [reflexivity |].
    split; [constructor |].
    intros names Hle. rewrite Z.gtb_ltb in Hd. apply Z.ltb_lt in Hd. lia. }
  destruct (Os.listdir fs directory) as [names | msg] eqn:L.
  - intro H. apply lines_plain in H as (chunks & -> & Hc & Hlen).
    + exists chunks. split; [reflexivity |]. split; [exact Hc |].
      intros names' _ E. injection E as <-.
      unfold Tree.level in Hlen.
      rewrite <- (Permutation_length
                    (sorted_perm Py.key_leb Generate4llmScript.sort_key _)) in Hlen.
      exact Hlen.
    + intros path next_prefix s Hs.
      destruct (IH _ _ _ _ Hs) as (cs & -> & Hcs & _). now exists cs.
    + apply level_plain. exact (Hplain _ _ L).
  - intro H. injection H as <-. exists ["[Permission Denied]"]. split; [| split].
    + unfold Lines.indented. simpl. now rewrite append_nil_r.
    + now repeat constructor.
    + intros names _ E. discriminate.
Qed.

(** The lines of a rendering, under names without line feeds. *)
Lemma render_lines {casing : Py.Casing} (excluded : string -> bool -> bool)
      (fs : Os.filesystem) (fuel : nat) (directory prefix : string)
      (max_depth current_depth : Z) (out : string) :
  Lines.plain_names fs ->
  Lines.has_nl prefix = false ->
  Tree.render excluded fs fuel directory prefix max_depth current_depth = Some out ->
  out = Report.join_all (map (fun l => l ++ Py.nl) (Lines.lines_of out)) /\
  Forall (fun l => Py.startswith l prefix = true) (Lines.lines_of out) /\
  forall names,
    (current_depth <= max_depth)%Z ->
    Os.listdir fs directory = Os.Listed names ->
    (List.length (Tree.kept excluded fs directory names)
     <= List.length (Lines.lines_of out))%nat.
Proof.
  intros Hplain Hp H.
  destruct (render_plain excluded fs fuel directory prefix max_depth current_depth
              out Hplain H) as (chunks & -> & Hc & Hlen).
  rewrite (lines_of_indented prefix chunks Hp Hc).
  split; [apply indented_lines |]. split.
  - apply Forall_map. apply Forall_forall. intros c _. apply startswith_app.
  - intros names Hd L. rewrite length_map. now apply Hlen.
Qed.

(** X8.  On a file system whose names hold no line feed, every line of
    what [generate_tree] returns begins with the prefix the call was
    given, and ends with a line feed: the lines of a subdirectory carry
    the whole indentation of the levels above them.  A directory that
    can be listed, at a depth within [max_depth], gives at least one line
    for each of its entries that are kept.  This holds for the renderer
    of either script. *)
Theorem generate_tree_lines_carry_prefix {casing : Py.Casing}
        (fuel : nat) (fs : Os.filesystem) (dirs : list string)
        (directory prefix : string) (is_last : bool)
        (max_depth current_depth : Z) :
  Lines.plain_names fs ->
  Lines.has_nl prefix = false ->
  (forall out : string,
      Generate4llmScript.generate_tree fuel fs directory prefix is_last
                                       max_depth current_depth = Some out ->
      out = Report.join_all (map (fun l => l ++ Py.nl) (Lines.lines_of out)) /\
      Forall (fun l => Py.startswith l prefix = true) (Lines.lines_of out) /\
      forall names,
        (current_depth <= max_depth)%Z ->
        Os.listdir fs directory = Os.Listed names ->
        (List.length (Generate4llmScript.listed_items fs directory names)
         <= List.length (Lines.lines_of out))%nat) /\
  (forall out : string,
      DevTools.generate_tree dirs fuel fs directory prefix max_depth current_depth
      = Some out ->
      out = Report.join_all (map (fun l => l ++ Py.nl) (Lines.lines_of out)) /\
      Forall (fun l => Py.startswith l prefix = true) (Lines.lines_of out) /\
      forall names,
        (current_depth <= max_depth)%Z ->
        Os.listdir fs directory = Os.Listed names ->
        (List.length
           (filter (fun item =>
                      negb (DevTools.should_exclude
                              dirs item (Os.isdir fs (OsPath.join directory item))))
                   names)
         <= List.length (Lines.lines_of out))%nat).
Proof.
  intros Hplain Hp. split; intros out H.
  - rewrite generate_tree_render in H.
    destruct (render_lines _ fs fuel directory prefix max_depth current_depth out
                Hplain Hp H) as (E & Hall & Hlen).
    split; [exact E |]. split; [exact Hall |].
    intros names Hd L. rewrite listed_items_kept. now apply Hlen.
  - rewrite dev_generate_tree_render in H.
    destruct (render_lines _ fs fuel directory prefix max_depth current_depth out
                Hplain Hp H) as (E & Hall & Hlen).
    split; [exact E |]. split; [exact Hall |].
    intros names Hd L. specialize (Hlen names Hd L).
    unfold Tree.kept in Hlen. now rewrite length_map in Hlen.
Qed.

Lemma mkfs_plain_names (dirs : list (string * list string)) (locked : list string)
      (files : list (string * list Byte.byte)) :
  forallb (forallb (fun n => negb (Lines.has_nl n))) (map snd dirs) = true ->
  Lines.plain_names (Sample.mkfs dirs locked files).
Proof.
  intros H path names L. apply mkfs_listing in L.
  rewrite forallb_forall in H. apply H in L.
  apply Forall_forall. intros n Hn.
  rewrite forallb_forall in L. apply L in Hn. now apply negb_true_iff in Hn.
Qed.

Lemma project_plain_names : Lines.plain_names Sample.project.
Proof. apply mkfs_plain_names. reflexivity. Qed.

Lemma generate_tree_lines_witness :
  Lines.plain_names Sample.project /\
  Lines.has_nl "│   " = false /\
  Generate4llmScript.generate_tree 3 Sample.project "/p/src" "│   " false 10 1
  = Some ("│   ├── lib" ++ Py.nl ++ "│   │   └── util.ts" ++ Py.nl
            ++ "│   ├── index.js" ++ Py.nl ++ "│   └── README.md" ++ Py.nl) /\
  Lines.lines_of ("│   ├── lib" ++ Py.nl ++ "│   │   └── util.ts" ++ Py.nl
                    ++ "│   ├── index.js" ++ Py.nl ++ "│   └── README.md" ++ Py.nl)
  = ["│   ├── lib"; "│   │   └── util.ts"; "│   ├── index.js"; "│   └── README.md"] /\
  Forall (fun l => Py.startswith l "│   " = true)
         (Lines.lines_of
            ("│   ├── lib" ++ Py.nl ++ "│   │   └── util.ts" ++ Py.nl
               ++ "│   ├── index.js" ++ Py.nl ++ "│   └── README.md" ++ Py.nl)).
Proof.
  split; [exact project_plain_names |].
  split; [reflexivity |].
  split; [reflexivity |].
  split; [reflexivity |].
  apply (proj1 (generate_tree_lines_carry_prefix
                  3 Sample.project DevTools.exclude_dirs "/p/src" "│   " false 10 1
                  project_plain_names eq_refl)).
  reflexivity.
Defined.

(** ** Text as it is read *)

Lemma ascii_of_byte_cr (b : Byte.byte) :
  ascii_of_byte b = Py.cr -> b = Byte.x0d.
Proof.
  intro H. rewrite <- (byte_of_ascii_of_byte b), H. reflexivity.
Qed.

Lemma universal_newlines_bytes (data : list Byte.byte) :
  ~ In Byte.x0d data ->
  Codec.universal_newlines (string_of_list_byte data) = string_of_list_byte data.
Proof.
  induction data as [| b data IH]; intro H; [reflexivity |].
  change (string_of_list_byte (b :: data))
    with (String (ascii_of_byte b) (string_of_list_byte data)).
  cbn [Codec.universal_newlines].
  destruct (Ascii.eqb_spec (ascii_of_byte b) Py.cr) as [E | _].
  - exfalso. apply H. left. now apply ascii_of_byte_cr.
  - rewrite IH; [reflexivity |]. intro Hin. apply H. now right.
Qed.

Lemma universal_newlines_no_cr (s : string) :
  Lines.has_cr (Codec.universal_newlines s) = false.
Proof.
  assert (H : forall n s, (String.length s <= n)%nat ->
                          Lines.has_cr (Codec.universal_newlines s) = false).
  { induction n as [| n IH]; intros [| c r] Hlen; try reflexivity;
      simpl in Hlen; [lia |].
    cbn [Codec.universal_newlines].
    destruct (Ascii.eqb_spec c Py.cr) as [E | NE].
    - cbn [append Py.nl Lines.has_cr]. 
      destruct r as [| c' r']; [reflexivity |].
      destruct (c' =? ascii_of_nat 10)%char; apply IH; simpl in *; lia.
    - cbn [Lines.has_cr]. apply Ascii.eqb_neq in NE. rewrite NE. apply IH. lia. }
  exact (H (String.length s) s (le_n _)).
Qed.

(** X9.  The text that [read_file_content] returns for a file that can be
    opened holds no carriage return, and when the bytes of the file are
    valid UTF-8 and hold none, the text is those bytes, unchanged. *)
Theorem read_file_content_keeps_the_text
        (fs : Os.filesystem) (file_path : string) (data : list Byte.byte) :
  Os.open_r fs file_path = Os.Opened data ->
  exists text,
    Generate4llmScript.read_file_content fs file_path = Py.Returned text /\
    DevTools.read_file_content fs file_path = Py.Returned text /\
    Lines.has_cr text = false /\
    (Codec.utf8_valid data = true -> ~ In Byte.x0d data ->
     text = string_of_list_byte data /\ list_byte_of_string text = data).
Proof.
  intro Hopen. exists (Report.content (Os.Opened data) (Os.Opened data)).
  unfold Generate4llmScript.read_file_content, DevTools.read_file_content.
  change DevTools.read_file_content_with with Generate4llmScript.read_file_content_with.
  rewrite Hopen, read_file_content_with_content.
  split; [reflexivity |]. split; [reflexivity |].
  unfold Report.content. split.
  - destruct (Codec.utf8_valid data); apply universal_newlines_no_cr.
  - intros Hvalid Hcr. rewrite Hvalid, universal_newlines_bytes by exact Hcr.
    split; [reflexivity | apply list_byte_of_string_of_list_byte].
Qed.

Lemma read_file_content_keeps_the_text_witness :
  Os.open_r Sample.project "/p/app.py" = Os.Opened (Sample.bytes "print(1)") /\
  exists text,
    Generate4llmScript.read_file_content Sample.project "/p/app.py" = Py.Returned text /\
    DevTools.read_file_content Sample.project "/p/app.py" = Py.Returned text /\
    Lines.has_cr text = false /\
    (Codec.utf8_valid (Sample.bytes "print(1)") = true ->
     ~ In Byte.x0d (Sample.bytes "print(1)") ->
     text = string_of_list_byte (Sample.bytes "print(1)") /\
     list_byte_of_string text = Sample.bytes "print(1)").
Proof.
  split; [reflexivity |].
  apply (read_file_content_keeps_the_text Sample.project "/p/app.py"). reflexivity.
Defined.

(** ** Inclusion goes by the name *)

Lemma endswith_sep_split (s : string) :
  Py.endswith s "/" = true -> exists r, s = r ++ "/".
Proof.
  induction s as [| c s IH]; [discriminate |].
  change (Py.endswith (String c s) "/")
    with ((String c s =? "/")%string || Py.endswith s "/").
  intro H. apply orb_true_iff in H as [H | H].
  - apply String.eqb_eq in H. exists "". exact H.
  - destruct (IH H) as [r ->]. now exists (String c r).
Qed.

Lemma startswith_sep_sepfree (f : string) :
  OsPath.has_sep f = false -> Py.startswith f "/" = false.
Proof.
  destruct f as [| c f]; [reflexivity |].
  intro H. simpl in H. apply orb_false_iff in H as [Hc _].
  unfold Py.startswith.
  change (String.prefix "/" (String c f))
    with (if ascii_dec "/"%char c then String.prefix "" f else false).
  destruct (ascii_dec "/"%char c) as [E | _]; [| reflexivity].
  subst c. discriminate.
Qed.

Lemma basename_join (root f : string) :
  OsPath.has_sep f = false -> OsPath.basename (OsPath.join root f) = f.
Proof.
  intro Hf. unfold OsPath.join. rewrite (startswith_sep_sepfree f Hf).
  destruct (String.eqb_spec root "") as [-> | _]; simpl orb.
  - now apply basename_sepfree.
  - destruct (Py.endswith root "/") eqn:E.
    + destruct (endswith_sep_split root E) as [r ->].
      rewrite append_assoc. now apply basename_app_sep.
    + now apply basename_app_sep.
Qed.

Lemma should_include_file_join (root f : string) :
  OsPath.has_sep f = false ->
  Generate4llmScript.should_include_file (OsPath.join root f)
  = Generate4llmScript.should_include_file f /\
  DevTools.should_include_file (OsPath.join root f)
  = DevTools.should_include_file f.
Proof.
  intro Hf.
  unfold Generate4llmScript.should_include_file, DevTools.should_include_file.
  now rewrite (basename_join root f Hf), (basename_sepfree f Hf).
Qed.

(** X10.  Whether a file is included is decided by its name alone, wherever
    the file lies. *)
Theorem inclusion_goes_by_the_name (root f : string) :
  OsPath.has_sep f = false ->
  Generate4llmScript.should_include_file (OsPath.join root f)
  = Generate4llmScript.should_include_file f /\
  DevTools.should_include_file (OsPath.join root f)
  = DevTools.should_include_file f.
Proof. apply should_include_file_join. Qed.

Lemma inclusion_goes_by_the_name_witness :
  OsPath.has_sep "index.js" = false /\
  (Generate4llmScript.should_include_file (OsPath.join "/p/src" "index.js")
   = Generate4llmScript.should_include_file "index.js" /\
   DevTools.should_include_file (OsPath.join "/p/src" "index.js")
   = DevTools.should_include_file "index.js").
Proof.
  split; [reflexivity |].
  apply (inclusion_goes_by_the_name "/p/src" "index.js"). reflexivity.
Defined.

(** ** The two collectors side by side *)

Lemma concat_options_incl {A B : Type} (g1 g2 : B -> option (list A)) (l : list B)
      (r1 : list A) :
  (forall d a, g1 d = Some a -> exists b, g2 d = Some b /\ incl a b) ->
  Os.concat_options (map g1 l) = Some r1 ->
  exists r2, Os.concat_options (map g2 l) = Some r2 /\ incl r1 r2.
Proof.
  intro H. revert r1. induction l as [| x l IH]; intros r1 Hc.
  - injection Hc as <-. exists []. split; [reflexivity | apply incl_refl].
  - cbn [map] in Hc. apply concat_options_cons in Hc as (a & b & Ha & Hb & ->).
    destruct (H x a Ha) as (a' & Ha' & Hia).
    destruct (IH b Hb) as (b' & Hb' & Hib).
    exists (a' ++ b')%list. cbn [map Os.concat_options]. rewrite Ha', Hb'.
    split; [reflexivity | now apply incl_app_app].
Qed.

Lemma flat_map_incl {A B : Type} (f g : A -> list B) (l : list A) :
  (forall x, incl (f x) (g x)) -> incl (flat_map f l) (flat_map g l).
Proof.
  intros H y Hy. apply in_flat_map in Hy as (x & Hx & Hy).
  apply in_flat_map. exists x. split; [exact Hx | now apply H].
Qed.

Lemma walk_incl (ex1 ex2 : string -> bool -> bool) (inc1 inc2 : string -> bool)
      (fs : Os.filesystem) (root_dir : string) (fuel : nat) :
  (forall d, ex1 d true = ex2 d true) ->
  (forall root f, incl (Collector.visit ex1 inc1 root_dir root f)
                       (Collector.visit ex2 inc2 root_dir root f)) ->
  forall top found1,
    Os.walk fuel fs (Collector.body ex1 inc1 root_dir) top = Some found1 ->
    exists found2,
      Os.walk fuel fs (Collector.body ex2 inc2 root_dir) top = Some found2 /\
      incl found1 found2.
Proof.
  intros Hdir Hvisit. induction fuel as [| fuel IH]; intros top found1 W;
    [discriminate |].
  destruct (Os.listdir fs top) as [names | msg] eqn:L.
  - rewrite (walk_step ex1 inc1 fs root_dir fuel top names L) in W.
    rewrite (walk_step ex2 inc2 fs root_dir fuel top names L).
    destruct (Os.concat_options _) as [rest1 |] eqn:C in W; [| discriminate].
    injection W as <-.
    rewrite (filter_ext (fun d => negb (ex1 d true)) (fun d => negb (ex2 d true))) in C
      by (intro d; now rewrite Hdir).
    apply (concat_options_incl _
             (fun d => if Os.islink fs (OsPath.join top d) then Some []
                       else Os.walk fuel fs (Collector.body ex2 inc2 root_dir)
                                    (OsPath.join top d))) in C.
    + destruct C as (rest2 & -> & Hrest).
      eexists. split; [reflexivity |].
      apply incl_app_app; [| exact Hrest]. now apply flat_map_incl.
    + intros d a. cbv beta.
      destruct (Os.islink fs (OsPath.join top d)).
      * intro H. injection H as <-. exists []. split; [reflexivity | apply incl_refl].
      * apply IH.
  - rewrite (walk_denied ex1 inc1 fs root_dir fuel top msg L) in W.
    rewrite (walk_denied ex2 inc2 fs root_dir fuel top msg L).
    injection W as <-. exists []. split; [reflexivity | apply incl_refl].
Qed.

Lemma strict_visit_incl (root_dir root f : string) :
  incl (Collector.visit Generate4llmScript.should_exclude_from_tree
                        Generate4llmScript.should_include_file root_dir root f)
       (Collector.visit (DevTools.should_exclude DevTools.exclude_dirs)
                        DevTools.should_include_file root_dir root f).
Proof.
  unfold Collector.visit.
  destruct (Generate4llmScript.should_exclude_from_tree f false) eqn:Es;
    [intros x [] |].
  change DevTools.should_include_file with Generate4llmScript.should_include_file.
  destruct (DevTools.should_exclude DevTools.exclude_dirs f false) eqn:Ed;
    [| apply incl_refl].
  apply should_exclude_file_iff in Ed.
  assert (Hy : f = "yarn.lock").
  { simpl in Ed.
    repeat (destruct Ed as [<- | Ed]; [try reflexivity; discriminate Es |]).
    contradiction. }
  subst f.
  rewrite (proj1 (should_include_file_join root "yarn.lock" eq_refl)).
  intros x [].
Qed.

(** X11.  With the same excluded directories, every path that the collector
    of generate4llm_script.py returns is returned by the collector of
    dev-tools/generate4LLM.py as well: the former leaves out more. *)
Theorem stricter_collector_returns_less
        (fuel : nat) (fs : Os.filesystem) (root_dir : string)
        (result : list string) :
  Generate4llmScript.find_files_to_include fuel fs root_dir = Some result ->
  exists result',
    DevTools.find_files_to_process DevTools.exclude_dirs fuel fs root_dir
    = Some result' /\
    incl result result'.
Proof.
  rewrite find_files_to_include_collect, find_files_to_process_collect.
  unfold Collector.collect.
  destruct (Os.walk fuel fs _ root_dir) as [found |] eqn:W; [| discriminate].
  intro H. injection H as <-.
  destruct (walk_incl Generate4llmScript.should_exclude_from_tree
              (DevTools.should_exclude DevTools.exclude_dirs)
              Generate4llmScript.should_include_file DevTools.should_include_file
              fs root_dir fuel (fun d => eq_refl) (strict_visit_incl root_dir)
              root_dir found W) as (found' & -> & Hincl).
  eexists. split; [reflexivity |].
  intros p Hp. apply (proj2 (sorted_str_In _ _)). apply Hincl.
  exact (proj1 (sorted_str_In _ _) Hp).
Qed.

Lemma stricter_collector_witness :
  exists result',
    DevTools.find_files_to_process DevTools.exclude_dirs 4 Sample.project "/p"
    = Some result' /\
    incl ["Zed.js"; "app.py"; "src/README.md"; "src/index.js"; "src/lib/util.ts"]
         result'.
Proof.
  apply (stricter_collector_returns_less 4 Sample.project "/p"). reflexivity.
Defined.

(** ** What project-to-gpt.py ignores *)

Section SortFilter.
Context {A K : Type} (leb : K -> K -> bool) (key : A -> K).
Hypothesis leb_trans : forall a b c, leb a b = true -> leb b c = true -> leb a c = true.
Variable f : A -> bool.

Lemma insert_filter_out (x : A) (l : list A) :
  f x = false -> filter f (Py.insert leb key x l) = filter f l.
Proof.
  intro Hx. induction l as [| y l IH]; simpl; [now rewrite Hx |].
  destruct (leb (key x) (key y)); simpl; [now rewrite Hx |].
  now rewrite IH.
Qed.

Lemma insert_filter_in (x : A) (l : list A) :
  f x = true ->
  StronglySorted (Py.key_le leb key) l ->
  filter f (Py.insert leb key x l) = Py.insert leb key x (filter f l).
Proof.
  intros Hx Hs. induction Hs as [| y l Hl IH Hy]; simpl; [now rewrite Hx |].
  destruct (leb (key x) (key y)) eqn:E.
  - simpl. rewrite Hx. destruct (f y) eqn:Fy.
    + simpl. now rewrite E.
    + (* [x] stands before every kept element of [l] *)
      assert (Hall : Forall (fun z => leb (key x) (key z) = true) (filter f l)).
      { apply Forall_forall. intros z Hz. apply filter_In in Hz as [Hz _].
        rewrite Forall_forall in Hy. exact (leb_trans _ _ _ E (Hy z Hz)). }
      destruct (filter f l) as [| z r]; [reflexivity |].
      simpl. inversion Hall as [| ? ? Hz _]; subst. now rewrite Hz.
  - simpl. destruct (f y) eqn:Fy.
    + simpl. now rewrite E, IH.
    + exact IH.
Qed.

Hypothesis leb_total : forall a b, leb a b = true \/ leb b a = true.

(** Sorting and leaving out commute. *)
Lemma sorted_filter (l : list A) :
  filter f (Py.sorted leb key l) = Py.sorted leb key (filter f l).
Proof.
  induction l as [| x l IH]; simpl; [reflexivity |].
  destruct (f x) eqn:Fx.
  - rewrite insert_filter_in; [simpl; now rewrite IH | exact Fx |].
    now apply sorted_sorted.
  - now rewrite insert_filter_out.
Qed.

End SortFilter.

Lemma filter_map_comm {A B : Type} (f : A -> B) (p : B -> bool) (l : list A) :
  filter p (map f l) = map f (filter (fun x => p (f x)) l).
Proof.
  induction l as [| x l IH]; simpl; [reflexivity |].
  destruct (p (f x)); simpl; now rewrite IH.
Qed.

Lemma process_directory_shown {casing : Py.Casing} (fs : Os.filesystem) (fuel : nat)
      (dir_path root_path : string) (o : ProjectToGpt.output) :
  ProjectToGpt.process_directory fuel (Visible.shown fs) dir_path o root_path
  = ProjectToGpt.process_directory fuel fs dir_path o root_path.
Proof.
  revert dir_path o. induction fuel as [| fuel IH]; intros dir_path o;
    [reflexivity |].
  cbn [ProjectToGpt.process_directory].
  change (Os.listdir (Visible.shown fs) dir_path)
    with (match Os.listdir fs dir_path with
          | Os.Listed names =>
              Os.Listed
                (filter (fun n => ProjectToGpt.should_process_path
                                    (OsPath.join dir_path n)) names)
          | Os.Denied msg => Os.Denied msg
          end).
  destruct (Os.listdir fs dir_path) as [names | msg]; [| reflexivity].
  unfold Py.sorted_str.
  rewrite <- (sorted_filter String.leb (fun s => s) string_leb_trans _ String.leb_total).
  rewrite <- (filter_map_comm (OsPath.join dir_path) ProjectToGpt.should_process_path).
  generalize (map (OsPath.join dir_path) (Py.sorted String.leb (fun s => s) names)).
  intro entries. generalize (Some (Py.Returned o)). 
  induction entries as [| entry entries IHe]; intro acc; [reflexivity |].
  cbn [filter fold_left].
  destruct (ProjectToGpt.should_process_path entry) eqn:E.
  - cbn [fold_left negb]. rewrite IHe. f_equal.
    destruct acc as [[o' | e] |]; try reflexivity.
    try rewrite E. cbn [negb].
    change (Os.isdir (Visible.shown fs) entry) with (Os.isdir fs entry).
    change (Os.isfile (Visible.shown fs) entry) with (Os.isfile fs entry).
    now rewrite IH.
  - rewrite IHe. f_equal.
    destruct acc as [[o' | e] |]; try reflexivity; now try rewrite E.
Qed.

Lemma should_process_path_join {casing : Py.Casing} (dir_path n : string) :
  OsPath.has_sep n = false ->
  ProjectToGpt.should_process_path (OsPath.join dir_path n)
  = ProjectToGpt.should_process_path n.
Proof.
  intro Hn.
  unfold ProjectToGpt.should_process_path, ProjectToGpt.suffix, ProjectToGpt.name.
  now rewrite (basename_join dir_path n Hn), (basename_sepfree n Hn).
Qed.

(** X12.  The entries that project-to-gpt.py ignores leave no trace: the
    document and the lines printed are those of a run on the file system
    without them, so an ignored directory is not even listed.  Whether an
    entry is ignored is decided by its name alone. *)
Theorem ignored_entries_leave_no_trace {casing : Py.Casing} :
  (forall (fuel : nat) (fs : Os.filesystem) (now project_path output_file_path : string)
          (o : ProjectToGpt.output),
      ProjectToGpt.generate_documentation fuel (Visible.shown fs) now
                                          project_path output_file_path o
      = ProjectToGpt.generate_documentation fuel fs now
                                            project_path output_file_path o) /\
  (forall dir_path n : string,
      OsPath.has_sep n = false ->
      ProjectToGpt.should_process_path (OsPath.join dir_path n)
      = ProjectToGpt.should_process_path n).
Proof.
  split.
  - intros fuel fs now project_path output_file_path o.
    unfold ProjectToGpt.generate_documentation.
    change (Os.open_w (Visible.shown fs) output_file_path)
      with (Os.open_w fs output_file_path).
    now rewrite process_directory_shown.
  - exact should_process_path_join.
Qed.

Lemma ignored_entries_witness :
  OsPath.has_sep ".env.example" = false /\
  ProjectToGpt.should_process_path (OsPath.join "/p" ".env.example")
  = ProjectToGpt.should_process_path ".env.example" /\
  Os.listdir (Visible.shown Sample.project) "/p"
  = Os.Listed ["src"; "app.py"; "Zed.js"; "secret"; "debug.log"].
Proof.
  split; [reflexivity |]. split; [| reflexivity].
  apply (proj2 ignored_entries_leave_no_trace "/p" ".env.example"). reflexivity.
Defined.

(** ** A parameter without effect *)

(** X15.  The argument [is_last] of [generate_tree] has no effect on what it
    returns. *)
Theorem generate_tree_ignores_is_last {casing : Py.Casing}
        (fuel : nat) (fs : Os.filesystem) (directory prefix : string)
        (is_last is_last' : bool) (max_depth current_depth : Z) :
  Generate4llmScript.generate_tree fuel fs directory prefix is_last
                                   max_depth current_depth
  = Generate4llmScript.generate_tree fuel fs directory prefix is_last'
                                     max_depth current_depth.
Proof. now rewrite !generate_tree_render. Qed.

(** ** One run after another *)

Lemma slashes_concat (c : string) (m : list string) :
  Collector.slashes (c :: m) = "/" ++ String.concat "/" (c :: m).
Proof.
  revert c. induction m as [| d m IH]; intro c.
  - cbn. now rewrite append_nil_r.
  - cbn [Collector.slashes String.concat] in *.
    rewrite IH. reflexivity.
Qed.

Lemma startswith_sep_app (a b : string) :
  a <> "" -> Py.startswith (a ++ b) "/" = Py.startswith a "/".
Proof.
  intro H. destruct a as [| c a]; [contradiction |].
  unfold Py.startswith.
  change (String c a ++ b) with (String c (a ++ b)).
  change (String.prefix "/" (String c (a ++ b)))
    with (if ascii_dec "/"%char c then String.prefix "" (a ++ b) else false).
  change (String.prefix "/" (String c a))
    with (if ascii_dec "/"%char c then String.prefix "" a else false).
  destruct (ascii_dec "/"%char c); [| reflexivity]. now destruct a, b.
Qed.

(** Joining the root and a path relative to it. *)
Lemma join_abs_concat (l m : list string) :
  Forall (fun n => Collector.good_name n = true) l ->
  Forall (fun n => Collector.good_name n = true) m ->
  m <> [] ->
  OsPath.join (Collector.abs l) (String.concat "/" m) = Collector.abs (l ++ m).
Proof.
  intros Hl Hm Hne. destruct m as [| c m]; [contradiction |].
  assert (Hc : Collector.good_name c = true) by now inversion Hm.
  assert (Hs : Py.startswith (String.concat "/" (c :: m)) "/" = false).
  { destruct m as [| d m]; cbn [String.concat].
    - now apply startswith_sep_good.
    - rewrite startswith_sep_app; [now apply startswith_sep_good |].
      apply good_name_spec in Hc. tauto. }
  unfold OsPath.join. rewrite Hs.
  destruct l as [| b l].
  - cbn [Collector.abs app]. change (Collector.abs (c :: m)) with (Collector.slashes (c :: m)).
    rewrite slashes_concat. reflexivity.
  - change (Collector.abs (b :: l)) with (Collector.slashes (b :: l)).
    change (Collector.abs ((b :: l) ++ c :: m))
      with (Collector.slashes ((b :: l) ++ c :: m)).
    rewrite (endswith_sep_slashes_cons b l Hl).
    destruct (String.eqb_spec (Collector.slashes (b :: l)) "") as [F | _];
      [now apply slashes_not_empty in F |].
    rewrite slashes_app, (slashes_concat c m). reflexivity.
Qed.

Section SameEntries.
Context {casing : Py.Casing}.
Variable fs1 fs2 : Os.filesystem.
Hypothesis same_listdir : forall p, Os.listdir fs1 p = Os.listdir fs2 p.
Hypothesis same_isdir : forall p, Os.isdir fs1 p = Os.isdir fs2 p.
Hypothesis same_islink : forall p, Os.islink fs1 p = Os.islink fs2 p.
Variable excluded : string -> bool -> bool.

(** The tree is drawn from the listings and the kinds of the entries. *)
Lemma render_entries (fuel : nat) (directory prefix : string)
      (max_depth current_depth : Z) :
  Tree.render excluded fs1 fuel directory prefix max_depth current_depth
  = Tree.render excluded fs2 fuel directory prefix max_depth current_depth.
Proof.
  revert directory prefix current_depth.
  induction fuel as [| fuel IH]; intros directory prefix current_depth;
    [reflexivity |].
  cbn [Tree.render]. rewrite same_listdir.
  destruct (current_depth >? max_depth)%Z; [reflexivity |].
  destruct (Os.listdir fs2 directory) as [names | msg]; [| reflexivity].
  assert (E : Tree.level excluded fs1 directory names
              = Tree.level excluded fs2 directory names).
  { unfold Tree.level, Tree.kept. f_equal.
    rewrite (map_ext (Tree.entry fs1 directory) (Tree.entry fs2 directory))
      by (intro n; unfold Tree.entry; now rewrite same_isdir).
    f_equal. apply filter_ext. intro n. now rewrite same_isdir. }
  rewrite E. apply lines_ext. intros path next_prefix. apply IH.
Qed.

Variable included : string -> bool.
Variable root_dir : string.

(** The files are collected from the listings, the kinds of the entries
    and the links. *)
Lemma walk_entries (fuel : nat) (top : string) :
  Os.walk fuel fs1 (Collector.body excluded included root_dir) top
  = Os.walk fuel fs2 (Collector.body excluded included root_dir) top.
Proof.
  revert top. induction fuel as [| fuel IH]; intro top; [reflexivity |].
  cbn [Os.walk]. rewrite same_listdir.
  destruct (Os.listdir fs2 top) as [names | msg]; [| reflexivity].
  rewrite (filter_ext (fun n => Os.isdir fs1 (OsPath.join top n))
                      (fun n => Os.isdir fs2 (OsPath.join top n)))
    by (intro n; apply same_isdir).
  rewrite (filter_ext (fun n => negb (Os.isdir fs1 (OsPath.join top n)))
                      (fun n => negb (Os.isdir fs2 (OsPath.join top n))))
    by (intro n; now rewrite same_isdir).
  destruct (Collector.body excluded included root_dir top _ _) as [dirs' out].
  erewrite map_ext; [reflexivity |].
  intro d. cbv zeta. now rewrite same_islink, IH.
Qed.

Lemma collect_entries (fuel : nat) :
  Collector.collect excluded included root_dir fuel fs1
  = Collector.collect excluded included root_dir fuel fs2.
Proof. unfold Collector.collect. now rewrite walk_entries. Qed.

End SameEntries.

(** Writing the report into a directory that lists [4LLM.md] already
    changes no listing. *)
Lemma after_write_listdir (fs : Os.filesystem) (directory name : string)
      (data : list Byte.byte) (names : list string) :
  Os.listdir fs directory = Os.Listed names ->
  In name names ->
  forall p, Os.listdir (Os.after_write fs directory name data) p = Os.listdir fs p.
Proof.
  intros L Hin p. cbn.
  destruct (Os.listdir fs p) as [names' | msg] eqn:Lp; [| reflexivity].
  destruct (String.eqb_spec p directory) as [-> | _]; [| reflexivity].
  rewrite L in Lp. injection Lp as <-.
  apply contains_In in Hin. now rewrite Hin.
Qed.

(** No collected file is the report of an earlier run: [4LLM.md] does
    not pass the inclusion test. *)
Lemma collected_is_not_the_report (fs : Os.filesystem) (root : list string)
      (fuel : nat) (files : list string) (p : string) :
  Forall (fun n => Collector.good_name n = true) root ->
  Collector.good_listings fs ->
  Generate4llmScript.find_files_to_include fuel fs (Collector.abs root) = Some files ->
  In p files ->
  (OsPath.join (Collector.abs root) p =? OsPath.join (Collector.abs root) "4LLM.md")%string
  = false.
Proof.
  intros Hroot Hgood H Hp. rewrite find_files_to_include_collect in H.
  destruct (collect_shape _ _ fs root Hroot Hgood fuel files H)
    as (rels & Hperm & Hadm & _).
  apply (Permutation_in _ (Permutation_sym Hperm)) in Hp.
  apply in_map_iff in Hp as (m & <- & Hm).
  rewrite Forall_forall in Hadm. destruct (Hadm m Hm) as (Hne & Hg & _ & _ & Hinc).
  rewrite join_abs_concat by assumption.
  rewrite join_abs by (try assumption; reflexivity).
  apply String.eqb_neq. intro E. cbn [app] in Hinc. rewrite E in Hinc.
  unfold Generate4llmScript.should_include_file in Hinc.
  rewrite basename_abs in Hinc by reflexivity.
  discriminate.
Qed.

Lemma generate_markdown_again {casing : Py.Casing}
      (fuel : nat) (fs : Os.filesystem) (root names : list string)
      (data : list Byte.byte) :
  Forall (fun n => Collector.good_name n = true) root ->
  Collector.good_listings fs ->
  Os.listdir fs (Collector.abs root) = Os.Listed names ->
  In "4LLM.md" names ->
  Generate4llmScript.generate_markdown
    fuel (Os.after_write fs (Collector.abs root) "4LLM.md" data) (Collector.abs root)
  = Generate4llmScript.generate_markdown fuel fs (Collector.abs root).
Proof.
  intros Hroot Hgood L Hin.
  pose proof (after_write_listdir fs _ _ data names L Hin) as Hl.
  set (fs' := Os.after_write fs (Collector.abs root) "4LLM.md" data) in *.
  unfold Generate4llmScript.generate_markdown.
  rewrite !generate_tree_render, !find_files_to_include_collect.
  rewrite (render_entries fs' fs Hl (fun _ => eq_refl)).
  rewrite (collect_entries fs' fs Hl (fun _ => eq_refl) (fun _ => eq_refl)).
  destruct (Tree.render _ fs fuel _ "" 10 0) as [tree |]; [| reflexivity].
  destruct (Collector.collect _ _ _ fuel fs) as [files |] eqn:Hf; [| reflexivity].
  change (Os.open_w fs') with (Os.open_w fs). do 2 f_equal.
  rewrite !(fold_sections _ _ _ _ (fun file acc' => file_section_appends _ _ file acc')).
  f_equal. f_equal. f_equal. apply map_ext_in. intros p Hp.
  unfold Report.section, Report.content_at. do 2 f_equal.
  assert (E : Os.open_r fs' (OsPath.join (Collector.abs root) p)
              = Os.open_r fs (OsPath.join (Collector.abs root) p)).
  { unfold fs', Os.after_write. cbn [Os.open_r].
    now rewrite (collected_is_not_the_report fs root fuel files p Hroot Hgood Hf Hp). }
  now rewrite E.
Qed.

Lemma dev_collected_is_not_the_report (fs : Os.filesystem) (root dirs : list string)
      (fuel : nat) (files : list string) (p : string) :
  Forall (fun n => Collector.good_name n = true) root ->
  Collector.good_listings fs ->
  DevTools.find_files_to_process dirs fuel fs (Collector.abs root) = Some files ->
  In p files ->
  (OsPath.join (Collector.abs root) p
   =? OsPath.join (OsPath.join (Collector.abs root) "dev-tools") "4LLM.md")%string
  = false.
Proof.
  intros Hroot Hgood H Hp. rewrite find_files_to_process_collect in H.
  destruct (collect_shape _ _ fs root Hroot Hgood fuel files H)
    as (rels & Hperm & Hadm & _).
  apply (Permutation_in _ (Permutation_sym Hperm)) in Hp.
  apply in_map_iff in Hp as (m & <- & Hm).
  rewrite Forall_forall in Hadm. destruct (Hadm m Hm) as (Hne & Hg & _ & _ & Hinc).
  rewrite join_abs_concat by assumption.
  assert (Hdev : Forall (fun n => Collector.good_name n = true) (root ++ ["dev-tools"])).
  { apply Forall_app. split; [assumption |]. now constructor. }
  rewrite (join_abs root "dev-tools" Hroot eq_refl).
  rewrite (join_abs (root ++ ["dev-tools"]) "4LLM.md" Hdev eq_refl).
  apply String.eqb_neq. intro E. cbn [app] in Hinc. rewrite E in Hinc.
  unfold DevTools.should_include_file in Hinc.
  rewrite basename_abs in Hinc by reflexivity.
  discriminate.
Qed.

Lemma dev_generate_markdown_again {casing : Py.Casing}
      (fuel : nat) (fs : Os.filesystem) (root names : list string)
      (dev_tools_name : string) (data : list Byte.byte) :
  Forall (fun n => Collector.good_name n = true) root ->
  Collector.good_listings fs ->
  Os.listdir fs (OsPath.join (Collector.abs root) "dev-tools") = Os.Listed names ->
  In "4LLM.md" names ->
  DevTools.generate_markdown
    fuel (Os.after_write fs (OsPath.join (Collector.abs root) "dev-tools") "4LLM.md" data)
    (Collector.abs root) dev_tools_name
  = DevTools.generate_markdown fuel fs (Collector.abs root) dev_tools_name.
Proof.
  intros Hroot Hgood L Hin.
  pose proof (after_write_listdir fs _ _ data names L Hin) as Hl.
  set (fs' := Os.after_write fs _ "4LLM.md" data) in *.
  unfold DevTools.generate_markdown.
  rewrite !dev_generate_tree_render, !find_files_to_process_collect.
  rewrite (render_entries fs' fs Hl (fun _ => eq_refl)).
  rewrite (collect_entries fs' fs Hl (fun _ => eq_refl) (fun _ => eq_refl)).
  destruct (Tree.render _ fs fuel _ "" 10 0) as [tree |]; [| reflexivity].
  destruct (Collector.collect _ _ _ fuel fs) as [files |] eqn:Hf; [| reflexivity].
  change (Os.open_w fs') with (Os.open_w fs). do 2 f_equal.
  rewrite !(fold_sections _ _ _ _ (fun file acc' => dev_file_section_appends _ _ file acc')).
  f_equal. f_equal. f_equal. apply map_ext_in. intros p Hp.
  unfold Report.dev_section, Report.content_at. do 2 f_equal.
  assert (E : Os.open_r fs' (OsPath.join (Collector.abs root) p)
              = Os.open_r fs (OsPath.join (Collector.abs root) p)).
  { unfold fs', Os.after_write. cbn [Os.open_r].
    now rewrite (dev_collected_is_not_the_report fs root _ fuel files p Hroot Hgood Hf Hp). }
  now rewrite E.
Qed.

Section SameVisible.
Context {casing : Py.Casing}.
Variable fs1 fs2 : Os.filesystem.
Hypothesis same_listdir : forall p, Os.listdir fs1 p = Os.listdir fs2 p.
Hypothesis same_isdir : forall p, Os.isdir fs1 p = Os.isdir fs2 p.
Hypothesis same_files :
  forall entry, ProjectToGpt.should_process_path entry = true ->
                Os.isfile fs1 entry = Os.isfile fs2 entry /\
                Os.open_r fs1 entry = Os.open_r fs2 entry.

(** The traversal of project-to-gpt.py looks at the listings, at the
    kinds of the entries, and into the files it does not ignore. *)
Lemma process_directory_entries (fuel : nat) (dir_path root_path : string)
      (o : ProjectToGpt.output) :
  ProjectToGpt.process_directory fuel fs1 dir_path o root_path
  = ProjectToGpt.process_directory fuel fs2 dir_path o root_path.
Proof.
  revert dir_path o. induction fuel as [| fuel IH]; intros dir_path o;
    [reflexivity |].
  cbn [ProjectToGpt.process_directory]. rewrite same_listdir.
  destruct (Os.listdir fs2 dir_path) as [names | msg]; [| reflexivity].
  apply fold_left_ext. intros acc entry.
  destruct acc as [[o' | e] |]; try reflexivity.
  destruct (ProjectToGpt.should_process_path entry) eqn:E; [| reflexivity].
  cbn [negb]. destruct (same_files entry E) as [Hf Hr].
  rewrite same_isdir, Hf, IH.
  rewrite !process_file_form, Hr. reflexivity.
Qed.

End SameVisible.

(** The default output file of project-to-gpt.py is ignored by its
    traversal, whatever letters lower-casing folds. *)
Lemma default_output_is_ignored {casing : Py.Casing} (directory : string) :
  ProjectToGpt.should_process_path (OsPath.join directory "project_documentation.md")
  = false.
Proof.
  rewrite should_process_path_join by reflexivity.
  unfold ProjectToGpt.should_process_path.
  replace (Py.contains ProjectToGpt.IGNORED_FILES
                       (ProjectToGpt.name "project_documentation.md"))
    with true by reflexivity.
  cbn [negb]. apply andb_false_r.
Qed.

Lemma generate_documentation_again {casing : Py.Casing}
      (fuel : nat) (fs : Os.filesystem)
      (now project_path directory name : string) (data : list Byte.byte)
      (o : ProjectToGpt.output) :
  ProjectToGpt.should_process_path (OsPath.join directory name) = false ->
  ProjectToGpt.generate_documentation
    fuel (Os.after_write fs directory name data) now project_path
    (OsPath.join directory name) o
  = ProjectToGpt.generate_documentation
      fuel fs now project_path (OsPath.join directory name) o.
Proof.
  intro Hig. unfold ProjectToGpt.generate_documentation.
  change (Os.open_w (Os.after_write fs directory name data)) with (Os.open_w fs).
  destruct (Os.open_w fs (OsPath.join directory name)); [reflexivity |].
  rewrite <- (process_directory_shown (Os.after_write fs directory name data)).
  rewrite <- (process_directory_shown fs).
  rewrite (process_directory_entries
             (Visible.shown (Os.after_write fs directory name data))
             (Visible.shown fs)); [reflexivity | | reflexivity |].
  - intro p. cbn [Visible.shown Os.listdir Os.after_write].
    destruct (Os.listdir fs p) as [names | msg]; [| reflexivity].
    destruct (String.eqb_spec p directory) as [-> | _]; [| reflexivity].
    destruct (Py.contains names name); [reflexivity |].
    cbn [andb negb]. rewrite filter_app. cbn [filter]. rewrite Hig.
    now rewrite app_nil_r.
  - intros entry E. cbn [Visible.shown Os.isfile Os.open_r Os.after_write].
    destruct (String.eqb_spec entry (OsPath.join directory name)) as [-> | _];
      [congruence | now split].
Qed.

Lemma reported_good_listings : Collector.good_listings Sample.reported.
Proof. apply mkfs_good_listings. reflexivity. Qed.



